(** * Motion-Analyzer firmware (Feather M0 / ATSAMD21): ADC acquisition

    Shallow embedding of [ctrlADC.cpp] and [ctrlTimer.cpp] and the properties
    of the acquisition state machine: the channel scheduler, the ring-buffer
    bookkeeping, the sample conversion, the gain selection, the UDP payload
    and the sample-timer compare value.

    Integers of the firmware are modelled as [Z] with the width of each C
    type written out ([uint8], [uint16], [int16], [int32]); the sample store
    [ADC_buffer] is a nested list accessed with option-valued indexing, so an
    access outside one of the three dimensions is visible as [None].

    Of the peripherals only what the firmware reads back or what a property
    speaks about is kept: the MUX and gain fields, the start requests, and
    whether a conversion is running.  The [while (... SYNCBUSY)] waits are
    taken to end. *)

From Stdlib Require Import ZArith List Lia Bool Sorted.
From stdpp Require Import base option list.
Import ListNotations.

Local Open Scope Z_scope.

(** ** Fixed-width integers *)

Definition uint8 (z : Z) : Z := z mod 256.
Definition uint16 (z : Z) : Z := z mod 65536.
Definition int16 (z : Z) : Z := (z + 32768) mod 65536 - 32768.
Definition int32 (z : Z) : Z := (z + 2147483648) mod 4294967296 - 2147483648.

(** ** ctrlADC.h / ctrlTimer.h *)

Definition N_ADC_INPUT : Z := 5.
Definition N_ADC_BUFFERS : Z := 64.
Definition N_ADC_BUFFER_POS : Z := 16.

Definition TIMER_PRESCALER_DIV : Z := 1024.
Definition CPU_HZ : Z := 48000000.

(** ** Board and vendor definitions

    The pin numbers [A1] .. [A5], the pin table [g_APinDescription] and the
    [ADC_INPUTCTRL_GAIN_*_Val] register encodings come from the Arduino core
    and the vendor headers; the firmware only names them.  They are kept as
    an interface. *)

Class BoardDefs := {
  A1 : Z; A2 : Z; A3 : Z; A4 : Z; A5 : Z;
  ulADCChannelNumber : Z -> Z;      (* g_APinDescription[pin].ulADCChannelNumber *)
  ADC_INPUTCTRL_GAIN_1X_Val : Z;
  ADC_INPUTCTRL_GAIN_2X_Val : Z;
  ADC_INPUTCTRL_GAIN_4X_Val : Z;
  ADC_INPUTCTRL_GAIN_8X_Val : Z;
  ADC_INPUTCTRL_GAIN_16X_Val : Z
}.

(** The Adafruit Feather M0 variant: A1..A5 are pins 15..19, wired to the
    ADC inputs AIN2, AIN3, AIN4, AIN5 and AIN10. *)
#[export] Instance feather_m0 : BoardDefs := {|
  A1 := 15; A2 := 16; A3 := 17; A4 := 18; A5 := 19;
  ulADCChannelNumber := fun pin =>
    match pin with
    | 14 => 0 | 15 => 2 | 16 => 3 | 17 => 4 | 18 => 5 | 19 => 10
    | _ => 255
    end;
  ADC_INPUTCTRL_GAIN_1X_Val := 0;
  ADC_INPUTCTRL_GAIN_2X_Val := 1;
  ADC_INPUTCTRL_GAIN_4X_Val := 2;
  ADC_INPUTCTRL_GAIN_8X_Val := 3;
  ADC_INPUTCTRL_GAIN_16X_Val := 4
|}.

(** ** The ADC peripheral, as far as the firmware drives it *)

Record ADC_regs := {
  INPUTCTRL_MUXPOS : Z;        (* positive input MUX *)
  INPUTCTRL_GAIN : Z;          (* PGA gain field *)
  SWTRIG_START : list Z;       (* MUXPOS at every flush+start request, oldest first *)
  conversion_running : bool    (* started, RESULT not yet read *)
}.

(** ** Globals of ctrlADC.cpp *)

Record state := {
  ADC_EnabledInputs : Z;                 (* uint8_t *)
  ADC_buffer : list (list (list Z));     (* int16_t [N_ADC_INPUT][N_ADC_BUFFERS][N_ADC_BUFFER_POS] *)
  iBuffer : Z;                           (* uint8_t *)
  iBufferPos : Z;                        (* int *)
  iBufferTransmit : Z;                   (* uint8_t, 0xff = nothing to transmit *)
  iReadInput : Z;                        (* int, -1 = no input read yet in this round *)
  ADC_Gain : Z;                          (* uint8_t *)
  ADC : ADC_regs
}.

Definition set_iReadInput (v : Z) (st : state) : state :=
  {| ADC_EnabledInputs := ADC_EnabledInputs st; ADC_buffer := ADC_buffer st;
     iBuffer := iBuffer st; iBufferPos := iBufferPos st;
     iBufferTransmit := iBufferTransmit st; iReadInput := v;
     ADC_Gain := ADC_Gain st; ADC := ADC st |}.

Definition set_iBufferPos (v : Z) (st : state) : state :=
  {| ADC_EnabledInputs := ADC_EnabledInputs st; ADC_buffer := ADC_buffer st;
     iBuffer := iBuffer st; iBufferPos := v;
     iBufferTransmit := iBufferTransmit st; iReadInput := iReadInput st;
     ADC_Gain := ADC_Gain st; ADC := ADC st |}.

Definition set_iBuffer (v : Z) (st : state) : state :=
  {| ADC_EnabledInputs := ADC_EnabledInputs st; ADC_buffer := ADC_buffer st;
     iBuffer := v; iBufferPos := iBufferPos st;
     iBufferTransmit := iBufferTransmit st; iReadInput := iReadInput st;
     ADC_Gain := ADC_Gain st; ADC := ADC st |}.

Definition set_iBufferTransmit (v : Z) (st : state) : state :=
  {| ADC_EnabledInputs := ADC_EnabledInputs st; ADC_buffer := ADC_buffer st;
     iBuffer := iBuffer st; iBufferPos := iBufferPos st;
     iBufferTransmit := v; iReadInput := iReadInput st;
     ADC_Gain := ADC_Gain st; ADC := ADC st |}.

Definition set_ADC_Gain (v : Z) (st : state) : state :=
  {| ADC_EnabledInputs := ADC_EnabledInputs st; ADC_buffer := ADC_buffer st;
     iBuffer := iBuffer st; iBufferPos := iBufferPos st;
     iBufferTransmit := iBufferTransmit st; iReadInput := iReadInput st;
     ADC_Gain := v; ADC := ADC st |}.

Definition set_ADC_buffer (b : list (list (list Z))) (st : state) : state :=
  {| ADC_EnabledInputs := ADC_EnabledInputs st; ADC_buffer := b;
     iBuffer := iBuffer st; iBufferPos := iBufferPos st;
     iBufferTransmit := iBufferTransmit st; iReadInput := iReadInput st;
     ADC_Gain := ADC_Gain st; ADC := ADC st |}.

Definition set_ADC (r : ADC_regs) (st : state) : state :=
  {| ADC_EnabledInputs := ADC_EnabledInputs st; ADC_buffer := ADC_buffer st;
     iBuffer := iBuffer st; iBufferPos := iBufferPos st;
     iBufferTransmit := iBufferTransmit st; iReadInput := iReadInput st;
     ADC_Gain := ADC_Gain st; ADC := r |}.

(** ** Indexing [ADC_buffer]

    [ADC_buffer[i][j][k]]: every index has to lie inside its own dimension. *)

Definition buffer_load (buf : list (list (list Z))) (i j k : Z) : option Z :=
  if (0 <=? i) && (0 <=? j) && (0 <=? k) then
    plane ← buf !! Z.to_nat i;
    row ← plane !! Z.to_nat j;
    row !! Z.to_nat k
  else None.

Definition buffer_store (buf : list (list (list Z))) (i j k : Z) (v : Z)
  : option (list (list (list Z))) :=
  if (0 <=? i) && (0 <=? j) && (0 <=? k) then
    plane ← buf !! Z.to_nat i;
    row ← plane !! Z.to_nat j;
    _ ← row !! Z.to_nat k;
    Some (<[Z.to_nat i := <[Z.to_nat j := <[Z.to_nat k := v]> row]> plane]> buf)
  else None.

Section Firmware.
Context `{BoardDefs}.

(** [const uint8_t regInputs[] = {A1, A2, A3, A4, A5}] *)
Definition regInputs : list Z := [A1; A2; A3; A4; A5].

(** ** ADC_StartRead *)

(** The body of the [if] in the scan loop: select the MUX input, flush,
    start the conversion and remember which input is being read. *)
Definition start_conversion (iInput : Z) (st : state) : state :=
  let mux := ulADCChannelNumber (nth (Z.to_nat iInput) regInputs 0) in
  set_iReadInput iInput
    (set_ADC {| INPUTCTRL_MUXPOS := mux;
                INPUTCTRL_GAIN := INPUTCTRL_GAIN (ADC st);
                SWTRIG_START := SWTRIG_START (ADC st) ++ [mux];
                conversion_running := true |} st).

(** [for (iInput = ...; iInput < N_ADC_INPUT; iInput++)], with [n] bounding
    the number of iterations still to run. *)
Fixpoint ADC_StartRead_loop (n : nat) (iInput : Z) (st : state) : state :=
  match n with
  | O => st
  | S n' =>
      if iInput <? N_ADC_INPUT then
        if negb (Z.land (ADC_EnabledInputs st) (Z.shiftl 1 iInput) =? 0)
        then start_conversion iInput st
        else ADC_StartRead_loop n' (iInput + 1) st
      else st
  end.

Definition ADC_StartRead (st : state) : state :=
  let iInput := int32 (iReadInput st + 1) in
  ADC_StartRead_loop (Z.to_nat (N_ADC_INPUT - iInput)) iInput st.

(** ** ADC_UpdateBufferIdx *)

Definition ADC_UpdateBufferIdx (st : state) : state :=
  if negb (ADC_EnabledInputs st =? 0) then
    let st := set_iBufferPos (int32 (iBufferPos st + 1)) st in
    let st :=
      if iBufferPos st =? N_ADC_BUFFER_POS then
        let st := set_iBufferTransmit (iBuffer st) st in
        let st := set_iBuffer (uint8 (iBuffer st + 1)) st in
        let st := set_iBuffer (uint8 (Z.rem (iBuffer st) N_ADC_BUFFERS)) st in
        set_iBufferPos 0 st
      else st in
    set_iReadInput (-1) st
  else st.

(** ** ADC_setGain *)

Definition ADC_setGain (Gain_in : Z) (st : state) : bool * state :=
  let gain_field :=
    match Gain_in with
    | 1 => Some ADC_INPUTCTRL_GAIN_1X_Val
    | 2 => Some ADC_INPUTCTRL_GAIN_2X_Val
    | 4 => Some ADC_INPUTCTRL_GAIN_4X_Val
    | 8 => Some ADC_INPUTCTRL_GAIN_8X_Val
    | 16 => Some ADC_INPUTCTRL_GAIN_16X_Val
    | _ => None
    end in
  match gain_field with
  | None => (false, st)
  | Some g =>
      let st := set_ADC {| INPUTCTRL_MUXPOS := INPUTCTRL_MUXPOS (ADC st);
                           INPUTCTRL_GAIN := g;
                           SWTRIG_START := SWTRIG_START (ADC st);
                           conversion_running := conversion_running (ADC st) |} st in
      (true, set_ADC_Gain Gain_in st)
  end.

(** ** ADC_Handler *)

(** Lines 121-127: the 12 bit result as a 16 bit two's complement value. *)
Definition convert_sample (RESULT : Z) : Z :=
  let sample := uint16 RESULT in
  let sample :=
    if negb (Z.land sample 0x0800 =? 0) then uint16 (Z.lor sample 0xf000)
    else sample in
  int16 sample.

(** Reading [ADC->RESULT.reg] acknowledges the finished conversion. *)
Definition read_RESULT (st : state) : state :=
  set_ADC {| INPUTCTRL_MUXPOS := INPUTCTRL_MUXPOS (ADC st);
             INPUTCTRL_GAIN := INPUTCTRL_GAIN (ADC st);
             SWTRIG_START := SWTRIG_START (ADC st);
             conversion_running := false |} st.

Definition ADC_Handler (RESULT : Z) (st : state) : option state :=
  let st := read_RESULT st in
  buf ← buffer_store (ADC_buffer st) (iReadInput st) (iBuffer st) (iBufferPos st)
          (convert_sample RESULT);
  Some (ADC_StartRead (set_ADC_buffer buf st)).

(** ** ADC_UdpTransmit *)

Record packet := {
  pkt_ip : Z;
  pkt_port : Z;
  pkt_payload : list Z        (* bytes *)
}.

(** The two [UDP_in.write] calls of one sample. *)
Definition write_sample (v : Z) : list Z := [uint8 v; uint8 (Z.shiftr v 8)].

(** [for (iPos = ...; iPos < N_ADC_BUFFER_POS; iPos++)] *)
Fixpoint UdpTransmit_positions (n : nat) (iPos : Z) (st : state)
    (iInput iBuffer_in : Z) (out : list Z) : option (list Z) :=
  match n with
  | O => Some out
  | S n' =>
      if iPos <? N_ADC_BUFFER_POS then
        v ← buffer_load (ADC_buffer st) iInput iBuffer_in iPos;
        UdpTransmit_positions n' (iPos + 1) st iInput iBuffer_in (out ++ write_sample v)
      else Some out
  end.

(** [for (iInput = ...; iInput < N_ADC_INPUT; iInput++)] *)
Fixpoint UdpTransmit_inputs (n : nat) (iInput : Z) (st : state)
    (iBuffer_in : Z) (out : list Z) : option (list Z) :=
  match n with
  | O => Some out
  | S n' =>
      if iInput <? N_ADC_INPUT then
        if negb (Z.land (ADC_EnabledInputs st) (Z.shiftl 0x1 iInput) =? 0) then
          out' ← UdpTransmit_positions (Z.to_nat N_ADC_BUFFER_POS) 0 st iInput iBuffer_in out;
          UdpTransmit_inputs n' (iInput + 1) st iBuffer_in out'
        else UdpTransmit_inputs n' (iInput + 1) st iBuffer_in out
      else Some out
  end.

Definition ADC_UdpTransmit (st : state) (iBuffer_in IP_in Port_in DataType : Z)
  : option packet :=
  let out := [uint8 DataType; iBuffer_in; ADC_EnabledInputs st] in
  out ← UdpTransmit_inputs (Z.to_nat N_ADC_INPUT) 0 st iBuffer_in out;
  Some {| pkt_ip := IP_in; pkt_port := Port_in; pkt_payload := out |}.

(** The four-argument overload: data type ['D']. *)
Definition ADC_UdpTransmit_D (st : state) (iBuffer_in IP_in Port_in : Z)
  : option packet :=
  ADC_UdpTransmit st iBuffer_in IP_in Port_in 68.

(** ** A sampling round

    The conversion-complete interrupt fires once for every conversion that
    was started; [results] are the values found in [ADC->RESULT.reg], in
    order.  The chain of interrupts stops as soon as no conversion is
    running.  The inputs whose samples were stored are returned with the
    final state. *)
Fixpoint conversion_events (results : list Z) (st : state)
  : option (list Z * state) :=
  match results with
  | [] => Some ([], st)
  | RESULT :: results' =>
      if conversion_running (ADC st) then
        st' ← ADC_Handler RESULT st;
        r ← conversion_events results' st';
        Some (iReadInput st :: r.1, r.2)
      else Some ([], st)
  end.

(** The two calls made by the timer interrupt, then the conversions. *)
Definition ADC_round (results : list Z) (st : state) : option (list Z * state) :=
  conversion_events results (ADC_StartRead (ADC_UpdateBufferIdx st)).

End Firmware.

(** ** ctrlTimer.cpp *)

Record TC_regs := {
  COUNT : Z;              (* TC->COUNT.reg, 16 bit *)
  CC0 : Z;                (* TC->CC[0].reg, 16 bit *)
  INTFLAG_MC0 : bool
}.

Module Arduino.

(** Modelled from the spec: [map] is a function of the Arduino core and is
    not part of the firmware sources.  The spec gives the rescaling as
    [oldPhase * compare_new / compare_old]; the core computes it in [long]
    (32 bit on this target) as
    [(x - in_min) * (out_max - out_min) / (in_max - in_min) + out_min]:
    C integer division, so the quotient is cut off toward zero and a zero
    divisor has no result; the intermediate values are kept in 32 bits. *)
Definition map (x in_min in_max out_min out_max : Z) : option Z :=
  let divisor := int32 (in_max - in_min) in
  if divisor =? 0 then None
  else Some (int32 (int32 (int32 (x - in_min) * int32 (out_max - out_min))
                      ÷ divisor + out_min)).

End Arduino.

(** [int compareValue = (CPU_HZ / (TIMER_PRESCALER_DIV * frequencyHz)) - 1;]
    a zero divisor has no result. *)
Definition compareValue (frequencyHz : Z) : option Z :=
  let divisor := int32 (TIMER_PRESCALER_DIV * frequencyHz) in
  if divisor =? 0 then None else Some (int32 (CPU_HZ ÷ divisor - 1)).

(** The counter is rescaled (line 32) before the compare register is
    written (line 35). *)
Definition setTimerFrequency (frequencyHz : Z) (tc : TC_regs) : option TC_regs :=
  cmp ← compareValue frequencyHz;
  count ← Arduino.map (COUNT tc) 0 (CC0 tc) 0 cmp;
  Some {| COUNT := uint16 count; CC0 := uint16 cmp; INTFLAG_MC0 := INTFLAG_MC0 tc |}.

(** [TC3_Handler]: on a compare match, acknowledge it and start a round. *)
Definition TC3_Handler `{BoardDefs} (tc : TC_regs) (st : state) : TC_regs * state :=
  if INTFLAG_MC0 tc then
    ({| COUNT := COUNT tc; CC0 := CC0 tc; INTFLAG_MC0 := false |},
     ADC_StartRead (ADC_UpdateBufferIdx st))
  else (tc, st).

(** ** Vocabulary of the properties *)

(** The store has its declared shape. *)
Definition buffer_shape (buf : list (list (list Z))) : Prop :=
  length buf = Z.to_nat N_ADC_INPUT /\
  Forall (fun plane : list (list Z) =>
            length plane = Z.to_nat N_ADC_BUFFERS /\
            Forall (fun row : list Z => length row = Z.to_nat N_ADC_BUFFER_POS) plane)
         buf.

(** Every stored sample is an [int16_t]. *)
Definition buffer_int16 (buf : list (list (list Z))) : Prop :=
  Forall (Forall (Forall (fun v : Z => -32768 <= v < 32768))) buf.

(** The inputs above [lo] whose bit is set in [mask], ascending. *)
Definition enabled_above (lo mask : Z) : list Z :=
  List.filter (Z.testbit mask) (seqZ (lo + 1) (N_ADC_INPUT - (lo + 1))).

Definition enabled_inputs (mask : Z) : list Z := enabled_above (-1) mask.

(** The samples of one input in one buffer, by position. *)
Definition frame_row (buf : list (list (list Z))) (iInput iBuffer_in : Z) : list Z :=
  default [] (plane ← buf !! Z.to_nat iInput; plane !! Z.to_nat iBuffer_in).

(** [round (a / b)]: the quotient rounded to the nearest integer, halves
    upward. *)
Definition round_div (a b : Z) : Z := (2 * a + b) / (2 * b).

(** The invariant of the globals: the store has its shape and holds
    [int16_t] values, the buffer indices are inside their dimensions, and
    [iReadInput] is -1 or an input. *)
Definition state_ok (st : state) : Prop :=
  buffer_shape (ADC_buffer st) /\ buffer_int16 (ADC_buffer st) /\
  0 <= iBuffer st < N_ADC_BUFFERS /\ 0 <= iBufferPos st < N_ADC_BUFFER_POS /\
  -1 <= iReadInput st < N_ADC_INPUT.

(** The bytes of a sequence of samples as [ADC_UdpTransmit] writes them. *)
Definition sample_bytes (row : list Z) : list Z := concat (write_sample <$> row).

Section BoardVocabulary.
Context `{BoardDefs}.

(** The MUX setting of an input. *)
Definition mux_of (iInput : Z) : Z :=
  ulADCChannelNumber (nth (Z.to_nat iInput) regInputs 0).

(** The register encoding written for an accepted gain. *)
Definition gain_encoding (g : Z) : Z :=
  if g =? 1 then ADC_INPUTCTRL_GAIN_1X_Val
  else if g =? 2 then ADC_INPUTCTRL_GAIN_2X_Val
  else if g =? 4 then ADC_INPUTCTRL_GAIN_4X_Val
  else if g =? 8 then ADC_INPUTCTRL_GAIN_8X_Val
  else ADC_INPUTCTRL_GAIN_16X_Val.

End BoardVocabulary.

(** ** The receiving side of the wire format

    The firmware sources have no decoder.  [Wire.decode] follows the spec's
    description of the wire format, to be compared with what
    [ADC_UdpTransmit] writes: type tag, buffer index, input mask, then for
    every input whose bit is set in the mask, ascending, [N_ADC_BUFFER_POS]
    samples of two bytes each, least significant byte first.  Every element
    has to be a byte: anything outside 0..255 is refused. *)
Module Wire.

Record frame := {
  tag : Z;
  buffer_index : Z;
  mask : Z;
  channels : list (Z * list Z)     (* input index, samples by position *)
}.

(** What a byte of a datagram can be. *)
Definition is_byte (b : Z) : bool := (0 <=? b) && (b <? 256).

Definition sample_of_bytes (lo hi : Z) : Z := int16 (lo + 256 * hi).

Fixpoint decode_samples (n : nat) (bytes : list Z) : option (list Z * list Z) :=
  match n with
  | O => Some ([], bytes)
  | S n' =>
      match bytes with
      | lo :: hi :: rest =>
          if is_byte lo && is_byte hi then
            r ← decode_samples n' rest;
            Some (sample_of_bytes lo hi :: r.1, r.2)
          else None
      | _ => None
      end
  end.

Fixpoint decode_channels (inputs : list Z) (m : Z) (bytes : list Z)
  : option (list (Z * list Z)) :=
  match inputs with
  | [] => match bytes with [] => Some [] | _ => None end
  | c :: inputs' =>
      if Z.testbit m c then
        r ← decode_samples (Z.to_nat N_ADC_BUFFER_POS) bytes;
        chs ← decode_channels inputs' m r.2;
        Some ((c, r.1) :: chs)
      else decode_channels inputs' m bytes
  end.

Definition decode (bytes : list Z) : option frame :=
  match bytes with
  | t :: b :: m :: rest =>
      if is_byte t && is_byte b && is_byte m then
        chs ← decode_channels (seqZ 0 N_ADC_INPUT) m rest;
        Some {| tag := t; buffer_index := b; mask := m; channels := chs |}
      else None
  | _ => None
  end.

End Wire.

(** ** InitADC *)

(** Vendor-header values named by [InitADC] only. *)
Class VendorDefs := {
  A0 : Z;                                   (* REF_PIN *)
  ADC_REFCTRL_REFSEL_INTVCC1_Val : Z;
  ADC_CTRLB_RESSEL_12BIT_Val : Z;
  ADC_CTRLB_PRESCALER_DIV64_Val : Z
}.

#[export] Instance samd21 : VendorDefs := {|
  A0 := 14;
  ADC_REFCTRL_REFSEL_INTVCC1_Val := 2;
  ADC_CTRLB_RESSEL_12BIT_Val := 0;
  ADC_CTRLB_PRESCALER_DIV64_Val := 4
|}.

(** The configuration registers that only [InitADC] writes. *)
Record ADC_setup := {
  REFCTRL_REFSEL : Z;
  CTRLB_RESSEL : Z;
  CTRLB_PRESCALER : Z;
  AVGCTRL_SAMPLENUM : Z;
  INPUTCTRL_MUXNEG : Z;
  CTRLB_LEFTADJ : Z;
  CTRLB_DIFFMODE : Z;
  CTRLB_FREERUN : Z;
  CTRLA_ENABLE : Z;
  INTENSET_RESRDY : Z;
  INTFLAG_RESRDY : bool;      (* writing 1 clears the flag *)
  NVIC_ADC_IRQn : bool
}.

Section Init.
Context `{BoardDefs} `{VendorDefs}.

(** [InitADC] writes every one of these registers once, selects the first
    input on the positive MUX and sets the gain through [ADC_setGain 1]. *)
Definition InitADC (st : state) : ADC_setup * state :=
  let st := set_ADC {| INPUTCTRL_MUXPOS := ulADCChannelNumber (nth 0 regInputs 0);
                       INPUTCTRL_GAIN := INPUTCTRL_GAIN (ADC st);
                       SWTRIG_START := SWTRIG_START (ADC st);
                       conversion_running := conversion_running (ADC st) |} st in
  let st := (ADC_setGain 1 st).2 in
  ({| REFCTRL_REFSEL := ADC_REFCTRL_REFSEL_INTVCC1_Val;
      CTRLB_RESSEL := ADC_CTRLB_RESSEL_12BIT_Val;
      CTRLB_PRESCALER := ADC_CTRLB_PRESCALER_DIV64_Val;
      AVGCTRL_SAMPLENUM := 0x0;
      INPUTCTRL_MUXNEG := ulADCChannelNumber A0;
      CTRLB_LEFTADJ := 0x0;
      CTRLB_DIFFMODE := 0x1;
      CTRLB_FREERUN := 0x0;
      CTRLA_ENABLE := 0x1;
      INTENSET_RESRDY := 0x1;
      INTFLAG_RESRDY := false;
      NVIC_ADC_IRQn := true |}, st).

End Init.

(** ** The firmware at run time

    What happens to the globals after start-up: the timer interrupt, the
    conversion-complete interrupt (raised only while a conversion is
    running), a gain command, and a write of the [extern] input mask by the
    code that includes ctrlADC.h. *)

Definition set_ADC_EnabledInputs (v : Z) (st : state) : state :=
  {| ADC_EnabledInputs := v; ADC_buffer := ADC_buffer st;
     iBuffer := iBuffer st; iBufferPos := iBufferPos st;
     iBufferTransmit := iBufferTransmit st; iReadInput := iReadInput st;
     ADC_Gain := ADC_Gain st; ADC := ADC st |}.

Inductive event :=
  | TimerCompare                    (* TC3_Handler with MC0 set *)
  | ResultReady (RESULT : Z)        (* ADC_Handler *)
  | GainCommand (Gain_in : Z)       (* ADC_setGain *)
  | EnableInputs (enabled : Z).     (* ADC_EnabledInputs = enabled *)

Section Run.
Context `{BoardDefs}.

Definition handle (e : event) (st : state) : option state :=
  match e with
  | TimerCompare =>
      Some (TC3_Handler {| COUNT := 0; CC0 := 0; INTFLAG_MC0 := true |} st).2
  | ResultReady RESULT =>
      if conversion_running (ADC st) then ADC_Handler RESULT st else Some st
  | GainCommand Gain_in => Some (ADC_setGain Gain_in st).2
  | EnableInputs enabled => Some (set_ADC_EnabledInputs (uint8 enabled) st)
  end.

Fixpoint run (es : list event) (st : state) : option state :=
  match es with
  | [] => Some st
  | e :: es' => st' ← handle e st; run es' st'
  end.

(** Several rounds, one list of results for each. *)
Fixpoint ADC_rounds (rs : list (list Z)) (st : state) : option state :=
  match rs with
  | [] => Some st
  | results :: rs' => r ← ADC_round results st; ADC_rounds rs' r.2
  end.

End Run.

(** What [run] keeps true when only existing inputs are enabled. *)
Definition run_ok (st : state) : Prop :=
  state_ok st /\
  0 <= ADC_EnabledInputs st < 2 ^ N_ADC_INPUT /\
  (conversion_running (ADC st) = true -> 0 <= iReadInput st < N_ADC_INPUT).

Definition existing_inputs (e : event) : Prop :=
  match e with
  | EnableInputs enabled => 0 <= enabled < 2 ^ N_ADC_INPUT
  | _ => True
  end.

(** The recorded gain is one of the five gains and the peripheral holds its
    encoding. *)
Definition gain_ok `{BoardDefs} (st : state) : Prop :=
  In (ADC_Gain st) [1; 2; 4; 8; 16] /\
  INPUTCTRL_GAIN (ADC st) = gain_encoding (ADC_Gain st).

(** The samples of the [n]-th enabled input over a sequence of rounds. *)
Definition column (rs : list (list Z)) (n : nat) : list Z :=
  (fun results : list Z => convert_sample (default 0 (results !! n))) <$> rs.

(** ** Example states *)

Definition ADC_reset : ADC_regs :=
  {| INPUTCTRL_MUXPOS := 0; INPUTCTRL_GAIN := 0;
     SWTRIG_START := []; conversion_running := false |}.

(** The globals as initialised in ctrlADC.cpp, with the given input mask. *)
Definition initial_state (enabled : Z) : state :=
  {| ADC_EnabledInputs := enabled;
     ADC_buffer := replicate 5 (replicate 64 (replicate 16 0));
     iBuffer := 0; iBufferPos := 0; iBufferTransmit := 0xff;
     iReadInput := -1; ADC_Gain := 1; ADC := ADC_reset |}.

(** A store filled with distinct samples, negative ones among them. *)
Definition ramp_buffer : list (list (list Z)) :=
  (fun i => (fun j => (fun k => 1024 * i + 16 * j + k - 2048) <$> seqZ 0 16)
              <$> seqZ 0 64) <$> seqZ 0 5.

Definition ramp_state (enabled : Z) : state :=
  set_ADC_buffer ramp_buffer (initial_state enabled).

(** Sixteen rounds of results, positive and negative readings among them. *)
Definition ramp_rounds : list (list Z) :=
  (fun p => [p; 0x0800 + p; 0x0FFF - p; 0; 0]) <$> seqZ 0 16.

(** * Properties *)

(** ** Arithmetic helpers *)

Lemma forallb_seqZ (P : Z -> bool) (lo len : Z) :
  forallb P (seqZ lo len) = true ->
  forall z, lo <= z < lo + len -> P z = true.
Proof.
  intros Hall z Hz.
  rewrite forallb_forall in Hall. apply Hall.
  apply list_elem_of_In, elem_of_seqZ. lia.
Qed.

Lemma int32_small (z : Z) : -2147483648 <= z < 2147483648 -> int32 z = z.
Proof. intros Hz. unfold int32. rewrite Z.mod_small; lia. Qed.

Lemma uint16_small (z : Z) : 0 <= z < 65536 -> uint16 z = z.
Proof. intros Hz. unfold uint16. apply Z.mod_small; lia. Qed.

(** [mask & (1 << i)] is the test of bit [i]. *)
Lemma land_shiftl_testbit (m i : Z) :
  0 <= i -> negb (Z.land m (Z.shiftl 1 i) =? 0) = Z.testbit m i.
Proof.
  intros Hi. rewrite Z.shiftl_1_l.
  destruct (Z.testbit m i) eqn:Hbit.
  - apply negb_true_iff, Z.eqb_neq. intros Hz.
    assert (Hb : Z.testbit (Z.land m (2 ^ i)) i = true).
    { rewrite Z.land_spec, Hbit, Z.pow2_bits_true; auto. }
    rewrite Hz, Z.bits_0 in Hb. discriminate.
  - apply negb_false_iff, Z.eqb_eq. apply Z.bits_inj'. intros n Hn.
    rewrite Z.land_spec, Z.bits_0.
    destruct (Z.eq_dec n i) as [->|Hne].
    + rewrite Hbit. reflexivity.
    + rewrite Z.pow2_bits_false by lia. apply andb_false_r.
Qed.

(** ** Sample conversion *)

(** C3: a 12 bit reading is sign-extended on bit 11 into the 16 bit sample:
    with bit 11 set the four bits above the native width are all set (the
    16 bit pattern is [raw | 0xf000], the value [raw - 4096]), otherwise the
    reading is unchanged; 0x0FFF gives -1, 0x07FF gives 2047, 0 gives 0. *)
Theorem convert_sample_sign_extends :
  (forall raw, 0 <= raw < 4096 ->
     convert_sample raw = (if Z.testbit raw 11 then raw - 4096 else raw) /\
     uint16 (convert_sample raw) =
       (if Z.testbit raw 11 then Z.lor raw 0xf000 else raw) /\
     (forall i, 0 <= i -> Z.testbit (convert_sample raw) i = Z.testbit raw (Z.min i 11))) /\
  convert_sample 0x0FFF = -1 /\
  convert_sample 0x07FF = 2047 /\
  convert_sample 0x0000 = 0.
Proof.
  split; [|repeat split; reflexivity].
  intros raw Hraw.
  pose (P := fun r =>
      (convert_sample r =? (if Z.testbit r 11 then r - 4096 else r)) &&
      (uint16 (convert_sample r) =? (if Z.testbit r 11 then Z.lor r 0xf000 else r)) &&
      Bool.eqb (Z.testbit r 11) (2048 <=? r)).
  assert (HP : P raw = true).
  { apply (forallb_seqZ P 0 4096); [vm_compute; reflexivity | lia]. }
  unfold P in HP. apply andb_true_iff in HP as [HP Hhi].
  apply andb_true_iff in HP as [Hv Hu].
  apply Z.eqb_eq in Hv, Hu. apply eqb_prop in Hhi.
  repeat split; try assumption.
  intros i Hi. rewrite Hv.
  destruct (Z.testbit raw 11) eqn:Hbit; symmetry in Hhi.
  - apply Z.leb_le in Hhi.
    destruct (Z_lt_le_dec i 12) as [Hlt|Hge].
    + replace (raw - 4096) with (raw + (-1) * 2 ^ 12) by lia.
      rewrite <- (Z.mod_pow2_bits_low (raw + -1 * 2 ^ 12) 12 i) by lia.
      rewrite Z.mod_add by lia. rewrite Z.mod_pow2_bits_low by lia.
      rewrite Z.min_l by lia. reflexivity.
    + rewrite Z.min_r by lia. rewrite Hbit.
      apply Z.bits_above_log2_neg; [lia|].
      replace (Z.pred (- (raw - 4096))) with (4095 - raw) by lia.
      destruct (Z.eq_dec (4095 - raw) 0) as [->|Hnz]; [simpl; lia|].
      apply Z.lt_le_trans with 11; [|lia].
      apply Z.log2_lt_pow2; lia.
  - apply Z.leb_gt in Hhi.
    destruct (Z_lt_le_dec i 11) as [Hlt|Hge].
    + rewrite Z.min_l by lia. reflexivity.
    + rewrite Z.min_r by lia. rewrite Hbit.
      destruct (Z.eq_dec raw 0) as [->|Hnz]; [apply Z.bits_0|].
      apply Z.bits_above_log2; [lia|].
      apply Z.lt_le_trans with 11; [|lia].
      apply Z.log2_lt_pow2; lia.
Qed.

Lemma convert_sample_sign_extends_witness :
  0 <= 0x0ABC < 4096 /\ convert_sample 0x0ABC = 0x0ABC - 4096.
Proof.
  split; [lia|].
  exact (proj1 (proj1 convert_sample_sign_extends 0x0ABC ltac:(lia))).
Defined.

(** ** Gain selection *)

Section Gain.
Context `{BoardDefs}.

(** C6: [ADC_setGain] accepts exactly 1, 2, 4, 8 and 16.  An accepted value
    is written (encoded) to the gain field of the peripheral and recorded in
    [ADC_Gain], nothing else changes, and the result is [true]; any other
    value returns [false] and leaves the whole state as it was.  So
    [ADC_setGain 3] fails with [ADC_Gain] unchanged and [ADC_setGain 8]
    succeeds with [ADC_Gain = 8]. *)
Theorem ADC_setGain_accepts_exactly (Gain_in : Z) (st : state) :
  (In Gain_in [1; 2; 4; 8; 16] ->
     ADC_setGain Gain_in st =
       (true,
        set_ADC_Gain Gain_in
          (set_ADC {| INPUTCTRL_MUXPOS := INPUTCTRL_MUXPOS (ADC st);
                      INPUTCTRL_GAIN := gain_encoding Gain_in;
                      SWTRIG_START := SWTRIG_START (ADC st);
                      conversion_running := conversion_running (ADC st) |} st)) /\
     ADC_Gain (ADC_setGain Gain_in st).2 = Gain_in /\
     INPUTCTRL_GAIN (ADC (ADC_setGain Gain_in st).2) = gain_encoding Gain_in) /\
  (~ In Gain_in [1; 2; 4; 8; 16] -> ADC_setGain Gain_in st = (false, st)) /\
  ADC_setGain 3 st = (false, st) /\
  (ADC_setGain 8 st).1 = true /\ ADC_Gain (ADC_setGain 8 st).2 = 8.
Proof.
  split; [|split; [|repeat split]].
  - simpl. intros [<-|[<-|[<-|[<-|[<-|[]]]]]]; repeat split.
  - simpl. intros Hout.
    destruct Gain_in as [|p|p]; try reflexivity.
    do 5 (try (destruct p as [p|p|]; try reflexivity)); exfalso; lia.
Qed.

End Gain.

Lemma ADC_setGain_accepts_exactly_witness :
  In 8 [1; 2; 4; 8; 16] /\ ~ In 3 [1; 2; 4; 8; 16] /\
  ADC_Gain (ADC_setGain 8 (initial_state 0)).2 = 8 /\
  ADC_setGain 3 (initial_state 0) = (false, initial_state 0).
Proof.
  assert (H8 : In 8 [1; 2; 4; 8; 16]) by (simpl; tauto).
  assert (H3 : ~ In 3 [1; 2; 4; 8; 16]) by (simpl; lia).
  split; [exact H8|]. split; [exact H3|]. split.
  - exact (proj1 (proj2 (proj1 (ADC_setGain_accepts_exactly 8 (initial_state 0)) H8))).
  - exact (proj1 (proj2 (ADC_setGain_accepts_exactly 3 (initial_state 0))) H3).
Defined.

(** ** Buffer bookkeeping *)

(** C7: with no input enabled [ADC_UpdateBufferIdx] changes nothing, however
    often it is called: [iBuffer], [iBufferPos], [iReadInput] and
    [iBufferTransmit] (and everything else) stay as they were. *)
Theorem ADC_UpdateBufferIdx_disabled_noop (n : nat) (st : state) :
  ADC_EnabledInputs st = 0 ->
  Nat.iter n ADC_UpdateBufferIdx st = st.
Proof.
  intros Hmask. induction n as [|n IH]; simpl.
  - reflexivity.
  - rewrite IH. unfold ADC_UpdateBufferIdx. rewrite Hmask. reflexivity.
Qed.

Lemma ADC_UpdateBufferIdx_disabled_noop_witness :
  ADC_EnabledInputs (set_iReadInput 3 (set_iBufferPos 7 (initial_state 0))) = 0 /\
  Nat.iter 40 ADC_UpdateBufferIdx (set_iReadInput 3 (set_iBufferPos 7 (initial_state 0)))
  = set_iReadInput 3 (set_iBufferPos 7 (initial_state 0)).
Proof.
  split; [reflexivity|].
  apply (ADC_UpdateBufferIdx_disabled_noop 40). reflexivity.
Defined.

(** One call below the last position of a buffer only moves the position
    and resets the input being read. *)
Lemma ADC_UpdateBufferIdx_within (st : state) :
  ADC_EnabledInputs st <> 0 ->
  0 <= iBufferPos st -> iBufferPos st + 1 < N_ADC_BUFFER_POS ->
  ADC_UpdateBufferIdx st = set_iReadInput (-1) (set_iBufferPos (iBufferPos st + 1) st).
Proof.
  unfold N_ADC_BUFFER_POS. intros Hmask H0 H1. unfold ADC_UpdateBufferIdx.
  apply Z.eqb_neq in Hmask. rewrite Hmask. simpl.
  rewrite int32_small by lia.
  assert (Hne : (iBufferPos st + 1 =? N_ADC_BUFFER_POS) = false)
    by (apply Z.eqb_neq; unfold N_ADC_BUFFER_POS; lia).
  rewrite Hne. reflexivity.
Qed.

(** The call on the last position publishes the buffer and moves on. *)
Lemma ADC_UpdateBufferIdx_wrap (st : state) :
  ADC_EnabledInputs st <> 0 ->
  iBufferPos st + 1 = N_ADC_BUFFER_POS ->
  let st' := ADC_UpdateBufferIdx st in
  iBuffer st' = (iBuffer st + 1) mod N_ADC_BUFFERS /\
  iBufferPos st' = 0 /\
  iBufferTransmit st' = iBuffer st /\
  iReadInput st' = -1 /\
  ADC_EnabledInputs st' = ADC_EnabledInputs st /\
  ADC_buffer st' = ADC_buffer st /\
  ADC st' = ADC st.
Proof.
  intros Hmask Hpos. unfold ADC_UpdateBufferIdx.
  apply Z.eqb_neq in Hmask. rewrite Hmask. simpl.
  rewrite Hpos. unfold N_ADC_BUFFER_POS. rewrite int32_small by lia.
  simpl. repeat split.
  unfold uint8, N_ADC_BUFFERS.
  rewrite Z.rem_mod_nonneg by (try apply Z.mod_pos_bound; lia).
  rewrite (Z.mod_small (_ mod 64)) by
    (pose proof (Z.mod_pos_bound ((iBuffer st + 1) mod 256) 64); lia).
  change 256 with (64 * 4).
  rewrite Z.rem_mul_r by lia.
  rewrite Z.mul_comm, Z.mod_add by lia. apply Z.mod_mod. lia.
Qed.

Lemma ADC_UpdateBufferIdx_iter_within (n : nat) (st : state) :
  ADC_EnabledInputs st <> 0 ->
  0 <= iBufferPos st -> iBufferPos st + Z.of_nat n < N_ADC_BUFFER_POS ->
  let st' := Nat.iter n ADC_UpdateBufferIdx st in
  iBuffer st' = iBuffer st /\
  iBufferPos st' = iBufferPos st + Z.of_nat n /\
  iBufferTransmit st' = iBufferTransmit st /\
  ADC_EnabledInputs st' = ADC_EnabledInputs st.
Proof.
  intros Hmask H0. induction n as [|n IH]; intros Hlt; simpl.
  - repeat split. lia.
  - destruct IH as (Hb & Hp & Ht & Hm); [lia|].
    rewrite ADC_UpdateBufferIdx_within; [|congruence|lia|lia].
    simpl. repeat split; try assumption. lia.
Qed.

(** C2: from position 0 and with some input enabled, [N_ADC_BUFFER_POS] = 16
    calls of [ADC_UpdateBufferIdx] advance [iBuffer] by one modulo
    [N_ADC_BUFFERS] = 64, bring [iBufferPos] back to 0 and leave in
    [iBufferTransmit] the buffer that was active before the last call,
    whatever [iBufferTransmit] held before. *)
Theorem ADC_UpdateBufferIdx_full_buffer (st : state) :
  iBufferPos st = 0 ->
  ADC_EnabledInputs st <> 0 ->
  let before_last := Nat.iter 15 ADC_UpdateBufferIdx st in
  let st' := Nat.iter (Z.to_nat N_ADC_BUFFER_POS) ADC_UpdateBufferIdx st in
  iBuffer st' = (iBuffer st + 1) mod N_ADC_BUFFERS /\
  iBufferPos st' = 0 /\
  iBufferTransmit st' = iBuffer before_last /\
  iBuffer before_last = iBuffer st.
Proof.
  intros Hpos Hmask before_last st'.
  destruct (ADC_UpdateBufferIdx_iter_within 15 st) as (Hb & Hp & _ & Hm);
    [assumption|lia|unfold N_ADC_BUFFER_POS; lia|].
  fold before_last in Hb, Hp, Hm.
  subst st'. change (Z.to_nat N_ADC_BUFFER_POS) with 16%nat.
  rewrite Nat.iter_succ. fold before_last.
  destruct (ADC_UpdateBufferIdx_wrap before_last) as (Hb' & Hp' & Ht' & _);
    [congruence|unfold N_ADC_BUFFER_POS; lia|].
  rewrite Hb', Hp', Ht', Hb. auto.
Qed.

Lemma ADC_UpdateBufferIdx_full_buffer_witness :
  iBufferPos (set_iBuffer 63 (initial_state 5)) = 0 /\
  ADC_EnabledInputs (set_iBuffer 63 (initial_state 5)) <> 0 /\
  iBuffer (Nat.iter 16 ADC_UpdateBufferIdx (set_iBuffer 63 (initial_state 5))) = 0 /\
  iBufferTransmit (Nat.iter 16 ADC_UpdateBufferIdx (set_iBuffer 63 (initial_state 5))) = 63.
Proof.
  assert (Hm : ADC_EnabledInputs (set_iBuffer 63 (initial_state 5)) <> 0)
    by (simpl; lia).
  pose proof (ADC_UpdateBufferIdx_full_buffer (set_iBuffer 63 (initial_state 5))
                eq_refl Hm) as (Hb & _ & Ht & Hl).
  repeat split; assumption.
Defined.

(** ** Sample timer *)

(** The compare value of a frequency the prescaled clock can reach. *)
Lemma compareValue_in_range (hz : Z) :
  0 < hz -> TIMER_PRESCALER_DIV * hz <= CPU_HZ ->
  compareValue hz = Some (CPU_HZ / (TIMER_PRESCALER_DIV * hz) - 1) /\
  0 <= CPU_HZ / (TIMER_PRESCALER_DIV * hz) - 1 < 46875.
Proof.
  unfold compareValue, TIMER_PRESCALER_DIV, CPU_HZ. intros Hpos Hle. cbv zeta.
  rewrite (int32_small (1024 * hz)) by lia.
  assert (Hne : (1024 * hz =? 0) = false) by (apply Z.eqb_neq; lia).
  rewrite Hne.
  rewrite Z.quot_div_nonneg by lia.
  assert (Hq : 1 <= 48000000 / (1024 * hz) < 46876).
  { split.
    - apply Z.div_le_lower_bound; lia.
    - apply Z.div_lt_upper_bound; lia. }
  rewrite int32_small by lia. split; [reflexivity|lia].
Qed.

(** With a non-zero compare register the rescaling has a result, and the new
    compare value is written as the register holds it. *)
Lemma setTimerFrequency_running (hz cmp : Z) (tc : TC_regs) :
  compareValue hz = Some cmp -> 0 < CC0 tc < 65536 ->
  exists count,
    setTimerFrequency hz tc
    = Some {| COUNT := uint16 count; CC0 := uint16 cmp; INTFLAG_MC0 := INTFLAG_MC0 tc |}.
Proof.
  intros Hcmp Hcc. unfold setTimerFrequency, Arduino.map. rewrite Hcmp.
  cbn [mbind option_bind]. cbv zeta.
  rewrite Z.sub_0_r, (int32_small (CC0 tc)) by lia.
  assert (Hne : (CC0 tc =? 0) = false) by (apply Z.eqb_neq; lia).
  rewrite Hne. cbn [mbind option_bind]. eexists. reflexivity.
Qed.

(** With the compare register at 0 the rescaling divides by zero. *)
Lemma setTimerFrequency_stopped (hz : Z) (tc : TC_regs) :
  CC0 tc = 0 -> setTimerFrequency hz tc = None.
Proof.
  intros Hzero. unfold setTimerFrequency, Arduino.map. rewrite Hzero.
  destruct (compareValue hz); reflexivity.
Qed.

(** C9: for a positive frequency [hz] with [TIMER_PRESCALER_DIV * hz] not
    above [CPU_HZ], [setTimerFrequency] computes
    [floor (CPU_HZ / (TIMER_PRESCALER_DIV * hz)) - 1], with [CPU_HZ] =
    48000000 and [TIMER_PRESCALER_DIV] = 1024.  It installs the value when
    the compare register holds a non-zero value at the call; with the compare
    register at 0 the rescaling of the counter divides by zero before the
    value is written. *)
Theorem setTimerFrequency_installs_compare (hz : Z) (tc : TC_regs) :
  0 < hz -> TIMER_PRESCALER_DIV * hz <= CPU_HZ ->
  compareValue hz = Some (48000000 / (1024 * hz) - 1) /\
  (0 < CC0 tc < 65536 ->
   exists tc', setTimerFrequency hz tc = Some tc' /\
               CC0 tc' = 48000000 / (1024 * hz) - 1) /\
  (CC0 tc = 0 -> setTimerFrequency hz tc = None).
Proof.
  intros Hpos Hle.
  destruct (compareValue_in_range hz Hpos Hle) as [Hcmp Hrange].
  unfold TIMER_PRESCALER_DIV, CPU_HZ in Hcmp, Hrange.
  split; [exact Hcmp|]. split.
  - intros Hcc. unfold setTimerFrequency, Arduino.map. rewrite Hcmp.
    cbn [mbind option_bind]. cbv zeta.
    rewrite Z.sub_0_r, (int32_small (CC0 tc)) by lia.
    assert (Hne : (CC0 tc =? 0) = false) by (apply Z.eqb_neq; lia).
    rewrite Hne. cbn [mbind option_bind].
    eexists. split; [reflexivity|]. cbn [CC0].
    apply uint16_small. lia.
  - intros Hzero. unfold setTimerFrequency, Arduino.map. rewrite Hcmp, Hzero.
    reflexivity.
Qed.

Lemma setTimerFrequency_installs_compare_witness :
  (exists tc', setTimerFrequency 250 {| COUNT := 100; CC0 := 467; INTFLAG_MC0 := false |}
               = Some tc' /\ CC0 tc' = 48000000 / (1024 * 250) - 1) /\
  setTimerFrequency 250 {| COUNT := 0; CC0 := 0; INTFLAG_MC0 := false |} = None.
Proof.
  assert (H0 : 0 < 250) by lia.
  assert (H1 : TIMER_PRESCALER_DIV * 250 <= CPU_HZ) by (vm_compute; discriminate).
  split.
  - apply (proj1 (proj2 (setTimerFrequency_installs_compare 250
                           {| COUNT := 100; CC0 := 467; INTFLAG_MC0 := false |} H0 H1))).
    simpl. lia.
  - apply (proj2 (proj2 (setTimerFrequency_installs_compare 250
                           {| COUNT := 0; CC0 := 0; INTFLAG_MC0 := false |} H0 H1))).
    reflexivity.
Defined.

(** Rescaling a phase inside the old period stays inside the new one. *)
Lemma map_phase_bounds (x cold cnew : Z) :
  0 < cold < 65536 -> 0 <= x <= cold -> 0 <= cnew < 65536 ->
  x * cnew < 2147483648 ->
  Arduino.map x 0 cold 0 cnew = Some (x * cnew / cold) /\
  0 <= x * cnew / cold <= cnew.
Proof.
  intros Hc Hx Hn Hfit. unfold Arduino.map. cbv zeta.
  rewrite !Z.sub_0_r, Z.add_0_r.
  rewrite (int32_small cold), (int32_small x), (int32_small cnew) by lia.
  assert (Hne : (cold =? 0) = false) by (apply Z.eqb_neq; lia).
  rewrite Hne.
  assert (Hq : 0 <= x * cnew / cold <= cnew).
  { split; [apply Z.div_pos; nia|apply Z.div_le_upper_bound; nia]. }
  rewrite (int32_small (x * cnew)) by nia.
  rewrite Z.quot_div_nonneg by nia.
  rewrite int32_small by lia. auto.
Qed.

(** C5, as the firmware has it: when the frequency is changed on a running
    timer (compare register non-zero, counter within the period), the
    counter is rescaled linearly with the quotient cut off toward zero, not
    rounded to the nearest tick: [COUNT' = COUNT * compare_new / compare_old]
    in integer division, as long as the product fits a [long] (it always
    does for 2 Hz and above), and the new compare value is installed.  Going
    from [f] to [2 f] halves the compare interval ([CC0 + 1] ticks, and the
    compare value up to one tick) and puts the counter at half its value, at
    most one tick below. *)
Theorem setTimerFrequency_rescales_phase :
  (forall hz tc,
     0 < hz -> TIMER_PRESCALER_DIV * hz <= CPU_HZ ->
     0 < CC0 tc < 65536 -> 0 <= COUNT tc <= CC0 tc ->
     2 <= hz \/
     COUNT tc * (CPU_HZ / (TIMER_PRESCALER_DIV * hz) - 1) < 2147483648 ->
     exists tc', setTimerFrequency hz tc = Some tc' /\
                 CC0 tc' = CPU_HZ / (TIMER_PRESCALER_DIV * hz) - 1 /\
                 COUNT tc' = (COUNT tc * CC0 tc') ÷ CC0 tc /\
                 COUNT tc' = (COUNT tc * CC0 tc') / CC0 tc) /\
  (forall f tc0 tc1 count,
     0 < f -> TIMER_PRESCALER_DIV * (2 * f) <= CPU_HZ ->
     setTimerFrequency f tc0 = Some tc1 ->
     0 <= count <= CC0 tc1 ->
     exists tc2,
       setTimerFrequency (2 * f)
         {| COUNT := count; CC0 := CC0 tc1; INTFLAG_MC0 := INTFLAG_MC0 tc1 |} = Some tc2 /\
       CC0 tc2 + 1 = (CC0 tc1 + 1) / 2 /\
       CC0 tc1 / 2 - 1 <= CC0 tc2 <= CC0 tc1 / 2 /\
       COUNT tc2 = (count * CC0 tc2) ÷ CC0 tc1 /\
       count / 2 - 1 <= COUNT tc2 <= count / 2).
Proof.
  split.
  - intros hz tc Hpos Hle Hcc Hcount Hfit.
    destruct (compareValue_in_range hz Hpos Hle) as [Hcmp Hrange].
    set (cmp := CPU_HZ / (TIMER_PRESCALER_DIV * hz) - 1) in *.
    assert (Hprod : COUNT tc * cmp < 2147483648).
    { destruct Hfit as [Htwo|Hfit]; [|exact Hfit].
      assert (Hsmall : cmp <= 23437).
      { subst cmp. unfold TIMER_PRESCALER_DIV, CPU_HZ in *.
        assert (48000000 / (1024 * hz) <= 23438)
          by (apply Z.div_le_upper_bound; lia).
        lia. }
      assert (COUNT tc * cmp <= 65535 * 23437) by nia. lia. }
    destruct (map_phase_bounds (COUNT tc) (CC0 tc) cmp) as [Hmap Hb];
      [lia|lia|lia|exact Hprod|].
    unfold setTimerFrequency. rewrite Hcmp. cbn [mbind option_bind].
    rewrite Hmap. cbn [mbind option_bind].
    eexists. split; [reflexivity|]. cbn [CC0 COUNT].
    rewrite !uint16_small by lia.
    split; [reflexivity|]. split; [|reflexivity].
    rewrite Z.quot_div_nonneg by nia. reflexivity.
  - intros f tc0 tc1 count Hpos Hle Hset Hcount.
    assert (Hle1 : TIMER_PRESCALER_DIV * f <= CPU_HZ)
      by (unfold TIMER_PRESCALER_DIV, CPU_HZ in *; lia).
    destruct (compareValue_in_range f Hpos Hle1) as [Hcmp1 Hrange1].
    destruct (compareValue_in_range (2 * f)) as [Hcmp2 Hrange2]; [lia|exact Hle|].
    unfold setTimerFrequency in Hset. rewrite Hcmp1 in Hset.
    cbn [mbind option_bind] in Hset.
    destruct (Arduino.map _ _ _ _ _) as [count0|]; [|discriminate].
    cbn [mbind option_bind] in Hset. injection Hset as <-. cbn [CC0 INTFLAG_MC0] in *.
    rewrite uint16_small in * by lia.
    set (c1 := CPU_HZ / (TIMER_PRESCALER_DIV * f) - 1) in *.
    set (c2 := CPU_HZ / (TIMER_PRESCALER_DIV * (2 * f)) - 1) in *.
    assert (Hhalf : c2 + 1 = (c1 + 1) / 2).
    { subst c1 c2.
      replace (TIMER_PRESCALER_DIV * (2 * f)) with (TIMER_PRESCALER_DIV * f * 2) by lia.
      rewrite <- Z.div_div by (unfold TIMER_PRESCALER_DIV; lia).
      rewrite !Z.sub_add. reflexivity. }
    assert (Hc1 : 1 <= c1).
    { subst c1. unfold TIMER_PRESCALER_DIV, CPU_HZ in *.
      assert (2 <= 48000000 / (1024 * f)) by (apply Z.div_le_lower_bound; lia). lia. }
    assert (H2c2 : c1 - 2 <= 2 * c2 <= c1 - 1).
    { pose proof (Z.div_mod (c1 + 1) 2 ltac:(lia)).
      pose proof (Z.mod_pos_bound (c1 + 1) 2 ltac:(lia)). lia. }
    assert (Hprod : count * c2 < 2147483648).
    { assert (count * c2 <= 46874 * 23437) by nia. lia. }
    destruct (map_phase_bounds count c1 c2) as [Hmap Hb]; [lia|lia|lia|exact Hprod|].
    unfold setTimerFrequency. rewrite Hcmp2. cbn [mbind option_bind COUNT CC0].
    rewrite Hmap. cbn [mbind option_bind].
    eexists. split; [reflexivity|]. cbn [CC0 COUNT].
    rewrite !uint16_small by lia.
    split; [exact Hhalf|].
    split.
    { pose proof (Z.div_mod c1 2 ltac:(lia)).
      pose proof (Z.mod_pos_bound c1 2 ltac:(lia)). lia. }
    split; [rewrite Z.quot_div_nonneg by nia; reflexivity|].
    split.
    + apply Z.div_le_lower_bound; [lia|].
      pose proof (Z.div_mod count 2 ltac:(lia)).
      pose proof (Z.mod_pos_bound count 2 ltac:(lia)). nia.
    + apply Z.div_le_lower_bound; [lia|].
      pose proof (Z.div_mod (count * c2) c1 ltac:(lia)).
      pose proof (Z.mod_pos_bound (count * c2) c1 ltac:(lia)). nia.
Qed.

Lemma setTimerFrequency_rescales_phase_witness :
  (exists tc1,
     setTimerFrequency 250 {| COUNT := 100; CC0 := 467; INTFLAG_MC0 := false |} = Some tc1 /\
     CC0 tc1 = 186 /\ COUNT tc1 = (100 * 186) ÷ 467) /\
  exists tc2,
    setTimerFrequency 500 {| COUNT := 101; CC0 := 186; INTFLAG_MC0 := false |} = Some tc2 /\
    CC0 tc2 + 1 = (186 + 1) / 2 /\
    50 - 1 <= COUNT tc2 <= 50.
Proof.
  split.
  { destruct (proj1 setTimerFrequency_rescales_phase 250
                {| COUNT := 100; CC0 := 467; INTFLAG_MC0 := false |})
      as (tc1 & Hset & Hcc & Hcount & _).
    - lia.
    - vm_compute; discriminate.
    - simpl; lia.
    - simpl; lia.
    - left; lia.
    - exists tc1. split; [exact Hset|]. rewrite Hcount, Hcc. split; reflexivity. }
  assert (H0 : 0 < 250) by lia.
  assert (H1 : TIMER_PRESCALER_DIV * (2 * 250) <= CPU_HZ) by (vm_compute; discriminate).
  assert (H2 : setTimerFrequency 250 {| COUNT := 100; CC0 := 467; INTFLAG_MC0 := false |}
               = Some {| COUNT := 39; CC0 := 186; INTFLAG_MC0 := false |})
    by (vm_compute; reflexivity).
  assert (H3 : 0 <= 101 <= CC0 {| COUNT := 39; CC0 := 186; INTFLAG_MC0 := false |})
    by (simpl; lia).
  destruct (proj2 setTimerFrequency_rescales_phase 250 _ _ 101 H0 H1 H2 H3)
    as (tc2 & Hset & Hcc & _ & _ & Hcount).
  exists tc2. split; [exact Hset|]. split; [exact Hcc|exact Hcount].
Defined.

(** The rescaled counter is not [round (COUNT * compare_new / compare_old)]:
    on a timer running at 250 Hz (compare value 186) with the counter at 101,
    the change to 500 Hz (compare value 92) puts the counter at 49, where
    101 * 92 / 186 = 49.96 rounds to 50. *)
Lemma setTimerFrequency_phase_not_rounded :
  0 < CC0 {| COUNT := 101; CC0 := 186; INTFLAG_MC0 := false |} /\
  ~ (exists tc',
       setTimerFrequency 500 {| COUNT := 101; CC0 := 186; INTFLAG_MC0 := false |}
         = Some tc' /\
       COUNT tc' = round_div (101 * CC0 tc') 186).
Proof.
  split; [simpl; lia|].
  intros (tc' & Hset & Hround).
  assert (Hrun : setTimerFrequency 500 {| COUNT := 101; CC0 := 186; INTFLAG_MC0 := false |}
                 = Some {| COUNT := 49; CC0 := 92; INTFLAG_MC0 := false |})
    by (vm_compute; reflexivity).
  rewrite Hrun in Hset. injection Hset as <-.
  vm_compute in Hround. discriminate.
Qed.

(** The quotient is cut off, not rounded to the nearest tick: three quarters
    of a period of 4 ticks, rescaled to a period of 2, is 1 (1.5 exactly). *)
Remark map_rounds_toward_zero : Arduino.map 3 0 4 0 2 = Some 1.
Proof. reflexivity. Qed.

(** ** Channel scheduler *)

Section Scheduler.
Context `{BoardDefs}.

Lemma ADC_StartRead_loop_found (n : nat) (i k : Z) (st : state) :
  0 <= i <= k -> k < N_ADC_INPUT ->
  (Z.to_nat (N_ADC_INPUT - i) <= n)%nat ->
  Z.testbit (ADC_EnabledInputs st) k = true ->
  (forall j, i <= j < k -> Z.testbit (ADC_EnabledInputs st) j = false) ->
  ADC_StartRead_loop n i st = start_conversion k st.
Proof.
  revert i. induction n as [|n IH]; intros i Hik Hk Hn Hbit Hfirst.
  - lia.
  - simpl. assert (Hlt : (i <? N_ADC_INPUT) = true) by (apply Z.ltb_lt; lia).
    rewrite Hlt, land_shiftl_testbit by lia.
    destruct (Z.eq_dec i k) as [->|Hne].
    + rewrite Hbit. reflexivity.
    + rewrite Hfirst by lia. apply IH; try lia; try assumption.
      intros j Hj. apply Hfirst. lia.
Qed.

Lemma ADC_StartRead_loop_none (n : nat) (i : Z) (st : state) :
  0 <= i ->
  (forall j, i <= j < N_ADC_INPUT -> Z.testbit (ADC_EnabledInputs st) j = false) ->
  ADC_StartRead_loop n i st = st.
Proof.
  revert i. induction n as [|n IH]; intros i Hi Hnone; simpl.
  - reflexivity.
  - destruct (i <? N_ADC_INPUT) eqn:Hlt; [|reflexivity].
    apply Z.ltb_lt in Hlt.
    rewrite land_shiftl_testbit, Hnone by lia.
    apply IH; [lia|]. intros j Hj. apply Hnone. lia.
Qed.

Lemma ADC_StartRead_loop_disabled (n : nat) (i : Z) (st : state) :
  ADC_EnabledInputs st = 0 -> ADC_StartRead_loop n i st = st.
Proof.
  intros Hmask. revert i. induction n as [|n IH]; intros i; simpl.
  - reflexivity.
  - rewrite Hmask, Z.land_0_l. simpl. rewrite IH. destruct (i <? N_ADC_INPUT); reflexivity.
Qed.

(** The loop bound used by [ADC_StartRead] is enough: the scan never stops
    for lack of iterations. *)
Lemma ADC_StartRead_loop_bound (n m : nat) (i : Z) (st : state) :
  0 <= i ->
  (Z.to_nat (N_ADC_INPUT - i) <= n)%nat -> (Z.to_nat (N_ADC_INPUT - i) <= m)%nat ->
  ADC_StartRead_loop n i st = ADC_StartRead_loop m i st.
Proof.
  revert m i. induction n as [|n IH]; intros m i Hi Hn Hm.
  - destruct m as [|m]; [reflexivity|]. simpl.
    assert (Hge : (i <? N_ADC_INPUT) = false) by (apply Z.ltb_ge; lia).
    rewrite Hge. reflexivity.
  - simpl. destruct (i <? N_ADC_INPUT) eqn:Hlt.
    + destruct m as [|m]; [apply Z.ltb_lt in Hlt; lia|]. simpl. rewrite Hlt.
      destruct (negb _); [reflexivity|]. apply Z.ltb_lt in Hlt. apply IH; lia.
    + destruct m as [|m]; [reflexivity|]. simpl. rewrite Hlt. reflexivity.
Qed.

(** C4: [ADC_StartRead] looks only at the inputs above [iReadInput], in
    ascending order and without wrapping around, up to [N_ADC_INPUT - 1]:
    the first one whose bit is set in [ADC_EnabledInputs] becomes
    [iReadInput] and exactly one conversion is started, on its MUX setting;
    when no input above [iReadInput] is enabled nothing is selected and
    nothing is started, the state is untouched.  With an all-zero mask
    that is always the case. *)
Theorem ADC_StartRead_selects_next (st : state) :
  -1 <= iReadInput st < 2147483647 ->
  (forall k,
     iReadInput st < k < N_ADC_INPUT ->
     Z.testbit (ADC_EnabledInputs st) k = true ->
     (forall j, iReadInput st < j < k -> Z.testbit (ADC_EnabledInputs st) j = false) ->
     ADC_StartRead st = start_conversion k st /\
     iReadInput (ADC_StartRead st) = k /\
     INPUTCTRL_MUXPOS (ADC (ADC_StartRead st)) = mux_of k /\
     SWTRIG_START (ADC (ADC_StartRead st)) = SWTRIG_START (ADC st) ++ [mux_of k] /\
     conversion_running (ADC (ADC_StartRead st)) = true) /\
  ((forall j, iReadInput st < j < N_ADC_INPUT ->
              Z.testbit (ADC_EnabledInputs st) j = false) ->
   ADC_StartRead st = st) /\
  (ADC_EnabledInputs st = 0 -> ADC_StartRead st = st).
Proof.
  intros Hcur. unfold ADC_StartRead. rewrite int32_small by lia.
  split; [|split].
  - intros k Hk Hbit Hfirst.
    rewrite (ADC_StartRead_loop_found _ _ k); try lia; try assumption.
    + repeat split.
    + intros j Hj. apply Hfirst. lia.
  - intros Hnone. apply ADC_StartRead_loop_none; [lia|].
    intros j Hj. apply Hnone. lia.
  - apply ADC_StartRead_loop_disabled.
Qed.

End Scheduler.

Lemma ADC_StartRead_selects_next_witness :
  -1 <= iReadInput (set_iReadInput 0 (initial_state 0x15)) < 2147483647 /\
  iReadInput (ADC_StartRead (set_iReadInput 0 (initial_state 0x15))) = 2 /\
  SWTRIG_START (ADC (ADC_StartRead (set_iReadInput 0 (initial_state 0x15)))) = [4] /\
  ADC_StartRead (set_iReadInput 4 (initial_state 0x15))
    = set_iReadInput 4 (initial_state 0x15) /\
  ADC_StartRead (initial_state 0) = initial_state 0.
Proof.
  assert (Hr : forall c, -1 <= c < 5 ->
             -1 <= iReadInput (set_iReadInput c (initial_state 0x15)) < 2147483647)
    by (simpl; lia).
  split; [apply Hr; lia|].
  destruct (proj1 (ADC_StartRead_selects_next
                     (set_iReadInput 0 (initial_state 0x15)) (Hr 0 ltac:(lia))) 2)
    as (_ & Hsel & _ & Hlog & _).
  - simpl. unfold N_ADC_INPUT. lia.
  - reflexivity.
  - simpl. intros j Hj. assert (j = 1) as -> by lia. reflexivity.
  - split; [exact Hsel|]. split; [exact Hlog|]. split.
    + apply (proj1 (proj2 (ADC_StartRead_selects_next
                             (set_iReadInput 4 (initial_state 0x15)) (Hr 4 ltac:(lia))))).
      simpl. unfold N_ADC_INPUT. intros j Hj. lia.
    + apply (proj2 (proj2 (ADC_StartRead_selects_next (initial_state 0)
                             ltac:(simpl; lia)))).
      reflexivity.
Defined.

(** ** The sample store *)

Lemma buffer_shape_lookup (buf : list (list (list Z))) (i j k : Z) :
  buffer_shape buf ->
  0 <= i < N_ADC_INPUT -> 0 <= j < N_ADC_BUFFERS -> 0 <= k < N_ADC_BUFFER_POS ->
  exists plane row v,
    buf !! Z.to_nat i = Some plane /\ plane !! Z.to_nat j = Some row /\
    row !! Z.to_nat k = Some v /\
    length plane = Z.to_nat N_ADC_BUFFERS /\
    Forall (fun row : list Z => length row = Z.to_nat N_ADC_BUFFER_POS) plane /\
    length row = Z.to_nat N_ADC_BUFFER_POS.
Proof.
  intros [Hlen Hplanes] Hi Hj Hk.
  destruct (lookup_lt_is_Some_2 buf (Z.to_nat i)) as [plane Hplane]; [lia|].
  destruct (proj1 (Forall_lookup _ _) Hplanes _ _ Hplane) as [Hlp Hrows].
  destruct (lookup_lt_is_Some_2 plane (Z.to_nat j)) as [row Hrow]; [lia|].
  pose proof (proj1 (Forall_lookup _ _) Hrows _ _ Hrow) as Hlr. simpl in Hlr.
  destruct (lookup_lt_is_Some_2 row (Z.to_nat k)) as [v Hv]; [lia|].
  exists plane, row, v. auto 10.
Qed.

Lemma nonneg_indices (i j k : Z) :
  0 <= i -> 0 <= j -> 0 <= k -> (0 <=? i) && (0 <=? j) && (0 <=? k) = true.
Proof. intros. rewrite !andb_true_iff, !Z.leb_le. auto. Qed.

(** A store inside the three dimensions succeeds, keeps the shape, and the
    stored value is what a load at the same place returns. *)
Lemma buffer_store_in_bounds (buf : list (list (list Z))) (i j k v : Z) :
  buffer_shape buf ->
  0 <= i < N_ADC_INPUT -> 0 <= j < N_ADC_BUFFERS -> 0 <= k < N_ADC_BUFFER_POS ->
  exists buf', buffer_store buf i j k v = Some buf' /\
               buffer_shape buf' /\
               buffer_load buf' i j k = Some v.
Proof.
  intros Hshape Hi Hj Hk.
  destruct (buffer_shape_lookup buf i j k Hshape Hi Hj Hk)
    as (plane & row & v0 & Hplane & Hrow & Hv & Hlp & Hrows & Hlr).
  unfold buffer_store, buffer_load. rewrite !nonneg_indices by lia.
  rewrite Hplane. simpl. rewrite Hrow. simpl. rewrite Hv. simpl.
  eexists. split; [reflexivity|]. split.
  - destruct Hshape as [Hlen Hplanes]. split.
    + rewrite length_insert. exact Hlen.
    + apply Forall_insert; [exact Hplanes|]. split.
      * rewrite length_insert. exact Hlp.
      * apply Forall_insert; [exact Hrows|].
        rewrite length_insert. exact Hlr.
  - rewrite list_lookup_insert_eq by (apply lookup_lt_Some in Hplane; exact Hplane).
    simpl. rewrite list_lookup_insert_eq by (apply lookup_lt_Some in Hrow; exact Hrow).
    simpl. apply list_lookup_insert_eq. apply lookup_lt_Some in Hv. exact Hv.
Qed.

Lemma buffer_store_negative (buf : list (list (list Z))) (i j k v : Z) :
  i < 0 -> buffer_store buf i j k v = None.
Proof.
  intros Hi. unfold buffer_store.
  assert (Hneg : (0 <=? i) = false) by (apply Z.leb_gt; lia).
  rewrite Hneg. reflexivity.
Qed.

Lemma initial_shape (enabled : Z) : buffer_shape (ADC_buffer (initial_state enabled)).
Proof.
  split; [reflexivity|].
  change (ADC_buffer (initial_state enabled))
    with (replicate 5 (replicate 64 (replicate 16 0))).
  apply Forall_replicate. split; [reflexivity|].
  apply Forall_replicate. reflexivity.
Qed.

Section Handler.
Context `{BoardDefs}.

(** C10: in a state where an input is being read ([iReadInput] in
    [0, N_ADC_INPUT)) and the buffer indices are in range, the store of
    [ADC_Handler] into [ADC_buffer[iReadInput][iBuffer][iBufferPos]] is in
    bounds, so the handler returns and the sample is in its place; the
    condition on [iReadInput] is needed: with [iReadInput = -1], the value
    [ADC_UpdateBufferIdx] resets it to, the store is outside the first
    dimension. *)
Theorem ADC_Handler_store_in_bounds :
  (forall RESULT st,
     buffer_shape (ADC_buffer st) ->
     0 <= iReadInput st < N_ADC_INPUT ->
     0 <= iBuffer st < N_ADC_BUFFERS ->
     0 <= iBufferPos st < N_ADC_BUFFER_POS ->
     exists st',
       ADC_Handler RESULT st = Some st' /\
       buffer_shape (ADC_buffer st') /\
       buffer_load (ADC_buffer st') (iReadInput st) (iBuffer st) (iBufferPos st)
         = Some (convert_sample RESULT)) /\
  (forall RESULT st, iReadInput st = -1 ->
     buffer_store (ADC_buffer st) (iReadInput st) (iBuffer st) (iBufferPos st)
       (convert_sample RESULT) = None /\
     ADC_Handler RESULT st = None) /\
  (forall st, ADC_EnabledInputs st <> 0 -> iReadInput (ADC_UpdateBufferIdx st) = -1).
Proof.
  split; [|split].
  - intros RESULT st Hshape Hi Hj Hk.
    destruct (buffer_store_in_bounds (ADC_buffer st) (iReadInput st) (iBuffer st)
                (iBufferPos st) (convert_sample RESULT) Hshape Hi Hj Hk)
      as (buf' & Hstore & Hshape' & Hload).
    unfold ADC_Handler. simpl. rewrite Hstore. simpl.
    eexists. split; [reflexivity|].
    assert (Hbuf : forall s, ADC_buffer (ADC_StartRead s) = ADC_buffer s).
    { intros s. unfold ADC_StartRead.
      generalize (int32 (iReadInput s + 1)). intros i.
      generalize (Z.to_nat (N_ADC_INPUT - i)). intros n. revert i.
      induction n as [|n IH]; intros i; simpl; [reflexivity|].
      destruct (i <? N_ADC_INPUT); [|reflexivity].
      destruct (negb _); [reflexivity|apply IH]. }
    rewrite Hbuf. simpl. auto.
  - intros RESULT st Hidle.
    assert (Hnone : buffer_store (ADC_buffer st) (iReadInput st) (iBuffer st)
                      (iBufferPos st) (convert_sample RESULT) = None)
      by (apply buffer_store_negative; lia).
    split; [exact Hnone|].
    unfold ADC_Handler. simpl. rewrite Hnone. reflexivity.
  - intros st Hmask. unfold ADC_UpdateBufferIdx.
    apply Z.eqb_neq in Hmask. rewrite Hmask. reflexivity.
Qed.

End Handler.

Lemma ADC_Handler_store_in_bounds_witness :
  (exists st', ADC_Handler 0x0ABC (set_iReadInput 2 (initial_state 5)) = Some st' /\
               buffer_load (ADC_buffer st') 2 0 0 = Some (0x0ABC - 4096)) /\
  ADC_Handler 0x0ABC (ADC_UpdateBufferIdx (initial_state 5)) = None /\
  iReadInput (ADC_UpdateBufferIdx (set_iReadInput 2 (initial_state 5))) = -1.
Proof.
  split; [|split].
  - destruct (proj1 ADC_Handler_store_in_bounds 0x0ABC (set_iReadInput 2 (initial_state 5)))
      as (st' & Hrun & _ & Hload).
    + apply initial_shape.
    + simpl. unfold N_ADC_INPUT. lia.
    + simpl. unfold N_ADC_BUFFERS. lia.
    + simpl. unfold N_ADC_BUFFER_POS. lia.
    + exists st'. split; [exact Hrun|exact Hload].
  - apply (proj1 (proj2 ADC_Handler_store_in_bounds)). reflexivity.
  - apply (proj2 (proj2 ADC_Handler_store_in_bounds)). simpl. lia.
Defined.

(** ** The inputs of a round *)

Lemma enabled_above_nil (lo mask : Z) :
  N_ADC_INPUT <= lo + 1 -> enabled_above lo mask = [].
Proof. intros Hlo. unfold enabled_above. rewrite seqZ_nil by lia. reflexivity. Qed.

Lemma enabled_above_step (lo mask : Z) :
  lo + 1 < N_ADC_INPUT ->
  enabled_above lo mask =
    if Z.testbit mask (lo + 1) then (lo + 1) :: enabled_above (lo + 1) mask
    else enabled_above (lo + 1) mask.
Proof.
  intros Hlo. unfold enabled_above. rewrite seqZ_cons by lia. simpl.
  replace (Z.succ (lo + 1)) with (lo + 1 + 1) by lia.
  replace (Z.pred (N_ADC_INPUT - (lo + 1))) with (N_ADC_INPUT - (lo + 1 + 1)) by lia.
  reflexivity.
Qed.

Lemma elem_of_enabled_above (lo mask c : Z) :
  c ∈ enabled_above lo mask <-> lo < c < N_ADC_INPUT /\ Z.testbit mask c = true.
Proof.
  unfold enabled_above. rewrite list_elem_of_In, filter_In, <- list_elem_of_In, elem_of_seqZ.
  intuition lia.
Qed.

Lemma enabled_above_sorted (lo mask : Z) :
  StronglySorted Z.lt (enabled_above lo mask).
Proof.
  remember (Z.to_nat (N_ADC_INPUT - (lo + 1))) as n eqn:Hn.
  revert lo Hn. induction n as [|n IH]; intros lo Hn.
  - rewrite enabled_above_nil by lia. constructor.
  - rewrite enabled_above_step by lia.
    specialize (IH (lo + 1) ltac:(lia)).
    destruct (Z.testbit mask (lo + 1)); [|exact IH].
    constructor; [exact IH|].
    apply Forall_forall. intros c Hc.
    apply elem_of_enabled_above in Hc. lia.
Qed.

(** Either no input above [lo] is enabled, or there is a first one and the
    inputs above [lo] are that one followed by the inputs above it. *)
Lemma enabled_above_cases (lo mask : Z) :
  (enabled_above lo mask = [] /\
   forall j, lo < j < N_ADC_INPUT -> Z.testbit mask j = false) \/
  (exists k, lo < k < N_ADC_INPUT /\ Z.testbit mask k = true /\
             (forall j, lo < j < k -> Z.testbit mask j = false) /\
             enabled_above lo mask = k :: enabled_above k mask).
Proof.
  remember (Z.to_nat (N_ADC_INPUT - (lo + 1))) as n eqn:Hn.
  revert lo Hn. induction n as [|n IH]; intros lo Hn.
  - left. split; [apply enabled_above_nil; lia|]. intros j Hj. lia.
  - rewrite enabled_above_step by lia.
    destruct (Z.testbit mask (lo + 1)) eqn:Hbit.
    + right. exists (lo + 1). repeat split; try lia; try assumption.
    + destruct (IH (lo + 1) ltac:(lia)) as [[Hnil Hnone]|(k & Hk & Hkbit & Hfirst & Hcons)].
      * left. split; [exact Hnil|]. intros j Hj.
        destruct (Z.eq_dec j (lo + 1)) as [->|Hne]; [exact Hbit|apply Hnone; lia].
      * right. exists k. repeat split; try lia; try assumption.
        intros j Hj.
        destruct (Z.eq_dec j (lo + 1)) as [->|Hne]; [exact Hbit|apply Hfirst; lia].
Qed.

Section Round.
Context `{BoardDefs}.

Lemma ADC_StartRead_found (st : state) (k : Z) :
  -1 <= iReadInput st < k -> k < N_ADC_INPUT ->
  Z.testbit (ADC_EnabledInputs st) k = true ->
  (forall j, iReadInput st < j < k -> Z.testbit (ADC_EnabledInputs st) j = false) ->
  ADC_StartRead st = start_conversion k st.
Proof.
  unfold N_ADC_INPUT. intros Hcur Hk Hbit Hfirst.
  unfold ADC_StartRead. rewrite int32_small by lia.
  apply ADC_StartRead_loop_found; try assumption; try (unfold N_ADC_INPUT; lia).
  intros j Hj. apply Hfirst. lia.
Qed.

Lemma ADC_StartRead_none (st : state) :
  -1 <= iReadInput st < 2147483647 ->
  (forall j, iReadInput st < j < N_ADC_INPUT ->
             Z.testbit (ADC_EnabledInputs st) j = false) ->
  ADC_StartRead st = st.
Proof.
  intros Hcur Hnone. unfold ADC_StartRead. rewrite int32_small by lia.
  apply ADC_StartRead_loop_none; [lia|].
  intros j Hj. apply Hnone. lia.
Qed.

(** The chain of conversion-complete interrupts, from the moment the
    conversion of input [c] is running. *)
Lemma conversion_events_from (results : list Z) (st : state) (c : Z) :
  buffer_shape (ADC_buffer st) ->
  0 <= iBuffer st < N_ADC_BUFFERS -> 0 <= iBufferPos st < N_ADC_BUFFER_POS ->
  conversion_running (ADC st) = true ->
  iReadInput st = c -> 0 <= c < N_ADC_INPUT ->
  (Z.to_nat (N_ADC_INPUT - c) <= length results)%nat ->
  exists st',
    conversion_events results st
      = Some (c :: enabled_above c (ADC_EnabledInputs st), st') /\
    conversion_running (ADC st') = false /\
    iReadInput st' = default c (last (enabled_above c (ADC_EnabledInputs st))) /\
    SWTRIG_START (ADC st')
      = SWTRIG_START (ADC st) ++ (mux_of <$> enabled_above c (ADC_EnabledInputs st)) /\
    ADC_EnabledInputs st' = ADC_EnabledInputs st /\
    iBuffer st' = iBuffer st /\ iBufferPos st' = iBufferPos st /\
    iBufferTransmit st' = iBufferTransmit st /\
    buffer_shape (ADC_buffer st').
Proof.
  revert st c. induction results as [|RESULT results IH];
    intros st c Hshape Hbuf Hpos Hrun Hcur Hc Hlen.
  - simpl in Hlen. unfold N_ADC_INPUT in *. lia.
  - simpl. rewrite Hrun.
    destruct (buffer_store_in_bounds (ADC_buffer st) (iReadInput st) (iBuffer st)
                (iBufferPos st) (convert_sample RESULT) Hshape ltac:(lia) Hbuf Hpos)
      as (buf' & Hstore & Hshape' & _).
    unfold ADC_Handler. simpl. rewrite Hstore. simpl.
    set (st1 := set_ADC_buffer buf' (read_RESULT st)).
    assert (Hcur1 : iReadInput st1 = c) by exact Hcur.
    change (ADC_EnabledInputs st) with (ADC_EnabledInputs st1).
    destruct (enabled_above_cases c (ADC_EnabledInputs st1))
      as [[Hnil Hnone]|(k & Hk & Hkbit & Hfirst & Hcons)].
    + rewrite ADC_StartRead_none;
        [|rewrite Hcur1; unfold N_ADC_INPUT in *; lia|rewrite Hcur1; exact Hnone].
      assert (Hstop : conversion_events results st1 = Some ([], st1))
        by (destruct results; reflexivity).
      rewrite Hstop, Hnil. simpl.
      exists st1. rewrite app_nil_r, Hcur.
      do 8 (split; [reflexivity || assumption|]). exact Hshape'.
    + rewrite (ADC_StartRead_found st1 k);
        [|rewrite Hcur1; lia|lia|exact Hkbit|rewrite Hcur1; exact Hfirst].
      destruct (IH (start_conversion k st1) k) as (st' & Hev & Hrun' & Hlast & Hlog & Hrest);
        try assumption; try reflexivity; try lia.
      { simpl in Hlen |- *. unfold N_ADC_INPUT in *. lia. }
      change (ADC_EnabledInputs (start_conversion k st1)) with (ADC_EnabledInputs st1) in *.
      rewrite Hev, Hcons, Hcur.
      exists st'. split; [reflexivity|]. split; [exact Hrun'|]. split.
      { rewrite last_cons, Hlast.
        destruct (last (enabled_above k (ADC_EnabledInputs st1))); reflexivity. }
      split; [|exact Hrest].
      rewrite Hlog, fmap_cons, cons_middle, app_assoc. reflexivity.
Qed.

End Round.

Lemma StronglySorted_lt_NoDup (l : list Z) : StronglySorted Z.lt l -> NoDup l.
Proof.
  induction 1 as [|a l Hsorted IH Hall]; constructor; [|exact IH].
  intros Hin. rewrite Forall_forall in Hall.
  specialize (Hall a Hin). lia.
Qed.

(** What [ADC_UpdateBufferIdx] leaves behind when some input is enabled. *)
Lemma ADC_UpdateBufferIdx_enabled (st : state) :
  ADC_EnabledInputs st <> 0 ->
  0 <= iBuffer st < N_ADC_BUFFERS -> 0 <= iBufferPos st < N_ADC_BUFFER_POS ->
  let st' := ADC_UpdateBufferIdx st in
  iReadInput st' = -1 /\
  0 <= iBuffer st' < N_ADC_BUFFERS /\ 0 <= iBufferPos st' < N_ADC_BUFFER_POS /\
  ADC_EnabledInputs st' = ADC_EnabledInputs st /\
  ADC_buffer st' = ADC_buffer st /\
  ADC st' = ADC st.
Proof.
  intros Hmask Hbuf Hpos.
  destruct (Z.eq_dec (iBufferPos st + 1) N_ADC_BUFFER_POS) as [Hlast|Hin].
  - destruct (ADC_UpdateBufferIdx_wrap st Hmask Hlast) as (Hb & Hp & _ & Hr & Hm & Hs & Ha).
    cbv zeta. rewrite Hb, Hp, Hr, Hm, Hs, Ha.
    pose proof (Z.mod_pos_bound (iBuffer st + 1) N_ADC_BUFFERS ltac:(reflexivity)).
    unfold N_ADC_BUFFER_POS. repeat split; lia.
  - cbv zeta. rewrite ADC_UpdateBufferIdx_within by lia. simpl.
    repeat split; lia.
Qed.

Section FullRound.
Context `{BoardDefs}.

(** A round is what the timer interrupt starts on a compare match. *)
Lemma TC3_Handler_round (results : list Z) (tc : TC_regs) (st : state) :
  INTFLAG_MC0 tc = true ->
  INTFLAG_MC0 (TC3_Handler tc st).1 = false /\
  conversion_events results (TC3_Handler tc st).2 = ADC_round results st.
Proof. intros Hflag. unfold TC3_Handler. rewrite Hflag. split; reflexivity. Qed.

(** C1, as the firmware has it: with some input enabled, a round
    ([ADC_UpdateBufferIdx], [ADC_StartRead], then one [ADC_Handler] per
    finished conversion) stores a sample for exactly the inputs in
    [0, N_ADC_INPUT) whose bit is set in the mask, each once, in strictly
    ascending order, one conversion started for each, and ends with no
    conversion running.  [iReadInput] is then the last input read (-1 only
    if no input in range is enabled); it is not reset at the end of the
    round. *)
Theorem ADC_round_visits_enabled_inputs (results : list Z) (st : state) :
  ADC_EnabledInputs st <> 0 ->
  buffer_shape (ADC_buffer st) ->
  0 <= iBuffer st < N_ADC_BUFFERS -> 0 <= iBufferPos st < N_ADC_BUFFER_POS ->
  conversion_running (ADC st) = false ->
  (Z.to_nat N_ADC_INPUT <= length results)%nat ->
  let inputs := enabled_inputs (ADC_EnabledInputs st) in
  (forall c, c ∈ inputs <->
             0 <= c < N_ADC_INPUT /\ Z.testbit (ADC_EnabledInputs st) c = true) /\
  StronglySorted Z.lt inputs /\ NoDup inputs /\
  exists st',
    ADC_round results st = Some (inputs, st') /\
    conversion_running (ADC st') = false /\
    iReadInput st' = default (-1) (last inputs) /\
    SWTRIG_START (ADC st') = SWTRIG_START (ADC st) ++ (mux_of <$> inputs).
Proof.
  intros Hmask Hshape Hbuf Hpos Hrun Hlen inputs.
  split; [|split; [|split]].
  - intros c. unfold inputs, enabled_inputs. rewrite elem_of_enabled_above.
    intuition lia.
  - apply enabled_above_sorted.
  - apply StronglySorted_lt_NoDup, enabled_above_sorted.
  - destruct (ADC_UpdateBufferIdx_enabled st Hmask Hbuf Hpos)
      as (Hr0 & Hb0 & Hp0 & Hm0 & Hs0 & Ha0).
    unfold ADC_round. set (st0 := ADC_UpdateBufferIdx st) in *.
    subst inputs. unfold enabled_inputs. rewrite <- Hm0.
    destruct (enabled_above_cases (-1) (ADC_EnabledInputs st0))
      as [[Hnil Hnone]|(k & Hk & Hkbit & Hfirst & Hcons)].
    + rewrite ADC_StartRead_none; [|rewrite Hr0; lia|rewrite Hr0; exact Hnone].
      exists st0. rewrite Hnil, Ha0, Hrun, app_nil_r.
      split; [|auto].
      destruct results as [|r results]; simpl; [reflexivity|].
      rewrite Ha0, Hrun. reflexivity.
    + rewrite (ADC_StartRead_found st0 k);
        [|rewrite Hr0; lia|lia|exact Hkbit|rewrite Hr0; exact Hfirst].
      destruct (conversion_events_from results (start_conversion k st0) k)
        as (st' & Hev & Hrun' & Hlast & Hlog & _);
        try assumption; try reflexivity; try lia.
      { simpl. rewrite Hs0. exact Hshape. }
      change (ADC_EnabledInputs (start_conversion k st0))
        with (ADC_EnabledInputs st0) in *.
      exists st'. rewrite Hcons. split; [exact Hev|]. split; [exact Hrun'|]. split.
      * rewrite last_cons, Hlast.
        destruct (last (enabled_above k (ADC_EnabledInputs st0))); reflexivity.
      * rewrite Hlog, fmap_cons, cons_middle, app_assoc. simpl.
        rewrite Ha0. reflexivity.
Qed.

End FullRound.

Lemma ADC_round_visits_enabled_inputs_witness :
  exists st',
    ADC_round [0x0ABC; 0x0123; 0; 0; 0] (initial_state 5) = Some ([0; 2], st') /\
    conversion_running (ADC st') = false /\
    iReadInput st' = 2 /\
    SWTRIG_START (ADC st') = [2; 4].
Proof.
  destruct (ADC_round_visits_enabled_inputs [0x0ABC; 0x0123; 0; 0; 0] (initial_state 5))
    as (_ & _ & _ & st' & Hround & Hrun & Hlast & Hlog).
  - simpl. lia.
  - apply initial_shape.
  - simpl. unfold N_ADC_BUFFERS. lia.
  - simpl. unfold N_ADC_BUFFER_POS. lia.
  - reflexivity.
  - vm_compute. lia.
  - exists st'. split; [exact Hround|]. split; [exact Hrun|].
    split; [exact Hlast|exact Hlog].
Defined.

(** The round does not end with [iReadInput] back at -1: with inputs 0 and 2
    enabled it ends at 2. *)
Lemma ADC_round_end_not_reset :
  ADC_EnabledInputs (initial_state 5) <> 0 /\
  ~ (exists st',
       ADC_round [0x0ABC; 0x0123; 0; 0; 0] (initial_state 5)
         = Some (enabled_inputs 5, st') /\
       iReadInput st' = -1).
Proof.
  split; [simpl; lia|].
  intros (st' & Hround & Hidle).
  assert (Hend : (fun r : list Z * state => iReadInput r.2)
                   <$> ADC_round [0x0ABC; 0x0123; 0; 0; 0] (initial_state 5) = Some 2)
    by (vm_compute; reflexivity).
  rewrite Hround in Hend. simpl in Hend. injection Hend as Hend. lia.
Qed.

(** ** The invariant of the globals *)

Lemma convert_sample_int16 (RESULT : Z) : -32768 <= convert_sample RESULT < 32768.
Proof.
  unfold convert_sample, int16.
  match goal with |- _ <= ?a mod 65536 - _ < _ =>
    pose proof (Z.mod_pos_bound a 65536 ltac:(lia)) end.
  lia.
Qed.

Lemma buffer_store_int16 (buf buf' : list (list (list Z))) (i j k v : Z) :
  buffer_int16 buf -> -32768 <= v < 32768 ->
  buffer_store buf i j k v = Some buf' -> buffer_int16 buf'.
Proof.
  unfold buffer_int16, buffer_store. intros Hall Hv Hstore.
  destruct ((0 <=? i) && (0 <=? j) && (0 <=? k)); [|discriminate].
  destruct (buf !! Z.to_nat i) as [plane|] eqn:Hplane; [|discriminate].
  simpl in Hstore.
  destruct (plane !! Z.to_nat j) as [row|] eqn:Hrow; [|discriminate].
  simpl in Hstore.
  destruct (row !! Z.to_nat k) as [v0|]; [|discriminate].
  injection Hstore as <-.
  pose proof (proj1 (Forall_lookup _ _) Hall _ _ Hplane) as Hrows.
  pose proof (proj1 (Forall_lookup _ _) Hrows _ _ Hrow) as Hvals.
  apply Forall_insert; [exact Hall|].
  apply Forall_insert; [exact Hrows|].
  apply Forall_insert; [exact Hvals|exact Hv].
Qed.

Lemma buffer_store_inv (buf buf' : list (list (list Z))) (i j k v : Z) :
  buffer_shape buf -> buffer_store buf i j k v = Some buf' ->
  0 <= i < N_ADC_INPUT /\ 0 <= j < N_ADC_BUFFERS /\ 0 <= k < N_ADC_BUFFER_POS.
Proof.
  unfold buffer_store. intros [Hlen Hplanes] Hstore.
  destruct ((0 <=? i) && (0 <=? j) && (0 <=? k)) eqn:Hnonneg; [|discriminate].
  rewrite !andb_true_iff, !Z.leb_le in Hnonneg.
  destruct (buf !! Z.to_nat i) as [plane|] eqn:Hplane; [|discriminate].
  simpl in Hstore.
  destruct (plane !! Z.to_nat j) as [row|] eqn:Hrow; [|discriminate].
  simpl in Hstore.
  destruct (row !! Z.to_nat k) as [v0|] eqn:Hv; [|discriminate].
  destruct (proj1 (Forall_lookup _ _) Hplanes _ _ Hplane) as [Hlp Hrows].
  pose proof (proj1 (Forall_lookup _ _) Hrows _ _ Hrow) as Hlr. simpl in Hlr.
  apply lookup_lt_Some in Hplane, Hrow, Hv. lia.
Qed.

Ltac state_ok_parts :=
  unfold state_ok;
  repeat match goal with |- _ /\ _ => split end;
  try assumption; simpl; unfold N_ADC_INPUT in *; try lia.

Lemma initial_state_ok (enabled : Z) : state_ok (initial_state enabled).
Proof.
  split; [apply initial_shape|]. split.
  - change (ADC_buffer (initial_state enabled))
      with (replicate 5 (replicate 64 (replicate 16 0))).
    unfold buffer_int16. do 3 apply Forall_replicate. lia.
  - simpl. unfold N_ADC_BUFFERS, N_ADC_BUFFER_POS, N_ADC_INPUT. lia.
Qed.

Lemma ADC_UpdateBufferIdx_ok (st : state) :
  state_ok st -> state_ok (ADC_UpdateBufferIdx st).
Proof.
  intros (Hshape & Hint & Hbuf & Hpos & Hcur).
  destruct (Z.eq_dec (ADC_EnabledInputs st) 0) as [Hzero|Hmask].
  - unfold ADC_UpdateBufferIdx. rewrite Hzero. simpl.
    exact (conj Hshape (conj Hint (conj Hbuf (conj Hpos Hcur)))).
  - destruct (ADC_UpdateBufferIdx_enabled st Hmask Hbuf Hpos)
      as (Hr & Hb & Hp & _ & Hs & _).
    unfold state_ok. rewrite Hr, Hs. state_ok_parts.
Qed.

Section Invariant.
Context `{BoardDefs}.

Lemma ADC_StartRead_ok (st : state) : state_ok st -> state_ok (ADC_StartRead st).
Proof.
  intros (Hshape & Hint & Hbuf & Hpos & Hcur).
  destruct (enabled_above_cases (iReadInput st) (ADC_EnabledInputs st))
    as [[_ Hnone]|(k & Hk & Hkbit & Hfirst & _)].
  - rewrite ADC_StartRead_none; [|unfold N_ADC_INPUT in *; lia|exact Hnone].
    exact (conj Hshape (conj Hint (conj Hbuf (conj Hpos Hcur)))).
  - rewrite (ADC_StartRead_found st k); [|lia|lia|exact Hkbit|exact Hfirst].
    state_ok_parts.
Qed.

Lemma ADC_Handler_ok (RESULT : Z) (st st' : state) :
  state_ok st -> ADC_Handler RESULT st = Some st' -> state_ok st'.
Proof.
  intros (Hshape & Hint & Hbuf & Hpos & Hcur). unfold ADC_Handler. simpl.
  destruct (buffer_store _ _ _ _ _) as [buf'|] eqn:Hstore; [|discriminate].
  simpl. intros [= <-]. apply ADC_StartRead_ok.
  destruct (buffer_store_inv _ _ _ _ _ _ Hshape Hstore) as (Hi & _ & _).
  destruct (buffer_store_in_bounds (ADC_buffer st) (iReadInput st) (iBuffer st)
              (iBufferPos st) (convert_sample RESULT) Hshape Hi Hbuf Hpos)
    as (buf2 & Hstore2 & Hshape' & _).
  assert (buf2 = buf') as -> by congruence.
  pose proof (buffer_store_int16 _ _ _ _ _ _ Hint (convert_sample_int16 RESULT) Hstore)
    as Hint'.
  exact (conj Hshape' (conj Hint' (conj Hbuf (conj Hpos Hcur)))).
Qed.

End Invariant.

(** ** UDP payload *)

Lemma frame_row_lookup (buf : list (list (list Z))) (i j : Z) :
  buffer_shape buf -> 0 <= i < N_ADC_INPUT -> 0 <= j < N_ADC_BUFFERS ->
  length (frame_row buf i j) = Z.to_nat N_ADC_BUFFER_POS /\
  forall k, 0 <= k -> buffer_load buf i j k = frame_row buf i j !! Z.to_nat k.
Proof.
  intros Hshape Hi Hj.
  destruct (buffer_shape_lookup buf i j 0 Hshape Hi Hj ltac:(unfold N_ADC_BUFFER_POS; lia))
    as (plane & row & _ & Hplane & Hrow & _ & _ & _ & Hlr).
  unfold frame_row, buffer_load. rewrite Hplane. simpl. rewrite Hrow. simpl.
  split; [exact Hlr|]. intros k Hk.
  rewrite nonneg_indices by lia. reflexivity.
Qed.

Lemma length_sample_bytes (row : list Z) :
  length (sample_bytes row) = (2 * length row)%nat.
Proof.
  unfold sample_bytes. induction row as [|v row IH]; [reflexivity|].
  rewrite fmap_cons. simpl in *. rewrite IH. lia.
Qed.

Section Transmit.
Context `{BoardDefs}.

Lemma UdpTransmit_positions_spec (n : nat) (iPos : Z) (st : state)
    (iInput iBuffer_in : Z) (out : list Z) :
  buffer_shape (ADC_buffer st) ->
  0 <= iInput < N_ADC_INPUT -> 0 <= iBuffer_in < N_ADC_BUFFERS ->
  0 <= iPos -> (Z.to_nat (N_ADC_BUFFER_POS - iPos) <= n)%nat ->
  UdpTransmit_positions n iPos st iInput iBuffer_in out
    = Some (out ++ sample_bytes
                     (drop (Z.to_nat iPos) (frame_row (ADC_buffer st) iInput iBuffer_in))).
Proof.
  intros Hshape Hi Hj.
  destruct (frame_row_lookup _ _ _ Hshape Hi Hj) as [Hlen Hload].
  revert iPos out. induction n as [|n IH]; intros iPos out Hpos Hn.
  - simpl. rewrite drop_ge by lia. rewrite app_nil_r. reflexivity.
  - simpl. destruct (iPos <? N_ADC_BUFFER_POS) eqn:Hlt.
    + apply Z.ltb_lt in Hlt. rewrite Hload by lia.
      destruct (lookup_lt_is_Some_2 (frame_row (ADC_buffer st) iInput iBuffer_in)
                  (Z.to_nat iPos)) as [v Hv]; [lia|].
      rewrite Hv. simpl. rewrite IH by lia.
      rewrite (drop_S _ _ _ Hv).
      replace (Z.to_nat (iPos + 1)) with (S (Z.to_nat iPos)) by lia.
      unfold sample_bytes. rewrite fmap_cons. simpl.
      rewrite <- app_assoc. reflexivity.
    + apply Z.ltb_ge in Hlt. rewrite drop_ge by lia. rewrite app_nil_r. reflexivity.
Qed.

Lemma UdpTransmit_inputs_spec (n : nat) (iInput : Z) (st : state)
    (iBuffer_in : Z) (out : list Z) :
  buffer_shape (ADC_buffer st) -> 0 <= iBuffer_in < N_ADC_BUFFERS ->
  0 <= iInput -> (Z.to_nat (N_ADC_INPUT - iInput) <= n)%nat ->
  UdpTransmit_inputs n iInput st iBuffer_in out
    = Some (out ++ concat ((fun c => sample_bytes (frame_row (ADC_buffer st) c iBuffer_in))
                             <$> enabled_above (iInput - 1) (ADC_EnabledInputs st))).
Proof.
  intros Hshape Hj. revert iInput out.
  induction n as [|n IH]; intros iInput out Hi Hn.
  - simpl. rewrite enabled_above_nil by lia. simpl. rewrite app_nil_r. reflexivity.
  - cbn [UdpTransmit_inputs]. destruct (iInput <? N_ADC_INPUT) eqn:Hlt.
    + apply Z.ltb_lt in Hlt.
      rewrite enabled_above_step by lia.
      replace (iInput - 1 + 1) with iInput by lia.
      rewrite land_shiftl_testbit by lia.
      specialize (IH (iInput + 1)).
      replace (iInput + 1 - 1) with iInput in IH by lia.
      destruct (Z.testbit (ADC_EnabledInputs st) iInput).
      * rewrite UdpTransmit_positions_spec by (try assumption; lia).
        cbn [mbind option_bind]. rewrite IH by lia.
        rewrite fmap_cons, concat_cons, drop_0, app_assoc. reflexivity.
      * apply IH; lia.
    + apply Z.ltb_ge in Hlt. rewrite enabled_above_nil by lia.
      simpl. rewrite app_nil_r. reflexivity.
Qed.

End Transmit.

Lemma sample_bytes_bytes (row : list Z) :
  Forall (fun x => 0 <= x < 256) (sample_bytes row).
Proof.
  unfold sample_bytes. apply Forall_concat, Forall_fmap, Forall_forall.
  intros v _. unfold compose, write_sample, uint8.
  repeat constructor; apply Z.mod_pos_bound; lia.
Qed.

(** The two bytes of a sample, written out: the low eight bits, then the
    next eight. *)
Lemma write_sample_bytes (v : Z) :
  write_sample v = [v mod 256; (v / 256) mod 256].
Proof.
  unfold write_sample, uint8. rewrite Z.shiftr_div_pow2 by lia. reflexivity.
Qed.

Lemma sample_bytes_explicit (row : list Z) :
  sample_bytes row = concat ((fun v => [v mod 256; (v / 256) mod 256]) <$> row).
Proof.
  unfold sample_bytes. induction row as [|v row IH]; [reflexivity|].
  rewrite !fmap_cons, !concat_cons, IH, write_sample_bytes. reflexivity.
Qed.

Lemma is_byte_mod (v : Z) : Wire.is_byte (v mod 256) = true.
Proof.
  unfold Wire.is_byte. pose proof (Z.mod_pos_bound v 256 ltac:(lia)).
  apply andb_true_iff. split; [apply Z.leb_le|apply Z.ltb_lt]; lia.
Qed.

Lemma is_byte_range (b : Z) : 0 <= b < 256 -> Wire.is_byte b = true.
Proof.
  intros Hb. unfold Wire.is_byte.
  apply andb_true_iff. split; [apply Z.leb_le|apply Z.ltb_lt]; lia.
Qed.

(** Two bytes, least significant first, give the sample back. *)
Lemma sample_of_bytes_write (v : Z) :
  -32768 <= v < 32768 ->
  Wire.sample_of_bytes (uint8 v) (uint8 (Z.shiftr v 8)) = v.
Proof.
  intros Hv. unfold Wire.sample_of_bytes, uint8, int16.
  rewrite Z.shiftr_div_pow2 by lia. change (2 ^ 8) with 256.
  rewrite <- Z.rem_mul_r by lia. change (256 * 256) with 65536.
  rewrite Z.add_mod_idemp_l by lia.
  rewrite Z.mod_small; lia.
Qed.

Lemma decode_samples_bytes (row rest : list Z) :
  Forall (fun v => -32768 <= v < 32768) row ->
  Wire.decode_samples (length row) (sample_bytes row ++ rest) = Some (row, rest).
Proof.
  induction 1 as [|v row Hv Hrow IH]; [reflexivity|].
  unfold sample_bytes. rewrite fmap_cons. simpl.
  fold (sample_bytes row). rewrite IH. simpl.
  change (Wire.is_byte (uint8 v)) with (Wire.is_byte (v mod 256)).
  change (Wire.is_byte (uint8 (Z.shiftr v 8)))
    with (Wire.is_byte (Z.shiftr v 8 mod 256)).
  rewrite !is_byte_mod. cbn [andb].
  rewrite sample_of_bytes_write by exact Hv. reflexivity.
Qed.

Lemma frame_row_int16 (buf : list (list (list Z))) (i j : Z) :
  buffer_int16 buf -> Forall (fun v => -32768 <= v < 32768) (frame_row buf i j).
Proof.
  intros Hall. unfold frame_row.
  destruct (buf !! Z.to_nat i) as [plane|] eqn:Hplane; simpl; [|constructor].
  pose proof (proj1 (Forall_lookup _ _) Hall _ _ Hplane) as Hrows.
  destruct (plane !! Z.to_nat j) as [row|] eqn:Hrow; simpl; [|constructor].
  exact (proj1 (Forall_lookup _ _) Hrows _ _ Hrow).
Qed.

Lemma decode_channels_bytes (n : nat) (i j : Z) (buf : list (list (list Z))) (m : Z) :
  buffer_shape buf -> buffer_int16 buf -> 0 <= j < N_ADC_BUFFERS ->
  0 <= i -> n = Z.to_nat (N_ADC_INPUT - i) ->
  Wire.decode_channels (seqZ i (N_ADC_INPUT - i)) m
    (concat ((fun c => sample_bytes (frame_row buf c j)) <$> enabled_above (i - 1) m))
  = Some ((fun c => (c, frame_row buf c j)) <$> enabled_above (i - 1) m).
Proof.
  intros Hshape Hint Hj. revert i. induction n as [|n IH]; intros i Hi Hn.
  - rewrite seqZ_nil, enabled_above_nil by lia. reflexivity.
  - rewrite seqZ_cons, enabled_above_step by lia.
    replace (i - 1 + 1) with i by lia.
    specialize (IH (i + 1) ltac:(lia) ltac:(lia)).
    replace (i + 1 - 1) with i in IH by lia.
    replace (Z.succ i) with (i + 1) by lia.
    replace (Z.pred (N_ADC_INPUT - i)) with (N_ADC_INPUT - (i + 1)) by lia.
    cbn [Wire.decode_channels].
    destruct (Z.testbit m i); [|exact IH].
    rewrite !fmap_cons, concat_cons.
    destruct (frame_row_lookup buf i j Hshape ltac:(lia) Hj) as [Hlen _].
    rewrite <- Hlen, decode_samples_bytes by (apply frame_row_int16; exact Hint).
    cbn [mbind option_bind fst snd]. rewrite IH. reflexivity.
Qed.

Section Payload.
Context `{BoardDefs}.

(** C8: the payload of [ADC_UdpTransmit] is, in order, the data type byte
    (['D'] = 68 for the four-argument call), the buffer index, the mask of
    enabled inputs, and then for every input in ascending order whose bit is
    set in the mask its [N_ADC_BUFFER_POS] = 16 samples by ascending
    position, two bytes each, least significant byte first: a sample [v] is
    sent as [v mod 256] followed by [(v / 256) mod 256].  Every element of
    the payload is a byte.  With mask 0b00000101 the payload has
    3 + 2 * (2 * 16) bytes, and reading a payload back by the wire format
    returns the sample sequence of each enabled input exactly. *)
Theorem ADC_UdpTransmit_payload (st : state) (iBuffer_in IP_in Port_in DataType : Z) :
  buffer_shape (ADC_buffer st) ->
  0 <= iBuffer_in < N_ADC_BUFFERS ->
  let enabled := ADC_EnabledInputs st in
  let rows := (fun c => (c, frame_row (ADC_buffer st) c iBuffer_in))
                <$> enabled_inputs enabled in
  let samples :=
    concat ((fun r : Z * list Z =>
               concat ((fun v => [v mod 256; (v / 256) mod 256]) <$> r.2)) <$> rows) in
  let payload := [DataType mod 256; iBuffer_in; enabled] ++ samples in
  ADC_UdpTransmit st iBuffer_in IP_in Port_in DataType
    = Some {| pkt_ip := IP_in; pkt_port := Port_in; pkt_payload := payload |} /\
  ADC_UdpTransmit_D st iBuffer_in IP_in Port_in
    = Some {| pkt_ip := IP_in; pkt_port := Port_in;
              pkt_payload := [68; iBuffer_in; enabled] ++ samples |} /\
  Forall (fun r : Z * list Z =>
            length r.2 = Z.to_nat N_ADC_BUFFER_POS /\
            forall iPos, 0 <= iPos < N_ADC_BUFFER_POS ->
              r.2 !! Z.to_nat iPos = buffer_load (ADC_buffer st) r.1 iBuffer_in iPos) rows /\
  (0 <= enabled < 256 -> Forall (fun b => 0 <= b < 256) payload) /\
  (enabled = 5 -> length payload = Z.to_nat (3 + 2 * (2 * 16))) /\
  (0 <= enabled < 256 -> buffer_int16 (ADC_buffer st) ->
   Wire.decode payload
     = Some {| Wire.tag := DataType mod 256; Wire.buffer_index := iBuffer_in;
               Wire.mask := enabled; Wire.channels := rows |}).
Proof.
  intros Hshape Hj enabled rows samples payload.
  assert (Hsamples : samples
            = concat ((fun c => sample_bytes (frame_row (ADC_buffer st) c iBuffer_in))
                        <$> enabled_inputs enabled)).
  { subst samples rows. rewrite <- list_fmap_compose. f_equal.
    apply list_fmap_ext. intros i c _. unfold compose. cbn [snd].
    symmetry. apply sample_bytes_explicit. }
  assert (Hbytes : forall ty,
            ADC_UdpTransmit st iBuffer_in IP_in Port_in ty
            = Some {| pkt_ip := IP_in; pkt_port := Port_in;
                      pkt_payload := [ty mod 256; iBuffer_in; enabled] ++ samples |}).
  { intros ty. unfold ADC_UdpTransmit.
    rewrite UdpTransmit_inputs_spec by (try assumption; lia).
    cbn [mbind option_bind]. rewrite Hsamples. reflexivity. }
  split; [apply Hbytes|]. split.
  { unfold ADC_UdpTransmit_D. rewrite Hbytes. reflexivity. }
  split.
  { subst rows. apply Forall_fmap, Forall_forall. intros c Hc. simpl.
    unfold enabled_inputs in Hc. apply elem_of_enabled_above in Hc.
    destruct (frame_row_lookup (ADC_buffer st) c iBuffer_in Hshape ltac:(lia) Hj)
      as [Hlen Hload].
    split; [exact Hlen|]. intros iPos HiPos. symmetry. apply Hload. lia. }
  split.
  { intros Hen. subst payload. rewrite Hsamples.
    pose proof (Z.mod_pos_bound DataType 256 ltac:(lia)).
    apply Forall_app. split.
    - repeat match goal with
             | |- Forall _ (_ :: _) => constructor
             | |- Forall _ [] => constructor
             end; unfold N_ADC_BUFFERS in *; lia.
    - apply Forall_concat, Forall_fmap, Forall_forall. intros c _.
      unfold compose. apply sample_bytes_bytes. }
  split.
  { intros Hmask. subst payload. rewrite Hsamples, Hmask.
    change (enabled_inputs 5) with [0; 2].
    rewrite !fmap_cons, !concat_cons, !length_app. cbn [fmap list_fmap concat].
    rewrite !length_sample_bytes.
    destruct (frame_row_lookup (ADC_buffer st) 0 iBuffer_in Hshape
                ltac:(unfold N_ADC_INPUT; lia) Hj) as [-> _].
    destruct (frame_row_lookup (ADC_buffer st) 2 iBuffer_in Hshape
                ltac:(unfold N_ADC_INPUT; lia) Hj) as [-> _].
    reflexivity. }
  intros Hen Hint. subst payload. rewrite Hsamples. subst rows.
  cbn [app Wire.decode].
  rewrite is_byte_mod, (is_byte_range iBuffer_in), (is_byte_range enabled)
    by (unfold N_ADC_BUFFERS in *; lia).
  cbn [andb].
  pose proof (decode_channels_bytes (Z.to_nat N_ADC_INPUT) 0 iBuffer_in
                (ADC_buffer st) enabled Hshape Hint Hj ltac:(lia) ltac:(reflexivity))
    as Hdec.
  change (enabled_above (0 - 1) enabled) with (enabled_inputs enabled) in Hdec.
  change (N_ADC_INPUT - 0) with N_ADC_INPUT in Hdec.
  rewrite Hdec. reflexivity.
Qed.

End Payload.

Lemma ramp_shape (enabled : Z) : buffer_shape (ADC_buffer (ramp_state enabled)).
Proof.
  change (ADC_buffer (ramp_state enabled)) with ramp_buffer.
  unfold buffer_shape, ramp_buffer. split.
  - rewrite length_fmap, length_seqZ. reflexivity.
  - apply Forall_fmap, Forall_forall. intros i _. unfold compose. cbn beta. split.
    + rewrite length_fmap, length_seqZ. reflexivity.
    + apply Forall_fmap, Forall_forall. intros j _. unfold compose. cbn beta.
      rewrite length_fmap, length_seqZ. reflexivity.
Qed.

Lemma ramp_int16 (enabled : Z) : buffer_int16 (ADC_buffer (ramp_state enabled)).
Proof.
  change (ADC_buffer (ramp_state enabled)) with ramp_buffer.
  unfold buffer_int16, ramp_buffer.
  apply Forall_fmap, Forall_forall. intros i Hi. unfold compose. cbn beta.
  apply Forall_fmap, Forall_forall. intros j Hj. unfold compose. cbn beta.
  apply Forall_fmap, Forall_forall. intros k Hk. unfold compose. cbn beta.
  apply elem_of_seqZ in Hi, Hj, Hk. lia.
Qed.

Lemma ADC_UdpTransmit_payload_witness :
  exists pkt,
    ADC_UdpTransmit_D (ramp_state 5) 3 0 8888 = Some pkt /\
    length (pkt_payload pkt) = 67%nat /\
    Forall (fun b => 0 <= b < 256) (pkt_payload pkt) /\
    Wire.channels <$> Wire.decode (pkt_payload pkt)
      = Some [(0, frame_row ramp_buffer 0 3); (2, frame_row ramp_buffer 2 3)].
Proof.
  assert (Hj : 0 <= 3 < N_ADC_BUFFERS) by (unfold N_ADC_BUFFERS; lia).
  assert (Hen : 0 <= ADC_EnabledInputs (ramp_state 5) < 256) by (simpl; lia).
  pose proof (ADC_UdpTransmit_payload (ramp_state 5) 3 0 8888 68 (ramp_shape 5) Hj)
    as Hthm.
  cbv zeta in Hthm. destruct Hthm as (Htx & _ & _ & Hbytes & Hlen & Hdec).
  eexists. split; [exact Htx|]. split; [|split].
  - exact (Hlen eq_refl).
  - exact (Hbytes Hen).
  - cbn [pkt_payload]. rewrite (Hdec Hen (ramp_int16 5)). reflexivity.
Defined.

(** * Further properties of the firmware *)

(** ** Stores leave every other sample alone *)

Lemma buffer_store_other (buf buf' : list (list (list Z))) (i j k v i' j' k' : Z) :
  buffer_store buf i j k v = Some buf' ->
  ~ (i' = i /\ j' = j /\ k' = k) ->
  buffer_load buf' i' j' k' = buffer_load buf i' j' k'.
Proof.
  unfold buffer_store, buffer_load. intros Hstore Hne.
  destruct ((0 <=? i) && (0 <=? j) && (0 <=? k)) eqn:Hnonneg; [|discriminate].
  rewrite !andb_true_iff, !Z.leb_le in Hnonneg.
  destruct (buf !! Z.to_nat i) as [plane|] eqn:Hplane; [|discriminate].
  cbn [mbind option_bind] in Hstore.
  destruct (plane !! Z.to_nat j) as [row|] eqn:Hrow; [|discriminate].
  cbn [mbind option_bind] in Hstore.
  destruct (row !! Z.to_nat k) as [v0|] eqn:Hv; [|discriminate].
  cbn [mbind option_bind] in Hstore. injection Hstore as <-.
  destruct ((0 <=? i') && (0 <=? j') && (0 <=? k')) eqn:Hnonneg'; [|reflexivity].
  rewrite !andb_true_iff, !Z.leb_le in Hnonneg'.
  destruct (Z.eq_dec i' i) as [->|Hi].
  - rewrite list_lookup_insert_eq by (apply lookup_lt_Some in Hplane; exact Hplane).
    rewrite Hplane. cbn [mbind option_bind].
    destruct (Z.eq_dec j' j) as [->|Hj].
    + rewrite list_lookup_insert_eq by (apply lookup_lt_Some in Hrow; exact Hrow).
      rewrite Hrow. cbn [mbind option_bind].
      apply list_lookup_insert_ne. lia.
    + rewrite list_lookup_insert_ne by lia. reflexivity.
  - rewrite list_lookup_insert_ne by lia. reflexivity.
Qed.

Section RoundStores.
Context `{BoardDefs}.

Lemma ADC_Handler_running (RESULT : Z) (st : state) :
  buffer_shape (ADC_buffer st) ->
  0 <= iReadInput st < N_ADC_INPUT ->
  0 <= iBuffer st < N_ADC_BUFFERS -> 0 <= iBufferPos st < N_ADC_BUFFER_POS ->
  exists buf',
    buffer_store (ADC_buffer st) (iReadInput st) (iBuffer st) (iBufferPos st)
      (convert_sample RESULT) = Some buf' /\
    buffer_shape buf' /\
    buffer_load buf' (iReadInput st) (iBuffer st) (iBufferPos st)
      = Some (convert_sample RESULT) /\
    ADC_Handler RESULT st = Some (ADC_StartRead (set_ADC_buffer buf' (read_RESULT st))).
Proof.
  intros Hshape Hi Hj Hk.
  destruct (buffer_store_in_bounds (ADC_buffer st) (iReadInput st) (iBuffer st)
              (iBufferPos st) (convert_sample RESULT) Hshape Hi Hj Hk)
    as (buf' & Hstore & Hshape' & Hload).
  exists buf'. unfold ADC_Handler. cbn [read_RESULT set_ADC ADC_buffer iReadInput iBuffer iBufferPos].
  rewrite Hstore. auto.
Qed.

(** The chain of conversion-complete interrupts puts the [n]-th result,
    converted, in the cell of the [n]-th input read, and touches no other
    cell. *)
Lemma conversion_events_buffer (results : list Z) :
  forall (st : state) (c : Z) (vis : list Z) (st' : state),
  buffer_shape (ADC_buffer st) ->
  0 <= iBuffer st < N_ADC_BUFFERS -> 0 <= iBufferPos st < N_ADC_BUFFER_POS ->
  conversion_running (ADC st) = true ->
  iReadInput st = c -> 0 <= c < N_ADC_INPUT ->
  (Z.to_nat (N_ADC_INPUT - c) <= length results)%nat ->
  conversion_events results st = Some (vis, st') ->
  (forall n ch, vis !! n = Some ch ->
     exists raw, results !! n = Some raw /\
       buffer_load (ADC_buffer st') ch (iBuffer st) (iBufferPos st)
         = Some (convert_sample raw)) /\
  (forall i j k, ~ (i ∈ vis /\ j = iBuffer st /\ k = iBufferPos st) ->
     buffer_load (ADC_buffer st') i j k = buffer_load (ADC_buffer st) i j k).
Proof.
  induction results as [|RESULT results IH];
    intros st c vis st' Hshape Hbuf Hpos Hrun Hcur Hc Hlen Hev.
  - simpl in Hlen. unfold N_ADC_INPUT in *. lia.
  - cbn [conversion_events] in Hev. rewrite Hrun in Hev.
    destruct (ADC_Handler_running RESULT st Hshape ltac:(lia) Hbuf Hpos)
      as (buf' & Hstore & Hshape' & Hload & Hhandler).
    rewrite Hhandler in Hev. cbn [mbind option_bind] in Hev.
    set (st1 := set_ADC_buffer buf' (read_RESULT st)) in *.
    assert (Hcur1 : iReadInput st1 = c) by exact Hcur.
    destruct (enabled_above_cases c (ADC_EnabledInputs st1))
      as [[Hnil Hnone]|(k & Hk & Hkbit & Hfirst & Hcons)].
    + rewrite ADC_StartRead_none in Hev;
        [|rewrite Hcur1; unfold N_ADC_INPUT in *; lia|rewrite Hcur1; exact Hnone].
      assert (Hstop : conversion_events results st1 = Some ([], st1))
        by (destruct results; reflexivity).
      rewrite Hstop in Hev. cbn [mbind option_bind fst snd] in Hev.
      injection Hev as <- <-. split.
      * intros [|n] ch Hn; [|discriminate].
        injection Hn as <-. exists RESULT. split; [reflexivity|].
        rewrite Hcur. rewrite Hcur in Hload. exact Hload.
      * intros i j k Hne. apply (buffer_store_other _ _ _ _ _ _ _ _ _ Hstore).
        intros (-> & -> & ->). apply Hne. split; [|auto]. rewrite Hcur. left.
    + rewrite (ADC_StartRead_found st1 k) in Hev;
        [|rewrite Hcur1; lia|lia|exact Hkbit|rewrite Hcur1; exact Hfirst].
      destruct (conversion_events_from results (start_conversion k st1) k)
        as (st2 & Hev2 & _); try assumption; try reflexivity; try lia.
      { simpl in Hlen |- *. unfold N_ADC_INPUT in *. lia. }
      rewrite Hev2 in Hev. cbn [mbind option_bind fst snd] in Hev.
      injection Hev as <- <-.
      destruct (IH (start_conversion k st1) k _ _ Hshape' Hbuf Hpos eq_refl eq_refl
                  ltac:(lia) ltac:(simpl in Hlen |- *; unfold N_ADC_INPUT in *; lia) Hev2)
        as [Hcells Hframe].
      change (ADC_EnabledInputs (start_conversion k st1))
        with (ADC_EnabledInputs st) in *.
      change (ADC_buffer (start_conversion k st1)) with buf' in *.
      change (iBuffer (start_conversion k st1)) with (iBuffer st) in *.
      change (iBufferPos (start_conversion k st1)) with (iBufferPos st) in *.
      assert (Hnotin : ~ c ∈ k :: enabled_above k (ADC_EnabledInputs st)).
      { rewrite elem_of_cons, elem_of_enabled_above. lia. }
      split.
      * intros [|n] ch Hn.
        -- injection Hn as <-. exists RESULT. split; [reflexivity|].
           rewrite Hcur in Hload |- *. rewrite Hframe by tauto. exact Hload.
        -- apply (Hcells n ch Hn).
      * intros i j k' Hne. rewrite Hframe.
        -- apply (buffer_store_other _ _ _ _ _ _ _ _ _ Hstore).
           intros (-> & -> & ->). apply Hne. split; [|auto]. rewrite Hcur. left.
        -- intros (Hin & -> & ->). apply Hne. split; [|auto]. right. exact Hin.
Qed.

End RoundStores.

Section Rounds.
Context `{BoardDefs}.

Lemma conversion_events_ok (results : list Z) :
  forall (st : state) (r : list Z * state),
  state_ok st -> conversion_events results st = Some r -> state_ok r.2.
Proof.
  induction results as [|RESULT results IH]; intros st r Hok Hev.
  - injection Hev as <-. exact Hok.
  - cbn [conversion_events] in Hev.
    destruct (conversion_running (ADC st)); [|injection Hev as <-; exact Hok].
    destruct (ADC_Handler RESULT st) as [st1|] eqn:Hhandler; [|discriminate].
    cbn [mbind option_bind] in Hev.
    destruct (conversion_events results st1) as [r1|] eqn:Hev1; [|discriminate].
    cbn [mbind option_bind] in Hev. injection Hev as <-.
    apply (IH st1 r1); [|exact Hev1].
    apply (ADC_Handler_ok RESULT st); assumption.
Qed.

(** One round, cell by cell. *)
Lemma ADC_round_effect (results : list Z) (st : state) :
  state_ok st -> ADC_EnabledInputs st <> 0 ->
  conversion_running (ADC st) = false ->
  (Z.to_nat N_ADC_INPUT <= length results)%nat ->
  let st0 := ADC_UpdateBufferIdx st in
  exists st',
    ADC_round results st = Some (enabled_inputs (ADC_EnabledInputs st), st') /\
    state_ok st' /\ conversion_running (ADC st') = false /\
    ADC_EnabledInputs st' = ADC_EnabledInputs st /\
    iBuffer st' = iBuffer st0 /\ iBufferPos st' = iBufferPos st0 /\
    iBufferTransmit st' = iBufferTransmit st0 /\
    (forall n c, enabled_inputs (ADC_EnabledInputs st) !! n = Some c ->
       exists raw, results !! n = Some raw /\
         buffer_load (ADC_buffer st') c (iBuffer st0) (iBufferPos st0)
           = Some (convert_sample raw)) /\
    (forall i j k,
       ~ (i ∈ enabled_inputs (ADC_EnabledInputs st) /\
          j = iBuffer st0 /\ k = iBufferPos st0) ->
       buffer_load (ADC_buffer st') i j k = buffer_load (ADC_buffer st) i j k).
Proof.
  intros Hok Hmask Hrun Hlen st0.
  pose proof (ADC_UpdateBufferIdx_ok st Hok) as Hok0. fold st0 in Hok0.
  destruct Hok as (Hshape & Hint & Hbuf & Hpos & Hcur).
  destruct (ADC_UpdateBufferIdx_enabled st Hmask Hbuf Hpos)
    as (Hr0 & Hb0 & Hp0 & Hm0 & Hs0 & Ha0).
  fold st0 in Hr0, Hb0, Hp0, Hm0, Hs0, Ha0.
  unfold ADC_round. fold st0. unfold enabled_inputs. rewrite <- Hm0, <- Hs0.
  destruct (enabled_above_cases (-1) (ADC_EnabledInputs st0))
    as [[Hnil Hnone]|(k & Hk & Hkbit & Hfirst & Hcons)].
  - rewrite ADC_StartRead_none; [|rewrite Hr0; lia|rewrite Hr0; exact Hnone].
    exists st0. rewrite Hnil.
    assert (Hstop : conversion_events results st0 = Some ([], st0)).
    { destruct results as [|r results]; [reflexivity|].
      cbn [conversion_events]. rewrite Ha0, Hrun. reflexivity. }
    rewrite Ha0, Hrun. split; [exact Hstop|].
    do 6 (split; [assumption || reflexivity|]). split.
    + intros n c Hn. rewrite lookup_nil in Hn. discriminate.
    + reflexivity.
  - rewrite (ADC_StartRead_found st0 k);
      [|rewrite Hr0; lia|lia|exact Hkbit|rewrite Hr0; exact Hfirst].
    assert (Hshape0 : buffer_shape (ADC_buffer (start_conversion k st0)))
      by (exact (proj1 Hok0)).
    assert (Hlen' : (Z.to_nat (N_ADC_INPUT - k) <= length results)%nat)
      by (unfold N_ADC_INPUT in *; lia).
    destruct (conversion_events_from results (start_conversion k st0) k
                Hshape0 Hb0 Hp0 eq_refl eq_refl ltac:(lia) Hlen')
      as (st' & Hev & Hrun' & _ & _ & Hm' & Hb' & Hp' & Ht' & _).
    change (ADC_EnabledInputs (start_conversion k st0))
      with (ADC_EnabledInputs st0) in *.
    destruct (conversion_events_buffer results (start_conversion k st0) k _ _
                Hshape0 Hb0 Hp0 eq_refl eq_refl ltac:(lia) Hlen' Hev)
      as [Hcells Hframe].
    exists st'. rewrite Hcons. split; [exact Hev|]. split.
    { apply (conversion_events_ok results (start_conversion k st0) _) in Hev;
        [exact Hev|].
      destruct Hok0 as (? & ? & ? & ? & ?).
      split; [assumption|]. split; [assumption|]. split; [assumption|].
      split; [assumption|]. simpl. lia. }
    split; [exact Hrun'|]. split; [exact Hm'|]. split; [exact Hb'|].
    split; [exact Hp'|]. split; [exact Ht'|]. split.
    + exact Hcells.
    + exact Hframe.
Qed.

Lemma ADC_rounds_app (rs1 rs2 : list (list Z)) (st : state) :
  ADC_rounds (rs1 ++ rs2) st = ADC_rounds rs1 st ≫= ADC_rounds rs2.
Proof.
  revert st. induction rs1 as [|r rs1 IH]; intros st; [reflexivity|].
  cbn [app ADC_rounds]. destruct (ADC_round r st) as [x|]; [|reflexivity].
  cbn [mbind option_bind]. apply IH.
Qed.

(** Rounds that stay inside the current buffer fill one position each. *)
Lemma ADC_rounds_within (rs : list (list Z)) :
  forall st : state,
  state_ok st -> ADC_EnabledInputs st <> 0 ->
  conversion_running (ADC st) = false ->
  Forall (fun results => (Z.to_nat N_ADC_INPUT <= length results)%nat) rs ->
  iBufferPos st + Z.of_nat (length rs) < N_ADC_BUFFER_POS ->
  exists st',
    ADC_rounds rs st = Some st' /\
    state_ok st' /\ conversion_running (ADC st') = false /\
    ADC_EnabledInputs st' = ADC_EnabledInputs st /\
    iBuffer st' = iBuffer st /\
    iBufferPos st' = iBufferPos st + Z.of_nat (length rs) /\
    iBufferTransmit st' = iBufferTransmit st /\
    (forall p results n c,
       rs !! p = Some results ->
       enabled_inputs (ADC_EnabledInputs st) !! n = Some c ->
       exists raw, results !! n = Some raw /\
         buffer_load (ADC_buffer st') c (iBuffer st) (iBufferPos st + 1 + Z.of_nat p)
           = Some (convert_sample raw)) /\
    (forall i j k,
       ~ (i ∈ enabled_inputs (ADC_EnabledInputs st) /\ j = iBuffer st /\
          iBufferPos st < k <= iBufferPos st + Z.of_nat (length rs)) ->
       buffer_load (ADC_buffer st') i j k = buffer_load (ADC_buffer st) i j k).
Proof.
  induction rs as [|results rs IH]; intros st Hok Hmask Hrun Hall Hfit.
  - exists st. cbn [ADC_rounds]. change (Z.of_nat (length [])) with 0.
    rewrite Z.add_0_r.
    do 7 (split; [assumption || reflexivity|]). split; [|reflexivity].
    intros p r n c Hp. rewrite lookup_nil in Hp. discriminate.
  - apply Forall_cons in Hall as [Hlen Hall]. cbn [length] in Hfit.
    destruct (ADC_round_effect results st Hok Hmask Hrun Hlen)
      as (st1 & Hround & Hok1 & Hrun1 & Hm1 & Hb1 & Hp1 & Ht1 & Hcells1 & Hframe1).
    assert (Hpos : 0 <= iBufferPos st) by (destruct Hok as (_ & _ & _ & ? & _); lia).
    rewrite ADC_UpdateBufferIdx_within in Hb1, Hp1, Ht1, Hcells1, Hframe1 by lia.
    cbn [set_iReadInput set_iBufferPos iBuffer iBufferPos iBufferTransmit]
      in Hb1, Hp1, Ht1, Hcells1, Hframe1.
    destruct (IH st1 Hok1 ltac:(congruence) Hrun1 Hall ltac:(lia))
      as (st' & Hrounds & Hok' & Hrun' & Hm' & Hb' & Hp' & Ht' & Hcells & Hframe).
    rewrite Hm1, Hb1, Hp1 in Hcells, Hframe.
    exists st'. cbn [ADC_rounds]. rewrite Hround. cbn [mbind option_bind snd].
    split; [exact Hrounds|]. split; [exact Hok'|]. split; [exact Hrun'|].
    split; [congruence|]. split; [congruence|].
    split; [cbn [length]; lia|]. split; [congruence|]. split.
    + intros [|p] r n c Hr Hn.
      * injection Hr as <-. destruct (Hcells1 n c Hn) as (raw & Hraw & Hload).
        exists raw. split; [exact Hraw|].
        rewrite Hframe by lia. rewrite Z.add_0_r. exact Hload.
      * destruct (Hcells p r n c Hr Hn) as (raw & Hraw & Hload).
        exists raw. split; [exact Hraw|].
        replace (iBufferPos st + 1 + Z.of_nat (S p))
          with (iBufferPos st + 1 + 1 + Z.of_nat p) by lia.
        exact Hload.
    + intros i j k Hne. rewrite Hframe.
      * apply Hframe1. intros (Hi & Hj & Hk). apply Hne.
        split; [exact Hi|]. split; [exact Hj|]. cbn [length]. lia.
      * intros (Hi & Hj & Hk). apply Hne.
        split; [exact Hi|]. split; [exact Hj|]. cbn [length]. lia.
Qed.

(** The round on the last position of a buffer enters the next buffer. *)
Lemma ADC_round_wrap (results : list Z) (st : state) :
  state_ok st -> ADC_EnabledInputs st <> 0 ->
  conversion_running (ADC st) = false ->
  (Z.to_nat N_ADC_INPUT <= length results)%nat ->
  iBufferPos st + 1 = N_ADC_BUFFER_POS ->
  exists st',
    ADC_round results st = Some (enabled_inputs (ADC_EnabledInputs st), st') /\
    state_ok st' /\ conversion_running (ADC st') = false /\
    ADC_EnabledInputs st' = ADC_EnabledInputs st /\
    iBuffer st' = (iBuffer st + 1) mod N_ADC_BUFFERS /\ iBufferPos st' = 0 /\
    iBufferTransmit st' = iBuffer st /\
    (forall n c, enabled_inputs (ADC_EnabledInputs st) !! n = Some c ->
       exists raw, results !! n = Some raw /\
         buffer_load (ADC_buffer st') c ((iBuffer st + 1) mod N_ADC_BUFFERS) 0
           = Some (convert_sample raw)) /\
    (forall i j k,
       ~ (i ∈ enabled_inputs (ADC_EnabledInputs st) /\
          j = (iBuffer st + 1) mod N_ADC_BUFFERS /\ k = 0) ->
       buffer_load (ADC_buffer st') i j k = buffer_load (ADC_buffer st) i j k).
Proof.
  intros Hok Hmask Hrun Hlen Hlast.
  destruct (ADC_round_effect results st Hok Hmask Hrun Hlen)
    as (st1 & Hround & Hok1 & Hrun1 & Hm1 & Hb1 & Hp1 & Ht1 & Hcells1 & Hframe1).
  destruct (ADC_UpdateBufferIdx_wrap st Hmask Hlast) as (Hb & Hp & Ht & _).
  rewrite Hb, Hp in Hcells1, Hframe1. rewrite Hb in Hb1. rewrite Hp in Hp1.
  rewrite Ht in Ht1.
  exists st1. auto 10.
Qed.

End Rounds.

(** ** No store outside the sample array *)

Lemma small_mask_bit (m : Z) :
  0 < m < 2 ^ N_ADC_INPUT ->
  exists j, 0 <= j < N_ADC_INPUT /\ Z.testbit m j = true.
Proof.
  intros Hm.
  destruct (enabled_above_cases (-1) m) as [[_ Hnone]|(k & Hk & Hbit & _)].
  - exfalso. assert (Hzero : m = 0); [|lia].
    apply Z.bits_inj'. intros j Hj. rewrite Z.bits_0.
    destruct (Z_lt_le_dec j N_ADC_INPUT) as [Hlt|Hge]; [apply Hnone; lia|].
    apply Z.bits_above_log2; [lia|].
    apply Z.lt_le_trans with N_ADC_INPUT; [|exact Hge].
    apply Z.log2_lt_pow2; lia.
  - exists k. split; [lia|exact Hbit].
Qed.

Section Safety.
Context `{BoardDefs}.

Lemma ADC_StartRead_cases (st : state) :
  -1 <= iReadInput st < N_ADC_INPUT ->
  (ADC_StartRead st = st /\
   forall j, iReadInput st < j < N_ADC_INPUT ->
             Z.testbit (ADC_EnabledInputs st) j = false) \/
  (exists k, iReadInput st < k < N_ADC_INPUT /\
             Z.testbit (ADC_EnabledInputs st) k = true /\
             ADC_StartRead st = start_conversion k st).
Proof.
  intros Hcur.
  destruct (enabled_above_cases (iReadInput st) (ADC_EnabledInputs st))
    as [[_ Hnone]|(k & Hk & Hkbit & Hfirst & _)].
  - left. split; [|exact Hnone].
    apply ADC_StartRead_none; [unfold N_ADC_INPUT in *; lia|exact Hnone].
  - right. exists k. split; [exact Hk|]. split; [exact Hkbit|].
    apply ADC_StartRead_found; [lia|lia|exact Hkbit|exact Hfirst].
Qed.

Lemma ADC_StartRead_run_ok (st : state) :
  state_ok st -> 0 <= ADC_EnabledInputs st < 2 ^ N_ADC_INPUT ->
  (conversion_running (ADC st) = true -> 0 <= iReadInput st < N_ADC_INPUT) ->
  run_ok (ADC_StartRead st).
Proof.
  intros Hok Hmask Hrun.
  pose proof (ADC_StartRead_ok st Hok) as Hok'.
  destruct (ADC_StartRead_cases st) as [[Hsame _]|(k & Hk & _ & Hstart)];
    [destruct Hok as (_ & _ & _ & _ & ?); assumption| |].
  - rewrite Hsame in *. split; [exact Hok'|]. split; assumption.
  - rewrite Hstart in *. split; [exact Hok'|]. split; [exact Hmask|].
    intros _. destruct Hok as (_ & _ & _ & _ & ?). simpl. lia.
Qed.

Lemma handle_run_ok (e : event) (st : state) :
  run_ok st -> existing_inputs e ->
  exists st', handle e st = Some st' /\ run_ok st'.
Proof.
  intros (Hok & Hmask & Hrun) He. destruct e as [|RESULT|Gain_in|enabled].
  - (* timer *)
    eexists. split; [reflexivity|]. cbn [TC3_Handler INTFLAG_MC0 snd].
    pose proof (ADC_UpdateBufferIdx_ok st Hok) as Hok0.
    destruct (Z.eq_dec (ADC_EnabledInputs st) 0) as [Hzero|Hnz].
    + assert (Hnoop : ADC_UpdateBufferIdx st = st)
        by (unfold ADC_UpdateBufferIdx; rewrite Hzero; reflexivity).
      rewrite Hnoop. apply ADC_StartRead_run_ok; assumption.
    + destruct Hok as (Hshape & Hint & Hbuf & Hpos & Hcur).
      destruct (ADC_UpdateBufferIdx_enabled st Hnz Hbuf Hpos)
        as (Hr0 & _ & _ & Hm0 & _ & _).
      set (st0 := ADC_UpdateBufferIdx st) in *.
      pose proof (ADC_StartRead_ok st0 Hok0) as Hok'.
      destruct (small_mask_bit (ADC_EnabledInputs st0)) as (j & Hj & Hjbit);
        [rewrite Hm0; lia|].
      destruct (ADC_StartRead_cases st0) as [[_ Hnone]|(k & Hk & _ & Hstart)];
        [rewrite Hr0; unfold N_ADC_INPUT; lia| |].
      * rewrite Hnone in Hjbit by (rewrite Hr0; lia). discriminate.
      * rewrite Hstart in *. split; [exact Hok'|]. split; [rewrite <- Hm0 in Hmask; exact Hmask|].
        intros _. simpl. rewrite Hr0 in Hk. lia.
  - (* conversion complete *)
    cbn [handle]. destruct (conversion_running (ADC st)) eqn:Hrunning.
    + destruct Hok as (Hshape & Hint & Hbuf & Hpos & Hcur).
      destruct (ADC_Handler_running RESULT st Hshape (Hrun eq_refl) Hbuf Hpos)
        as (buf' & Hstore & _ & _ & Hhandler).
      eexists. split; [exact Hhandler|].
      pose proof (ADC_Handler_ok RESULT st _
                    (conj Hshape (conj Hint (conj Hbuf (conj Hpos Hcur)))) Hhandler)
        as Hok'.
      set (st1 := set_ADC_buffer buf' (read_RESULT st)) in *.
      destruct (ADC_StartRead_cases st1) as [[Hsame _]|(k & Hk & _ & Hstart)];
        [exact Hcur| |].
      * rewrite Hsame in *. split; [exact Hok'|]. split; [exact Hmask|].
        simpl. discriminate.
      * rewrite Hstart in *. split; [exact Hok'|]. split; [exact Hmask|].
        intros _. simpl. change (iReadInput st1) with (iReadInput st) in Hk. lia.
    + exists st. split; [reflexivity|]. split; [exact Hok|]. split; [exact Hmask|].
      rewrite Hrunning. discriminate.
  - (* gain *)
    eexists. split; [reflexivity|]. unfold ADC_setGain.
    destruct (match Gain_in with
              | 1 => Some ADC_INPUTCTRL_GAIN_1X_Val
              | 2 => Some ADC_INPUTCTRL_GAIN_2X_Val
              | 4 => Some ADC_INPUTCTRL_GAIN_4X_Val
              | 8 => Some ADC_INPUTCTRL_GAIN_8X_Val
              | 16 => Some ADC_INPUTCTRL_GAIN_16X_Val
              | _ => None
              end) as [g|]; (split; [exact Hok|]; split; [exact Hmask|exact Hrun]).
  - (* mask *)
    eexists. split; [reflexivity|]. simpl in He.
    split; [exact Hok|]. split; [|exact Hrun].
    cbn [set_ADC_EnabledInputs ADC_EnabledInputs].
    unfold N_ADC_INPUT, uint8 in *. rewrite Z.mod_small by lia. exact He.
Qed.

(** X1: as long as only bits of existing inputs are written to
    [ADC_EnabledInputs], no sequence of timer interrupts, conversion-complete
    interrupts, gain commands and mask changes makes [ADC_Handler] store
    outside [ADC_buffer]: every event is handled, the buffer indices stay
    inside their dimensions, and whenever a conversion is running
    [iReadInput] is an input. *)
Theorem run_stays_in_bounds (es : list event) (st : state) :
  run_ok st -> Forall existing_inputs es ->
  exists st', run es st = Some st' /\ run_ok st'.
Proof.
  revert st. induction es as [|e es IH]; intros st Hok Hall.
  - exists st. split; [reflexivity|exact Hok].
  - apply Forall_cons in Hall as [He Hall].
    destruct (handle_run_ok e st Hok He) as (st1 & Hhandle & Hok1).
    destruct (IH st1 Hok1 Hall) as (st' & Hrun & Hok').
    exists st'. cbn [run]. rewrite Hhandle. split; [exact Hrun|exact Hok'].
Qed.

(** X2: bits 5..7 of the mask are not filtered.  With a non-zero mask that
    enables no existing input, a timer interrupt arriving while a conversion
    is running resets [iReadInput] to -1 and starts nothing, and the
    conversion-complete interrupt that follows stores at
    [ADC_buffer[-1]]. *)
Theorem timer_during_conversion_out_of_bounds (RESULT : Z) (st : state) :
  ADC_EnabledInputs st <> 0 ->
  (forall j, 0 <= j < N_ADC_INPUT -> Z.testbit (ADC_EnabledInputs st) j = false) ->
  conversion_running (ADC st) = true ->
  (exists st', run [TimerCompare] st = Some st' /\
               iReadInput st' = -1 /\ conversion_running (ADC st') = true) /\
  run [TimerCompare; ResultReady RESULT] st = None.
Proof.
  intros Hmask Hnone Hrun.
  assert (Hr0 : iReadInput (ADC_UpdateBufferIdx st) = -1).
  { unfold ADC_UpdateBufferIdx. apply Z.eqb_neq in Hmask. rewrite Hmask. reflexivity. }
  assert (Hm0 : ADC_EnabledInputs (ADC_UpdateBufferIdx st) = ADC_EnabledInputs st).
  { unfold ADC_UpdateBufferIdx. destruct (negb _); [|reflexivity]. cbn.
    destruct (_ =? _); reflexivity. }
  assert (Ha0 : ADC (ADC_UpdateBufferIdx st) = ADC st).
  { unfold ADC_UpdateBufferIdx. destruct (negb _); [|reflexivity]. cbn.
    destruct (_ =? _); reflexivity. }
  assert (Hsame : ADC_StartRead (ADC_UpdateBufferIdx st) = ADC_UpdateBufferIdx st).
  { apply ADC_StartRead_none; [rewrite Hr0; lia|].
    rewrite Hr0, Hm0. intros j Hj. apply Hnone. lia. }
  cbn [run handle TC3_Handler INTFLAG_MC0 snd mbind option_bind].
  rewrite Hsame, Ha0, Hrun. split.
  - eexists. split; [reflexivity|]. rewrite Ha0. auto.
  - unfold ADC_Handler. cbn [read_RESULT set_ADC ADC_buffer iReadInput iBuffer iBufferPos].
    rewrite Hr0, buffer_store_negative by lia. reflexivity.
Qed.

End Safety.

Lemma run_stays_in_bounds_witness :
  exists st',
    run [TimerCompare; ResultReady 0x0ABC; EnableInputs 3; TimerCompare;
         GainCommand 8; ResultReady 1; ResultReady 2; EnableInputs 0; TimerCompare]
        (initial_state 5) = Some st' /\
    run_ok st'.
Proof.
  apply run_stays_in_bounds.
  - split; [apply initial_state_ok|]. split; [|discriminate].
    change (2 ^ N_ADC_INPUT) with 32. simpl. lia.
  - repeat match goal with
           | |- Forall _ (_ :: _) => constructor
           | |- Forall _ [] => constructor
           end;
      simpl; try exact I; change (2 ^ N_ADC_INPUT) with 32; lia.
Defined.

Lemma timer_during_conversion_out_of_bounds_witness :
  run [TimerCompare; EnableInputs 32] (initial_state 1)
    = Some (set_ADC_EnabledInputs 32 (ADC_StartRead (ADC_UpdateBufferIdx (initial_state 1)))) /\
  run [TimerCompare; ResultReady 7]
      (set_ADC_EnabledInputs 32 (ADC_StartRead (ADC_UpdateBufferIdx (initial_state 1))))
    = None.
Proof.
  split; [reflexivity|].
  apply (timer_during_conversion_out_of_bounds 7).
  - cbn [set_ADC_EnabledInputs ADC_EnabledInputs]. lia.
  - cbn [set_ADC_EnabledInputs ADC_EnabledInputs]. unfold N_ADC_INPUT. intros j Hj.
    assert (Hcases : j = 0 \/ j = 1 \/ j = 2 \/ j = 3 \/ j = 4) by lia.
    destruct Hcases as [->|[->|[->|[->| ->]]]]; reflexivity.
  - reflexivity.
Defined.

(** ** What a round leaves in the sample array *)

Section Acquisition.
Context `{BoardDefs}.

(** X3: a round writes the [n]-th conversion result, converted, into the
    cell of the [n]-th enabled input at one position of one buffer, and no
    other cell of [ADC_buffer] changes.  The position is the next one of the
    current buffer, or position 0 of the next buffer (modulo
    [N_ADC_BUFFERS]) when the current one is full, in which case the full
    buffer is the one left in [iBufferTransmit]. *)
Theorem ADC_round_stores_samples (results : list Z) (st : state) :
  state_ok st -> ADC_EnabledInputs st <> 0 ->
  conversion_running (ADC st) = false ->
  (Z.to_nat N_ADC_INPUT <= length results)%nat ->
  let full := iBufferPos st + 1 =? N_ADC_BUFFER_POS in
  let b := if full then (iBuffer st + 1) mod N_ADC_BUFFERS else iBuffer st in
  let p := if full then 0 else iBufferPos st + 1 in
  exists st',
    ADC_round results st = Some (enabled_inputs (ADC_EnabledInputs st), st') /\
    iBuffer st' = b /\ iBufferPos st' = p /\
    iBufferTransmit st' = (if full then iBuffer st else iBufferTransmit st) /\
    (forall n c, enabled_inputs (ADC_EnabledInputs st) !! n = Some c ->
       exists raw, results !! n = Some raw /\
         buffer_load (ADC_buffer st') c b p = Some (convert_sample raw)) /\
    (forall i j k,
       ~ (i ∈ enabled_inputs (ADC_EnabledInputs st) /\ j = b /\ k = p) ->
       buffer_load (ADC_buffer st') i j k = buffer_load (ADC_buffer st) i j k).
Proof.
  intros Hok Hmask Hrun Hlen full b p. subst b p full.
  destruct (Z.eqb_spec (iBufferPos st + 1) N_ADC_BUFFER_POS) as [Hfull|Hnot].
  - destruct (ADC_round_wrap results st Hok Hmask Hrun Hlen Hfull)
      as (st' & Hround & _ & _ & _ & Hb & Hp & Ht & Hcells & Hframe).
    exists st'. auto 10.
  - destruct (ADC_round_effect results st Hok Hmask Hrun Hlen)
      as (st' & Hround & _ & _ & _ & Hb & Hp & Ht & Hcells & Hframe).
    assert (Hpos : 0 <= iBufferPos st < N_ADC_BUFFER_POS)
      by (destruct Hok as (_ & _ & _ & ? & _); assumption).
    rewrite ADC_UpdateBufferIdx_within in Hb, Hp, Ht, Hcells, Hframe by lia.
    exists st'. auto 10.
Qed.

End Acquisition.

Lemma ADC_round_stores_samples_witness :
  exists st',
    ADC_round [0x0ABC; 0x0123; 0; 0; 0] (set_iBufferPos 15 (initial_state 5))
      = Some ([0; 2], st') /\
    iBuffer st' = 1 /\ iBufferPos st' = 0 /\ iBufferTransmit st' = 0 /\
    buffer_load (ADC_buffer st') 2 1 0 = Some 0x0123 /\
    buffer_load (ADC_buffer st') 1 1 0 = Some 0.
Proof.
  destruct (ADC_round_stores_samples [0x0ABC; 0x0123; 0; 0; 0]
              (set_iBufferPos 15 (initial_state 5)))
    as (st' & Hround & Hb & Hp & Ht & Hcells & Hframe).
  - destruct (initial_state_ok 5) as (Hs & Hi & Hb & _ & Hc).
    split; [exact Hs|]. split; [exact Hi|]. split; [exact Hb|].
    split; [|exact Hc]. simpl. unfold N_ADC_BUFFER_POS. lia.
  - simpl. lia.
  - reflexivity.
  - vm_compute. lia.
  - exists st'. split; [exact Hround|]. split; [exact Hb|]. split; [exact Hp|].
    split; [exact Ht|]. split.
    + destruct (Hcells 1%nat 2 eq_refl) as (raw & Hraw & Hload).
      injection Hraw as <-. exact Hload.
    + rewrite (Hframe 1 1 0); [reflexivity|].
      intros (Hin & _). vm_compute in Hin.
      apply elem_of_cons in Hin as [Hin|Hin]; [discriminate|].
      apply elem_of_cons in Hin as [Hin|Hin]; [discriminate|].
      apply elem_of_nil in Hin. exact Hin.
Defined.

Section Frames.
Context `{BoardDefs}.

Lemma enabled_input_range (enabled : Z) (n : nat) (c : Z) :
  enabled_inputs enabled !! n = Some c -> 0 <= c < N_ADC_INPUT.
Proof.
  intros Hn. apply list_elem_of_lookup_2 in Hn.
  unfold enabled_inputs in Hn. apply elem_of_enabled_above in Hn. lia.
Qed.

(** X4: sixteen rounds beginning with the one that enters a buffer fill that
    buffer: for the [n]-th enabled input its sixteen positions hold the
    [n]-th results of the sixteen rounds, converted, in order; no other
    buffer changes.  [ADC_UdpTransmit] of that buffer then sends exactly
    these samples, and the next [ADC_UpdateBufferIdx] puts the buffer in
    [iBufferTransmit]. *)
Theorem ADC_rounds_fill_frame (rs : list (list Z)) (st : state)
    (IP_in Port_in DataType : Z) :
  state_ok st -> ADC_EnabledInputs st <> 0 ->
  conversion_running (ADC st) = false ->
  iBufferPos st + 1 = N_ADC_BUFFER_POS ->
  length rs = Z.to_nat N_ADC_BUFFER_POS ->
  Forall (fun results => (Z.to_nat N_ADC_INPUT <= length results)%nat) rs ->
  let b := (iBuffer st + 1) mod N_ADC_BUFFERS in
  let enabled := enabled_inputs (ADC_EnabledInputs st) in
  exists st',
    ADC_rounds rs st = Some st' /\
    iBuffer st' = b /\ iBufferPos st' + 1 = N_ADC_BUFFER_POS /\
    (forall n c, enabled !! n = Some c ->
       frame_row (ADC_buffer st') c b = column rs n) /\
    (forall i j k, j <> b ->
       buffer_load (ADC_buffer st') i j k = buffer_load (ADC_buffer st) i j k) /\
    ADC_UdpTransmit st' b IP_in Port_in DataType
      = Some {| pkt_ip := IP_in; pkt_port := Port_in;
                pkt_payload :=
                  [uint8 DataType; b; ADC_EnabledInputs st]
                  ++ concat (imap (fun n _ => sample_bytes (column rs n)) enabled) |} /\
    iBufferTransmit (ADC_UpdateBufferIdx st') = b.
Proof.
  intros Hok Hmask Hrun Hlast Hlen Hall b enabled.
  destruct rs as [|r0 rs]; [discriminate|].
  apply Forall_cons in Hall as [Hlen0 Hall].
  destruct (ADC_round_wrap r0 st Hok Hmask Hrun Hlen0 Hlast)
    as (st1 & Hround & Hok1 & Hrun1 & Hm1 & Hb1 & Hp1 & _ & Hcells1 & Hframe1).
  fold b in Hb1, Hcells1, Hframe1. fold enabled in Hcells1, Hframe1.
  assert (Hlen15 : Z.of_nat (length rs) = 15)
    by (cbn [length] in Hlen; unfold N_ADC_BUFFER_POS in Hlen; lia).
  destruct (ADC_rounds_within rs st1 Hok1 ltac:(congruence) Hrun1 Hall)
    as (st' & Hrounds & Hok' & Hrun' & Hm' & Hb' & Hp' & _ & Hcells & Hframe);
    [rewrite Hp1; unfold N_ADC_BUFFER_POS; lia|].
  rewrite Hm1, Hb1, Hp1 in Hcells, Hframe. fold enabled in Hcells, Hframe.
  assert (Hbrange : 0 <= b < N_ADC_BUFFERS)
    by (apply Z.mod_pos_bound; reflexivity).
  assert (Hcell : forall p r n c,
            (r0 :: rs) !! p = Some r -> enabled !! n = Some c ->
            exists raw, r !! n = Some raw /\
              buffer_load (ADC_buffer st') c b (Z.of_nat p) = Some (convert_sample raw)).
  { intros [|p] r n c Hr Hn.
    - injection Hr as <-. destruct (Hcells1 n c Hn) as (raw & Hraw & Hload).
      exists raw. split; [exact Hraw|]. rewrite Hframe by lia. exact Hload.
    - destruct (Hcells p r n c Hr Hn) as (raw & Hraw & Hload).
      exists raw. split; [exact Hraw|].
      replace (Z.of_nat (S p)) with (0 + 1 + Z.of_nat p) by lia. exact Hload. }
  assert (Hrows : forall n c, enabled !! n = Some c ->
            frame_row (ADC_buffer st') c b = column (r0 :: rs) n).
  { intros n c Hn.
    destruct (frame_row_lookup (ADC_buffer st') c b (proj1 Hok')
                (enabled_input_range _ _ _ Hn) Hbrange) as [Hrowlen Hrowload].
    apply (list_eq_same_length _ _ (Z.to_nat N_ADC_BUFFER_POS)).
    - unfold column. rewrite length_fmap. exact Hlen.
    - exact Hrowlen.
    - intros p x y Hp Hx Hy.
      destruct (lookup_lt_is_Some_2 (r0 :: rs) p) as [r Hr]; [lia|].
      destruct (Hcell p r n c Hr Hn) as (raw & Hraw & Hload).
      rewrite Hrowload, Nat2Z.id, Hx in Hload by lia.
      unfold column in Hy. rewrite list_lookup_fmap, Hr in Hy.
      cbn [fmap option_fmap option_map] in Hy. rewrite Hraw in Hy.
      injection Hload as ->. injection Hy as <-. reflexivity. }
  exists st'. cbn [ADC_rounds]. rewrite Hround. cbn [mbind option_bind snd].
  split; [exact Hrounds|]. split; [congruence|].
  split; [rewrite Hp', Hp1; unfold N_ADC_BUFFER_POS; lia|].
  split; [exact Hrows|]. split.
  { intros i j k Hj. rewrite Hframe by tauto. apply Hframe1. tauto. }
  split.
  { unfold ADC_UdpTransmit.
    rewrite UdpTransmit_inputs_spec by (try exact (proj1 Hok'); try assumption; lia).
    cbn [mbind option_bind]. rewrite Hm', Hm1.
    change (enabled_above (0 - 1) (ADC_EnabledInputs st)) with enabled.
    do 4 f_equal. rewrite <- imap_const. apply imap_ext.
    intros n c Hn. cbn [const]. rewrite (Hrows n c Hn). reflexivity. }
  destruct (ADC_UpdateBufferIdx_wrap st') as (_ & _ & Ht & _);
    [congruence|rewrite Hp', Hp1; unfold N_ADC_BUFFER_POS; lia|].
  rewrite Ht. congruence.
Qed.

(** X5: a buffer is entered at position 0 by the same call that publishes
    the buffer before it, so sixteen rounds from position 0 write positions
    1 to 15 of the current buffer and position 0 of the next one; the
    current buffer is left in [iBufferTransmit] with its position 0 as it
    was before these rounds (with the start-up values of the globals: 0, not
    a sample). *)
Theorem ADC_rounds_from_position_0 (rs : list (list Z)) (st : state) :
  state_ok st -> ADC_EnabledInputs st <> 0 ->
  conversion_running (ADC st) = false ->
  iBufferPos st = 0 ->
  length rs = Z.to_nat N_ADC_BUFFER_POS ->
  Forall (fun results => (Z.to_nat N_ADC_INPUT <= length results)%nat) rs ->
  let enabled := enabled_inputs (ADC_EnabledInputs st) in
  exists st',
    ADC_rounds rs st = Some st' /\
    iBufferTransmit st' = iBuffer st /\
    iBuffer st' = (iBuffer st + 1) mod N_ADC_BUFFERS /\ iBufferPos st' = 0 /\
    (forall i, buffer_load (ADC_buffer st') i (iBuffer st) 0
               = buffer_load (ADC_buffer st) i (iBuffer st) 0) /\
    (forall p results n c,
       (p < 15)%nat -> rs !! p = Some results -> enabled !! n = Some c ->
       exists raw, results !! n = Some raw /\
         buffer_load (ADC_buffer st') c (iBuffer st) (1 + Z.of_nat p)
           = Some (convert_sample raw)) /\
    (forall results n c,
       rs !! 15%nat = Some results -> enabled !! n = Some c ->
       exists raw, results !! n = Some raw /\
         buffer_load (ADC_buffer st') c ((iBuffer st + 1) mod N_ADC_BUFFERS) 0
           = Some (convert_sample raw)).
Proof.
  intros Hok Hmask Hrun Hpos Hlen Hall enabled.
  change (Z.to_nat N_ADC_BUFFER_POS) with 16%nat in Hlen.
  assert (Hsplit : rs = take 15 rs ++ drop 15 rs) by (symmetry; apply take_drop).
  destruct (drop 15 rs) as [|r15 tl] eqn:Hdrop.
  { apply (f_equal length) in Hdrop. rewrite length_drop, Hlen in Hdrop. discriminate. }
  assert (tl = []) as ->.
  { apply (f_equal length) in Hdrop. rewrite length_drop, Hlen in Hdrop.
    destruct tl; [reflexivity|discriminate]. }
  assert (Hlen15 : length (take 15 rs) = 15%nat) by (rewrite length_take; lia).
  assert (Hr15 : rs !! 15%nat = Some r15).
  { rewrite Hsplit, lookup_app_r by lia. rewrite Hlen15. reflexivity. }
  assert (Hall15 : Forall (fun results => (Z.to_nat N_ADC_INPUT <= length results)%nat)
                     (take 15 rs)) by (apply Forall_take; exact Hall).
  assert (Hlen_r15 : (Z.to_nat N_ADC_INPUT <= length r15)%nat).
  { rewrite Forall_lookup in Hall. exact (Hall _ _ Hr15). }
  destruct (ADC_rounds_within (take 15 rs) st Hok Hmask Hrun Hall15)
    as (st1 & Hrounds & Hok1 & Hrun1 & Hm1 & Hb1 & Hp1 & Ht1 & Hcells & Hframe);
    [rewrite Hpos, Hlen15; unfold N_ADC_BUFFER_POS; lia|].
  rewrite Hpos, Hlen15 in Hp1, Hframe. rewrite Hpos in Hcells.
  fold enabled in Hcells, Hframe.
  destruct (ADC_round_wrap r15 st1 Hok1 ltac:(congruence) Hrun1 Hlen_r15)
    as (st' & Hround & _ & _ & _ & Hb' & Hp' & Ht' & Hcells' & Hframe');
    [rewrite Hp1; reflexivity|].
  rewrite Hm1, Hb1 in Hcells', Hframe'. rewrite Hb1 in Hb', Ht'.
  fold enabled in Hcells', Hframe'.
  assert (Hbrange : 0 <= iBuffer st < N_ADC_BUFFERS)
    by (destruct Hok as (_ & _ & ? & _); assumption).
  assert (Hnext : (iBuffer st + 1) mod N_ADC_BUFFERS <> iBuffer st).
  { unfold N_ADC_BUFFERS in *.
    destruct (Z.eq_dec (iBuffer st) 63) as [->|Hne]; [discriminate|].
    rewrite Z.mod_small; lia. }
  exists st'. rewrite Hsplit at 1. rewrite ADC_rounds_app, Hrounds.
  cbn [mbind option_bind ADC_rounds]. rewrite Hround. cbn [mbind option_bind snd].
  split; [reflexivity|]. split; [exact Ht'|]. split; [exact Hb'|].
  split; [exact Hp'|]. split.
  { intros i. rewrite Hframe' by (intros (_ & Hj & _); congruence).
    apply Hframe. lia. }
  split.
  { intros p r n c Hp Hr Hn.
    destruct (Hcells p r n c) as (raw & Hraw & Hload);
      [rewrite lookup_take_lt by exact Hp; exact Hr|exact Hn|].
    exists raw. split; [exact Hraw|].
    rewrite Hframe' by (intros (_ & Hj & _); congruence).
    replace (1 + Z.of_nat p) with (0 + 1 + Z.of_nat p) by lia. exact Hload. }
  intros r n c Hr Hn. rewrite Hr15 in Hr. injection Hr as <-.
  exact (Hcells' n c Hn).
Qed.

End Frames.

Lemma set_iBufferPos_ok (v : Z) (st : state) :
  state_ok st -> 0 <= v < N_ADC_BUFFER_POS -> state_ok (set_iBufferPos v st).
Proof.
  intros (Hs & Hi & Hb & _ & Hc) Hv.
  exact (conj Hs (conj Hi (conj Hb (conj Hv Hc)))).
Qed.

Lemma ramp_rounds_results :
  Forall (fun results : list Z => (Z.to_nat N_ADC_INPUT <= length results)%nat)
         ramp_rounds.
Proof.
  unfold ramp_rounds. apply Forall_fmap, Forall_forall. intros p _.
  unfold compose. cbn [length]. change (Z.to_nat N_ADC_INPUT) with 5%nat. lia.
Qed.

Lemma ADC_rounds_fill_frame_witness :
  exists st',
    ADC_rounds ramp_rounds (set_iBufferPos 15 (initial_state 5)) = Some st' /\
    iBuffer st' = 1 /\
    frame_row (ADC_buffer st') 2 1 = column ramp_rounds 1 /\
    iBufferTransmit (ADC_UpdateBufferIdx st') = 1.
Proof.
  destruct (ADC_rounds_fill_frame ramp_rounds (set_iBufferPos 15 (initial_state 5))
              0 8888 68)
    as (st' & Hrounds & Hb & _ & Hrows & _ & _ & Ht).
  - apply set_iBufferPos_ok; [apply initial_state_ok|].
    unfold N_ADC_BUFFER_POS. lia.
  - simpl. lia.
  - reflexivity.
  - reflexivity.
  - reflexivity.
  - exact ramp_rounds_results.
  - exists st'. split; [exact Hrounds|]. split; [exact Hb|]. split; [|exact Ht].
    exact (Hrows 1%nat 2 eq_refl).
Defined.

Lemma ADC_rounds_from_position_0_witness :
  exists st',
    ADC_rounds ramp_rounds (initial_state 5) = Some st' /\
    iBufferTransmit st' = 0 /\
    (forall i, buffer_load (ADC_buffer st') i 0 0
               = buffer_load (ADC_buffer (initial_state 5)) i 0 0).
Proof.
  destruct (ADC_rounds_from_position_0 ramp_rounds (initial_state 5))
    as (st' & Hrounds & Ht & _ & _ & Hzero & _).
  - apply initial_state_ok.
  - simpl. lia.
  - reflexivity.
  - reflexivity.
  - reflexivity.
  - exact ramp_rounds_results.
  - exists st'. split; [exact Hrounds|]. split; [exact Ht|exact Hzero].
Defined.

(** ** The ring of buffers *)

(** X6: with some input enabled, [n] calls of [ADC_UpdateBufferIdx] move the
    position to [(iBufferPos + n) mod 16] and the buffer forward by the
    number of positions wrapped, [(iBufferPos + n) / 16], modulo 64;
    [iBufferTransmit] is untouched until the first wrap and afterwards is
    the buffer before the current one, always an index below 64.  After
    [16 * 64] calls both indices are back where they were. *)
Theorem ADC_UpdateBufferIdx_iter (n : nat) (st : state) :
  ADC_EnabledInputs st <> 0 ->
  0 <= iBuffer st < N_ADC_BUFFERS -> 0 <= iBufferPos st < N_ADC_BUFFER_POS ->
  let t := iBufferPos st + Z.of_nat n in
  let st' := Nat.iter n ADC_UpdateBufferIdx st in
  (iBufferPos st' = t mod N_ADC_BUFFER_POS /\
   iBuffer st' = (iBuffer st + t / N_ADC_BUFFER_POS) mod N_ADC_BUFFERS /\
   iBufferTransmit st' =
     (if t / N_ADC_BUFFER_POS =? 0 then iBufferTransmit st
      else (iBuffer st + t / N_ADC_BUFFER_POS - 1) mod N_ADC_BUFFERS) /\
   ADC_EnabledInputs st' = ADC_EnabledInputs st) /\
  (n = Z.to_nat (N_ADC_BUFFER_POS * N_ADC_BUFFERS) ->
   iBufferPos st' = iBufferPos st /\ iBuffer st' = iBuffer st).
Proof.
  intros Hmask Hbuf Hpos t st'.
  assert (Hform :
    iBufferPos st' = t mod N_ADC_BUFFER_POS /\
    iBuffer st' = (iBuffer st + t / N_ADC_BUFFER_POS) mod N_ADC_BUFFERS /\
    iBufferTransmit st' =
      (if t / N_ADC_BUFFER_POS =? 0 then iBufferTransmit st
       else (iBuffer st + t / N_ADC_BUFFER_POS - 1) mod N_ADC_BUFFERS) /\
    ADC_EnabledInputs st' = ADC_EnabledInputs st).
  { subst t st'. induction n as [|n IH].
    - change (Nat.iter 0 ADC_UpdateBufferIdx st) with st.
      change (Z.of_nat 0) with 0. rewrite Z.add_0_r.
      unfold N_ADC_BUFFER_POS, N_ADC_BUFFERS in *.
      rewrite Z.mod_small, Z.div_small, Z.add_0_r by lia.
      rewrite Z.mod_small by lia. auto.
    - rewrite Nat.iter_succ. destruct IH as (Hp & Hb & Ht & Hm).
      set (s := Nat.iter n ADC_UpdateBufferIdx st) in *.
      set (t := iBufferPos st + Z.of_nat n) in *.
      replace (iBufferPos st + Z.of_nat (S n)) with (t + 1) by lia.
      assert (Ht0 : 0 <= t) by lia.
      unfold N_ADC_BUFFER_POS, N_ADC_BUFFERS in *.
      pose proof (Z.div_mod t 16 ltac:(lia)) as Hdm.
      pose proof (Z.mod_pos_bound t 16 ltac:(lia)) as Hr.
      pose proof (Z.div_mod (t + 1) 16 ltac:(lia)) as Hdm'.
      pose proof (Z.mod_pos_bound (t + 1) 16 ltac:(lia)) as Hr'.
      assert (Hq0 : 0 <= t / 16) by (apply Z.div_pos; lia).
      destruct (Z.eq_dec (iBufferPos s + 1) 16) as [Hfull|Hnot].
      + destruct (ADC_UpdateBufferIdx_wrap s) as (Hb' & Hp' & Ht' & _ & Hm' & _);
          [congruence|exact Hfull|].
        unfold N_ADC_BUFFERS in Hb'.
        assert (Hq : (t + 1) / 16 = t / 16 + 1) by lia.
        assert (Hrem : (t + 1) mod 16 = 0) by lia.
        rewrite Hp', Hb', Ht', Hm', Hb, Hq, Hrem.
        rewrite Z.add_mod_idemp_l by lia.
        assert (Hnz : (t / 16 + 1 =? 0) = false) by (apply Z.eqb_neq; lia).
        rewrite Hnz.
        replace (iBuffer st + (t / 16 + 1) - 1) with (iBuffer st + t / 16) by lia.
        replace (iBuffer st + t / 16 + 1) with (iBuffer st + (t / 16 + 1)) by lia.
        auto.
      + rewrite ADC_UpdateBufferIdx_within by (unfold N_ADC_BUFFER_POS; lia || congruence).
        cbn [set_iReadInput set_iBufferPos iBufferPos iBuffer iBufferTransmit
             ADC_EnabledInputs].
        assert (Hq : (t + 1) / 16 = t / 16) by lia.
        assert (Hrem : (t + 1) mod 16 = t mod 16 + 1) by lia.
        rewrite Hq, Hrem, Hp, Hb, Ht, Hm. auto. }
  split; [exact Hform|].
  intros Hn. destruct Hform as (Hp & Hb & _).
  rewrite Hp, Hb. subst t. rewrite Hn.
  unfold N_ADC_BUFFER_POS, N_ADC_BUFFERS in *.
  change (Z.of_nat (Z.to_nat (16 * 64))) with (64 * 16).
  rewrite Z.mod_add, Z.div_add by lia.
  rewrite Z.mod_small, Z.div_small, Z.add_0_l by lia.
  rewrite <- (Z.mul_1_l 64) at 1. rewrite Z.mod_add by lia.
  rewrite Z.mod_small by lia. auto.
Qed.

Lemma ADC_UpdateBufferIdx_iter_witness :
  iBufferPos (Nat.iter 1000 ADC_UpdateBufferIdx (set_iBuffer 60 (initial_state 1))) = 8 /\
  iBuffer (Nat.iter 1000 ADC_UpdateBufferIdx (set_iBuffer 60 (initial_state 1))) = 58 /\
  iBufferTransmit (Nat.iter 1000 ADC_UpdateBufferIdx (set_iBuffer 60 (initial_state 1))) = 57 /\
  iBuffer (Nat.iter 1024 ADC_UpdateBufferIdx (set_iBuffer 60 (initial_state 1))) = 60.
Proof.
  assert (Hm : ADC_EnabledInputs (set_iBuffer 60 (initial_state 1)) <> 0)
    by (simpl; lia).
  assert (Hb0 : 0 <= iBuffer (set_iBuffer 60 (initial_state 1)) < N_ADC_BUFFERS)
    by (simpl; unfold N_ADC_BUFFERS; lia).
  assert (Hp0 : 0 <= iBufferPos (set_iBuffer 60 (initial_state 1)) < N_ADC_BUFFER_POS)
    by (simpl; unfold N_ADC_BUFFER_POS; lia).
  destruct (ADC_UpdateBufferIdx_iter 1000 _ Hm Hb0 Hp0) as ((Hp & Hb & Ht & _) & _).
  destruct (ADC_UpdateBufferIdx_iter 1024 _ Hm Hb0 Hp0) as (_ & Hperiod).
  split; [exact Hp|]. split; [exact Hb|]. split; [exact Ht|].
  exact (proj2 (Hperiod eq_refl)).
Defined.

(** ** The gain after start-up *)

Section GainInvariant.
Context `{BoardDefs} `{VendorDefs}.

(** The scan changes the state only by starting a conversion. *)
Lemma ADC_StartRead_outcome (st : state) :
  ADC_StartRead st = st \/ exists k, ADC_StartRead st = start_conversion k st.
Proof.
  unfold ADC_StartRead.
  generalize (int32 (iReadInput st + 1)). intros i.
  generalize (Z.to_nat (N_ADC_INPUT - i)). intros n. revert i.
  induction n as [|n IH]; intros i; cbn [ADC_StartRead_loop]; [left; reflexivity|].
  destruct (i <? N_ADC_INPUT); [|left; reflexivity].
  destruct (negb _); [right; exists i; reflexivity|apply IH].
Qed.

Lemma ADC_UpdateBufferIdx_gain (st : state) :
  ADC_Gain (ADC_UpdateBufferIdx st) = ADC_Gain st /\
  ADC (ADC_UpdateBufferIdx st) = ADC st.
Proof.
  unfold ADC_UpdateBufferIdx. destruct (negb _); [|auto]. cbn.
  destruct (_ =? _); auto.
Qed.

Lemma ADC_StartRead_gain (st : state) : gain_ok st -> gain_ok (ADC_StartRead st).
Proof.
  intros Hok. destruct (ADC_StartRead_outcome st) as [->|[k ->]]; exact Hok.
Qed.

Lemma ADC_setGain_gain (Gain_in : Z) (st : state) :
  ((ADC_setGain Gain_in st).1 = true -> gain_ok (ADC_setGain Gain_in st).2) /\
  (gain_ok st -> gain_ok (ADC_setGain Gain_in st).2).
Proof.
  assert (Hleaf : forall g,
            (ADC_setGain g st = (false, st)) \/
            (In g [1; 2; 4; 8; 16] /\
             ADC_Gain (ADC_setGain g st).2 = g /\
             INPUTCTRL_GAIN (ADC (ADC_setGain g st).2) = gain_encoding g /\
             (ADC_setGain g st).1 = true)).
  { intros g. destruct g as [|p|p]; try (left; reflexivity).
    do 5 (try (destruct p as [p|p|]; try (left; reflexivity)));
      right; (split; [simpl; lia|repeat split]). }
  destruct (Hleaf Gain_in) as [->|(Hin & Hg & Henc & Hres)].
  - split; [discriminate|auto].
  - unfold gain_ok. rewrite Hg, Henc. split; intros _; split; auto.
Qed.

Lemma handle_gain (e : event) (st st' : state) :
  gain_ok st -> handle e st = Some st' -> gain_ok st'.
Proof.
  intros Hok Hhandle. destruct e as [|RESULT|Gain_in|enabled]; cbn [handle] in Hhandle.
  - injection Hhandle as <-. cbn [TC3_Handler INTFLAG_MC0 snd].
    apply ADC_StartRead_gain.
    destruct (ADC_UpdateBufferIdx_gain st) as [Hg Ha].
    unfold gain_ok. rewrite Hg, Ha. exact Hok.
  - destruct (conversion_running (ADC st)); [|injection Hhandle as <-; exact Hok].
    unfold ADC_Handler in Hhandle.
    destruct (buffer_store _ _ _ _ _) as [buf'|]; [|discriminate].
    cbn [mbind option_bind] in Hhandle. injection Hhandle as <-.
    apply ADC_StartRead_gain. exact Hok.
  - injection Hhandle as <-. apply (proj2 (ADC_setGain_gain Gain_in st)). exact Hok.
  - injection Hhandle as <-. exact Hok.
Qed.

(** X7: [InitADC] selects gain 1 through [ADC_setGain], whatever the
    registers held, and from then on [ADC_Gain] and the gain field of the
    peripheral agree: after any sequence of interrupts, gain commands
    (accepted or refused) and mask changes, [ADC_Gain] is one of 1, 2, 4, 8,
    16 and the gain field holds its encoding.  [InitADC] itself starts no
    conversion and leaves the buffers, indices and mask alone. *)
Theorem InitADC_gain_consistent (es : list event) (st : state) :
  (forall st', run es (InitADC st).2 = Some st' -> gain_ok st') /\
  (forall st0 st', gain_ok st0 -> run es st0 = Some st' -> gain_ok st') /\
  ADC_Gain (InitADC st).2 = 1 /\
  INPUTCTRL_MUXPOS (ADC (InitADC st).2) = mux_of 0 /\
  SWTRIG_START (ADC (InitADC st).2) = SWTRIG_START (ADC st) /\
  conversion_running (ADC (InitADC st).2) = conversion_running (ADC st) /\
  set_ADC (ADC st) (set_ADC_Gain (ADC_Gain st) (InitADC st).2) = st.
Proof.
  assert (Hrun : forall st0 st', gain_ok st0 -> run es st0 = Some st' -> gain_ok st').
  { induction es as [|e es IH]; intros st0 st' Hok Hrun.
    - injection Hrun as <-. exact Hok.
    - cbn [run] in Hrun. destruct (handle e st0) as [st1|] eqn:Hhandle; [|discriminate].
      cbn [mbind option_bind] in Hrun.
      apply (IH st1 st'); [|exact Hrun]. exact (handle_gain e st0 st1 Hok Hhandle). }
  split; [|split; [exact Hrun|]].
  - intros st'. apply Hrun. unfold InitADC. cbn [snd].
    apply (proj1 (ADC_setGain_gain 1 _)). reflexivity.
  - destruct st as [m buf b p t r g [mux gain log running]]. repeat split.
Qed.

End GainInvariant.

Lemma InitADC_gain_consistent_witness :
  exists st',
    run [GainCommand 3; TimerCompare; GainCommand 16; EnableInputs 2; GainCommand 0]
        (InitADC {| ADC_EnabledInputs := 0; ADC_buffer := []; iBuffer := 0;
                    iBufferPos := 0; iBufferTransmit := 0xff; iReadInput := -1;
                    ADC_Gain := 7; ADC := ADC_reset |}).2 = Some st' /\
    ADC_Gain st' = 16 /\ INPUTCTRL_GAIN (ADC st') = 4.
Proof.
  eexists. split; [vm_compute; reflexivity|].
  destruct (proj1 (InitADC_gain_consistent
                     [GainCommand 3; TimerCompare; GainCommand 16; EnableInputs 2;
                      GainCommand 0]
                     {| ADC_EnabledInputs := 0; ADC_buffer := []; iBuffer := 0;
                        iBufferPos := 0; iBufferTransmit := 0xff; iReadInput := -1;
                        ADC_Gain := 7; ADC := ADC_reset |}) _ eq_refl) as [_ Henc].
  split; [reflexivity|exact Henc].
Defined.

(** ** The compare value at and beyond the edges *)

(** X8: on a running timer (compare register non-zero), for a frequency the
    prescaled clock can reach, the installed period of [CC0 + 1] timer ticks
    is the longest one that is not slower than the request:
    [1024 * hz * (CC0 + 1) <= CPU_HZ < 1024 * hz * (CC0 + 2)], so the
    interrupt rate [CPU_HZ / (1024 * (CC0 + 1))] is never below [hz]; and a
    higher frequency never gets a larger compare value. *)
Theorem setTimerFrequency_period (hz hz' : Z) (tc tc' : TC_regs) :
  0 < hz -> hz <= hz' -> TIMER_PRESCALER_DIV * hz' <= CPU_HZ ->
  0 < CC0 tc < 65536 -> 0 < CC0 tc' < 65536 ->
  exists t t',
    setTimerFrequency hz tc = Some t /\ setTimerFrequency hz' tc' = Some t' /\
    TIMER_PRESCALER_DIV * hz * (CC0 t + 1) <= CPU_HZ
      < TIMER_PRESCALER_DIV * hz * (CC0 t + 2) /\
    hz <= CPU_HZ / (TIMER_PRESCALER_DIV * (CC0 t + 1)) /\
    0 <= CC0 t' <= CC0 t /\ CC0 t < 46875.
Proof.
  intros Hpos Hle Hmax Hcc Hcc'.
  assert (Hmax1 : TIMER_PRESCALER_DIV * hz <= CPU_HZ)
    by (unfold TIMER_PRESCALER_DIV, CPU_HZ in *; lia).
  destruct (compareValue_in_range hz Hpos Hmax1) as [Hcmp Hrange].
  destruct (compareValue_in_range hz' ltac:(lia) Hmax) as [Hcmp' Hrange'].
  destruct (setTimerFrequency_running hz _ tc Hcmp Hcc) as [count Hset].
  destruct (setTimerFrequency_running hz' _ tc' Hcmp' Hcc') as [count' Hset'].
  rewrite Hset, Hset'.
  eexists. eexists. split; [reflexivity|]. split; [reflexivity|].
  cbn [CC0]. rewrite !uint16_small by lia.
  unfold TIMER_PRESCALER_DIV, CPU_HZ in *.
  set (q := 48000000 / (1024 * hz)) in *.
  set (q' := 48000000 / (1024 * hz')) in *.
  pose proof (Z.div_mod 48000000 (1024 * hz) ltac:(lia)) as Hdm.
  pose proof (Z.mod_pos_bound 48000000 (1024 * hz) ltac:(lia)) as Hr.
  fold q in Hdm.
  assert (Hqq : q' <= q).
  { subst q q'. apply Z.div_le_compat_l; lia. }
  split; [nia|]. split; [|lia].
  apply Z.div_le_lower_bound; [lia|].
  replace (q - 1 + 1) with q by lia. nia.
Qed.

Lemma setTimerFrequency_period_witness :
  exists t t',
    setTimerFrequency 250 {| COUNT := 100; CC0 := 467; INTFLAG_MC0 := false |} = Some t /\
    setTimerFrequency 1000 {| COUNT := 39; CC0 := 186; INTFLAG_MC0 := false |} = Some t' /\
    250 <= CPU_HZ / (TIMER_PRESCALER_DIV * (CC0 t + 1)) /\
    CC0 t' <= CC0 t.
Proof.
  destruct (setTimerFrequency_period 250 1000
              {| COUNT := 100; CC0 := 467; INTFLAG_MC0 := false |}
              {| COUNT := 39; CC0 := 186; INTFLAG_MC0 := false |})
    as (t & t' & Hset & Hset' & _ & Hrate & Hmono).
  - lia.
  - lia.
  - vm_compute. discriminate.
  - simpl. lia.
  - simpl. lia.
  - exists t, t'. split; [exact Hset|]. split; [exact Hset'|].
    split; [exact Hrate|lia].
Defined.

(** X9: [setTimerFrequency] has no result exactly when it divides by zero:
    when the [int] product [TIMER_PRESCALER_DIV * frequencyHz] is 0, which
    for an [int] frequency means a multiple of 2^22, 0 first of all, or when
    the compare register holds 0 at the call, so that the rescaling of the
    counter has a zero divisor.  A frequency above what the prescaled clock
    can reach (but with the product still inside [int]) makes the compare
    value -1, stored in the 16 bit register of a running timer as 65535: the
    longest period, not the shortest. *)
Theorem setTimerFrequency_out_of_range (hz : Z) (tc : TC_regs) :
  -2147483648 <= hz < 2147483648 -> 0 <= CC0 tc < 65536 ->
  (setTimerFrequency hz tc = None <-> hz mod 4194304 = 0 \/ CC0 tc = 0) /\
  (CPU_HZ < TIMER_PRESCALER_DIV * hz < 2147483648 ->
   compareValue hz = Some (-1) /\
   (CC0 tc <> 0 ->
    exists t, setTimerFrequency hz tc = Some t /\ CC0 t = 65535)).
Proof.
  intros Hint Hreg.
  assert (Hzero : int32 (TIMER_PRESCALER_DIV * hz) = 0 <-> hz mod 4194304 = 0).
  { unfold int32, TIMER_PRESCALER_DIV.
    pose proof (Z.mod_pos_bound (1024 * hz + 2147483648) 4294967296 ltac:(lia)).
    pose proof (Z.div_mod (1024 * hz + 2147483648) 4294967296 ltac:(lia)).
    pose proof (Z.mod_pos_bound hz 4194304 ltac:(lia)).
    pose proof (Z.div_mod hz 4194304 ltac:(lia)).
    lia. }
  split.
  - destruct (Z.eq_dec (CC0 tc) 0) as [Hstop|Hrun].
    { split; [intros _; right; exact Hstop|].
      intros _. apply setTimerFrequency_stopped. exact Hstop. }
    destruct (compareValue hz) as [cmp|] eqn:Hcmp.
    + destruct (setTimerFrequency_running hz cmp tc Hcmp ltac:(lia)) as [count Hset].
      rewrite Hset. split; [discriminate|].
      intros [Hmod|Hstop]; [|contradiction].
      apply Hzero in Hmod. unfold compareValue in Hcmp. cbv zeta in Hcmp.
      rewrite Hmod in Hcmp. discriminate.
    + split; [|intros _; unfold setTimerFrequency; rewrite Hcmp; reflexivity].
      intros _. left. apply Hzero.
      unfold compareValue in Hcmp. cbv zeta in Hcmp.
      destruct (Z.eqb_spec (int32 (TIMER_PRESCALER_DIV * hz)) 0) as [Heq|Hne];
        [exact Heq|discriminate].
  - unfold TIMER_PRESCALER_DIV, CPU_HZ. intros Hhigh.
    assert (Hcmp : compareValue hz = Some (-1)).
    { unfold compareValue, TIMER_PRESCALER_DIV, CPU_HZ. cbv zeta.
      rewrite (int32_small (1024 * hz)) by lia.
      assert (Hne : (1024 * hz =? 0) = false) by (apply Z.eqb_neq; lia).
      rewrite Hne, Z.quot_small by lia. reflexivity. }
    split; [exact Hcmp|].
    intros Hrun.
    destruct (setTimerFrequency_running hz _ tc Hcmp ltac:(lia)) as [count Hset].
    rewrite Hset. eexists. split; reflexivity.
Qed.

Lemma setTimerFrequency_out_of_range_witness :
  setTimerFrequency 0 {| COUNT := 5; CC0 := 186; INTFLAG_MC0 := false |} = None /\
  setTimerFrequency 250 {| COUNT := 0; CC0 := 0; INTFLAG_MC0 := false |} = None /\
  exists t, setTimerFrequency 50000 {| COUNT := 5; CC0 := 186; INTFLAG_MC0 := false |}
            = Some t /\ CC0 t = 65535.
Proof.
  assert (Hreg : 0 <= CC0 {| COUNT := 5; CC0 := 186; INTFLAG_MC0 := false |} < 65536)
    by (simpl; lia).
  assert (Hreg0 : 0 <= CC0 {| COUNT := 0; CC0 := 0; INTFLAG_MC0 := false |} < 65536)
    by (simpl; lia).
  split; [|split].
  - apply (proj1 (setTimerFrequency_out_of_range 0 _ ltac:(lia) Hreg)).
    left. reflexivity.
  - apply (proj1 (setTimerFrequency_out_of_range 250 _ ltac:(lia) Hreg0)).
    right. reflexivity.
  - apply (proj2 (setTimerFrequency_out_of_range 50000 _ ltac:(lia) Hreg)).
    + vm_compute. split; reflexivity.
    + simpl. lia.
Defined.

(** ** The payload: size, bounds, and independence of the buffer being filled *)

Lemma buffer_load_out_of_range (buf : list (list (list Z))) (i j k : Z) :
  buffer_shape buf -> j < 0 \/ N_ADC_BUFFERS <= j -> buffer_load buf i j k = None.
Proof.
  intros [_ Hplanes] Hj. unfold buffer_load.
  destruct ((0 <=? i) && (0 <=? j) && (0 <=? k)) eqn:Hnonneg; [|reflexivity].
  rewrite !andb_true_iff, !Z.leb_le in Hnonneg.
  destruct (buf !! Z.to_nat i) as [plane|] eqn:Hplane; [|reflexivity].
  cbn [mbind option_bind].
  destruct (proj1 (Forall_lookup _ _) Hplanes _ _ Hplane) as [Hlp _].
  rewrite (lookup_ge_None_2 plane (Z.to_nat j)) by lia. reflexivity.
Qed.

Lemma length_enabled_inputs (enabled : Z) :
  (length (enabled_inputs enabled) <= 5)%nat.
Proof.
  unfold enabled_inputs, enabled_above.
  etransitivity; [apply List.filter_length_le|].
  rewrite length_seqZ. reflexivity.
Qed.

Lemma length_frame_bytes (buf : list (list (list Z))) (j : Z) (l : list Z) :
  buffer_shape buf -> 0 <= j < N_ADC_BUFFERS ->
  (forall c, c ∈ l -> 0 <= c < N_ADC_INPUT) ->
  length (concat ((fun c => sample_bytes (frame_row buf c j)) <$> l))
    = (32 * length l)%nat.
Proof.
  intros Hshape Hj. induction l as [|c l IH]; intros Hin; [reflexivity|].
  rewrite fmap_cons, concat_cons, length_app, length_sample_bytes.
  destruct (frame_row_lookup buf c j Hshape (Hin c ltac:(left)) Hj) as [-> _].
  rewrite IH by (intros c' Hc'; apply Hin; right; exact Hc').
  change (Z.to_nat N_ADC_BUFFER_POS) with 16%nat. cbn [length]. lia.
Qed.

Section PayloadEdges.
Context `{BoardDefs}.

Lemma UdpTransmit_positions_refused (n : nat) (st : state)
    (iInput iBuffer_in : Z) (out : list Z) :
  buffer_load (ADC_buffer st) iInput iBuffer_in 0 = None ->
  UdpTransmit_positions (S n) 0 st iInput iBuffer_in out = None.
Proof.
  intros Hload. cbn [UdpTransmit_positions].
  change (0 <? N_ADC_BUFFER_POS) with true. cbv iota.
  rewrite Hload. reflexivity.
Qed.

Lemma UdpTransmit_inputs_refused (n : nat) (iInput : Z) (st : state)
    (iBuffer_in : Z) (out : list Z) :
  buffer_shape (ADC_buffer st) ->
  iBuffer_in < 0 \/ N_ADC_BUFFERS <= iBuffer_in ->
  0 <= iInput -> (Z.to_nat (N_ADC_INPUT - iInput) <= n)%nat ->
  (exists c, iInput <= c < N_ADC_INPUT /\ Z.testbit (ADC_EnabledInputs st) c = true) ->
  UdpTransmit_inputs n iInput st iBuffer_in out = None.
Proof.
  intros Hshape Hj. revert iInput out.
  induction n as [|n IH]; intros iInput out Hi Hn (c & Hc & Hbit); [lia|].
  cbn [UdpTransmit_inputs].
  assert (Hlt : (iInput <? N_ADC_INPUT) = true) by (apply Z.ltb_lt; lia).
  rewrite Hlt, land_shiftl_testbit by lia.
  destruct (Z.testbit (ADC_EnabledInputs st) iInput) eqn:Hbit0.
  - change (Z.to_nat N_ADC_BUFFER_POS) with (S 15).
    rewrite UdpTransmit_positions_refused; [reflexivity|].
    apply buffer_load_out_of_range; assumption.
  - apply IH; [lia|lia|]. exists c. split; [|exact Hbit].
    destruct (Z.eq_dec c iInput) as [->|Hne]; [congruence|lia].
Qed.

Lemma UdpTransmit_inputs_none (n : nat) (iInput : Z) (st : state)
    (iBuffer_in : Z) (out : list Z) :
  0 <= iInput ->
  (forall c, iInput <= c < N_ADC_INPUT -> Z.testbit (ADC_EnabledInputs st) c = false) ->
  UdpTransmit_inputs n iInput st iBuffer_in out = Some out.
Proof.
  revert iInput. induction n as [|n IH]; intros iInput Hi Hnone; [reflexivity|].
  cbn [UdpTransmit_inputs].
  destruct (iInput <? N_ADC_INPUT) eqn:Hlt; [|reflexivity].
  apply Z.ltb_lt in Hlt. rewrite land_shiftl_testbit, Hnone by lia.
  apply IH; [lia|]. intros c Hc. apply Hnone. lia.
Qed.

(** X10: for a buffer inside the ring the payload consists of bytes, is
    [3 + 32 * (number of enabled inputs)] long and so never longer than 163
    bytes. *)
Theorem ADC_UdpTransmit_size (st : state) (iBuffer_in IP_in Port_in DataType : Z) :
  buffer_shape (ADC_buffer st) ->
  0 <= iBuffer_in < N_ADC_BUFFERS ->
  0 <= ADC_EnabledInputs st < 256 ->
  exists pkt,
    ADC_UdpTransmit st iBuffer_in IP_in Port_in DataType = Some pkt /\
    Forall (fun x => 0 <= x < 256) (pkt_payload pkt) /\
    length (pkt_payload pkt)
      = (3 + 32 * length (enabled_inputs (ADC_EnabledInputs st)))%nat /\
    (length (pkt_payload pkt) <= 163)%nat.
Proof.
  intros Hshape Hj Hmask. unfold ADC_UdpTransmit.
  rewrite UdpTransmit_inputs_spec by (try assumption; lia).
  cbn [mbind option_bind]. eexists. split; [reflexivity|]. cbn [pkt_payload].
  change (enabled_above (0 - 1) (ADC_EnabledInputs st))
    with (enabled_inputs (ADC_EnabledInputs st)).
  pose proof (length_enabled_inputs (ADC_EnabledInputs st)) as Hfive.
  assert (Hlen : length (concat ((fun c => sample_bytes
                                     (frame_row (ADC_buffer st) c iBuffer_in))
                                   <$> enabled_inputs (ADC_EnabledInputs st)))
                 = (32 * length (enabled_inputs (ADC_EnabledInputs st)))%nat).
  { apply length_frame_bytes; [exact Hshape|exact Hj|].
    intros c Hc. unfold enabled_inputs in Hc.
    apply elem_of_enabled_above in Hc. lia. }
  split; [|split].
  - apply Forall_app. split.
    + unfold uint8, N_ADC_BUFFERS in *.
      repeat constructor; try lia; apply Z.mod_pos_bound; lia.
    + apply Forall_concat, Forall_fmap, Forall_forall. intros c _.
      apply sample_bytes_bytes.
  - rewrite length_app, Hlen. reflexivity.
  - rewrite length_app, Hlen. cbn [length]. lia.
Qed.

(** X11: [ADC_UdpTransmit] does not check its buffer argument.  When an
    existing input [c] is enabled and the buffer number puts the cell
    [ADC_buffer[c][iBuffer_in][0]] at or beyond the end of the whole array
    (its position [(c * 64 + iBuffer_in) * 16] in the 5 * 64 * 16 cells is
    not below 5120; with 0xff, the "nothing to transmit" value of
    [iBufferTransmit], this is so for the inputs 2, 3 and 4), the transmit
    reads a sample outside [ADC_buffer].  With no existing input enabled no
    sample is read and the payload is the three header bytes, for every
    buffer number 0..255. *)
Theorem ADC_UdpTransmit_buffer_unchecked (st : state)
    (iBuffer_in IP_in Port_in DataType : Z) :
  (buffer_shape (ADC_buffer st) ->
   (exists c, 0 <= c < N_ADC_INPUT /\
              Z.testbit (ADC_EnabledInputs st) c = true /\
              N_ADC_INPUT * N_ADC_BUFFERS * N_ADC_BUFFER_POS
                <= (c * N_ADC_BUFFERS + iBuffer_in) * N_ADC_BUFFER_POS) ->
   ADC_UdpTransmit st iBuffer_in IP_in Port_in DataType = None) /\
  (0 <= iBuffer_in < 256 ->
   (forall c, 0 <= c < N_ADC_INPUT -> Z.testbit (ADC_EnabledInputs st) c = false) ->
   ADC_UdpTransmit st iBuffer_in IP_in Port_in DataType
     = Some {| pkt_ip := IP_in; pkt_port := Port_in;
               pkt_payload := [DataType mod 256; iBuffer_in; ADC_EnabledInputs st] |}).
Proof.
  split.
  - intros Hshape (c & Hc & Hbit & Hbeyond). unfold ADC_UdpTransmit.
    rewrite UdpTransmit_inputs_refused; try assumption; try lia; try reflexivity.
    + right. unfold N_ADC_INPUT, N_ADC_BUFFERS, N_ADC_BUFFER_POS in *. lia.
    + exists c. split; [lia|exact Hbit].
  - intros _ Hnone. unfold ADC_UdpTransmit.
    rewrite UdpTransmit_inputs_none by (try assumption; lia). reflexivity.
Qed.

End PayloadEdges.

Lemma ADC_UdpTransmit_size_witness :
  exists pkt,
    ADC_UdpTransmit (ramp_state 0x1f) 63 0 8888 68 = Some pkt /\
    Forall (fun x => 0 <= x < 256) (pkt_payload pkt) /\
    length (pkt_payload pkt) = 163%nat.
Proof.
  destruct (ADC_UdpTransmit_size (ramp_state 0x1f) 63 0 8888 68)
    as (pkt & Htx & Hbytes & Hlen & _).
  - apply ramp_shape.
  - unfold N_ADC_BUFFERS. lia.
  - simpl. lia.
  - exists pkt. split; [exact Htx|]. split; [exact Hbytes|exact Hlen].
Defined.

Lemma ADC_UdpTransmit_buffer_unchecked_witness :
  ADC_UdpTransmit (initial_state 4) 0xff 0 8888 68 = None /\
  ADC_UdpTransmit (initial_state 0xe0) 0xff 0 8888 68
    = Some {| pkt_ip := 0; pkt_port := 8888; pkt_payload := [68; 0xff; 0xe0] |}.
Proof.
  split.
  - apply (proj1 (ADC_UdpTransmit_buffer_unchecked (initial_state 4) 0xff 0 8888 68)).
    + apply initial_shape.
    + exists 2. split; [unfold N_ADC_INPUT; lia|]. split; [reflexivity|].
      vm_compute. discriminate.
  - apply (proj2 (ADC_UdpTransmit_buffer_unchecked (initial_state 0xe0) 0xff 0 8888 68)).
    + lia.
    + unfold N_ADC_INPUT. intros c Hc.
      assert (Hcases : c = 0 \/ c = 1 \/ c = 2 \/ c = 3 \/ c = 4) by lia.
      destruct Hcases as [->|[->|[->|[->| ->]]]]; reflexivity.
Defined.

Section PublishedFrame.
Context `{BoardDefs}.

Lemma UdpTransmit_positions_ext (n : nat) (iPos : Z) (st st' : state)
    (iInput iBuffer_in : Z) (out : list Z) :
  (forall k, buffer_load (ADC_buffer st') iInput iBuffer_in k
             = buffer_load (ADC_buffer st) iInput iBuffer_in k) ->
  UdpTransmit_positions n iPos st' iInput iBuffer_in out
    = UdpTransmit_positions n iPos st iInput iBuffer_in out.
Proof.
  intros Hsame. revert iPos out. induction n as [|n IH]; intros iPos out; [reflexivity|].
  cbn [UdpTransmit_positions]. destruct (iPos <? N_ADC_BUFFER_POS); [|reflexivity].
  rewrite Hsame.
  destruct (buffer_load (ADC_buffer st) iInput iBuffer_in iPos) as [v|]; [|reflexivity].
  cbn [mbind option_bind]. apply IH.
Qed.

Lemma UdpTransmit_inputs_ext (n : nat) (iInput : Z) (st st' : state)
    (iBuffer_in : Z) (out : list Z) :
  ADC_EnabledInputs st' = ADC_EnabledInputs st ->
  (forall i k, buffer_load (ADC_buffer st') i iBuffer_in k
               = buffer_load (ADC_buffer st) i iBuffer_in k) ->
  UdpTransmit_inputs n iInput st' iBuffer_in out
    = UdpTransmit_inputs n iInput st iBuffer_in out.
Proof.
  intros Hmask Hsame. revert iInput out.
  induction n as [|n IH]; intros iInput out; [reflexivity|].
  cbn [UdpTransmit_inputs]. rewrite Hmask.
  destruct (iInput <? N_ADC_INPUT); [|reflexivity].
  destruct (negb _); [|apply IH].
  rewrite (UdpTransmit_positions_ext _ _ st st') by (intros k; apply Hsame).
  destruct (UdpTransmit_positions _ _ st _ _ _) as [out'|]; [|reflexivity].
  cbn [mbind option_bind]. apply IH.
Qed.

Lemma ADC_StartRead_keeps (st : state) :
  ADC_EnabledInputs (ADC_StartRead st) = ADC_EnabledInputs st /\
  ADC_buffer (ADC_StartRead st) = ADC_buffer st /\
  iBuffer (ADC_StartRead st) = iBuffer st /\
  iBufferPos (ADC_StartRead st) = iBufferPos st /\
  iBufferTransmit (ADC_StartRead st) = iBufferTransmit st.
Proof.
  destruct (ADC_StartRead_outcome st) as [->|[k ->]]; repeat split.
Qed.

(** X12: the buffer handed to the transmitter is not the one being filled,
    and filling does not disturb it.  No interrupt and no gain command
    changes the payload [ADC_UdpTransmit] produces for a buffer other than
    the current [iBuffer]; and if [iBufferTransmit] differs from [iBuffer]
    it still does after the event. *)
Theorem published_frame_undisturbed (e : event) (st st' : state)
    (iBuffer_in IP_in Port_in DataType : Z) :
  handle e st = Some st' ->
  (forall enabled, e <> EnableInputs enabled) ->
  (iBuffer_in <> iBuffer st ->
   ADC_UdpTransmit st' iBuffer_in IP_in Port_in DataType
     = ADC_UdpTransmit st iBuffer_in IP_in Port_in DataType) /\
  (0 <= iBuffer st < N_ADC_BUFFERS -> iBufferTransmit st <> iBuffer st ->
   iBufferTransmit st' <> iBuffer st').
Proof.
  intros Hhandle Hevent.
  assert (Hpayload : ADC_EnabledInputs st' = ADC_EnabledInputs st ->
            (forall i k, buffer_load (ADC_buffer st') i iBuffer_in k
                         = buffer_load (ADC_buffer st) i iBuffer_in k) ->
            ADC_UdpTransmit st' iBuffer_in IP_in Port_in DataType
              = ADC_UdpTransmit st iBuffer_in IP_in Port_in DataType).
  { intros Hmask Hsame. unfold ADC_UdpTransmit.
    rewrite Hmask, (UdpTransmit_inputs_ext _ _ st st') by assumption. reflexivity. }
  destruct e as [|RESULT|Gain_in|enabled]; cbn [handle] in Hhandle.
  - (* timer *)
    injection Hhandle as <-. cbn [TC3_Handler INTFLAG_MC0 snd].
    destruct (ADC_StartRead_keeps (ADC_UpdateBufferIdx st)) as (Hm & Hs & Hb & _ & Ht).
    assert (Hupd : ADC_EnabledInputs (ADC_UpdateBufferIdx st) = ADC_EnabledInputs st /\
                   ADC_buffer (ADC_UpdateBufferIdx st) = ADC_buffer st).
    { unfold ADC_UpdateBufferIdx. destruct (negb _); [|auto]. cbn.
      destruct (_ =? _); auto. }
    destruct Hupd as [Hm0 Hs0]. split.
    + intros _. apply Hpayload; [congruence|]. intros i k. rewrite Hs, Hs0. reflexivity.
    + intros Hrange Hne. rewrite Hb, Ht.
      unfold ADC_UpdateBufferIdx. destruct (negb _); [|exact Hne]. cbn.
      destruct (_ =? _); [|exact Hne]. cbn.
      unfold uint8, N_ADC_BUFFERS in *.
      rewrite (Z.mod_small (iBuffer st + 1)) by lia.
      rewrite Z.rem_mod_nonneg by lia.
      destruct (Z.eq_dec (iBuffer st) 63) as [->|Hlt]; [discriminate|].
      rewrite (Z.mod_small (iBuffer st + 1) 64) by lia.
      rewrite Z.mod_small by lia. lia.
  - (* conversion complete *)
    destruct (conversion_running (ADC st)).
    + unfold ADC_Handler in Hhandle.
      cbn [read_RESULT set_ADC ADC_buffer iReadInput iBuffer iBufferPos] in Hhandle.
      destruct (buffer_store _ _ _ _ _) as [buf'|] eqn:Hstore; [|discriminate].
      cbn [mbind option_bind] in Hhandle. injection Hhandle as <-.
      destruct (ADC_StartRead_keeps (set_ADC_buffer buf' (read_RESULT st)))
        as (Hm & Hs & Hb & _ & Ht).
      split.
      * intros Hne. apply Hpayload; [exact Hm|]. intros i k. rewrite Hs.
        apply (buffer_store_other _ _ _ _ _ _ _ _ _ Hstore). tauto.
      * intros _ Hne. rewrite Hb, Ht. exact Hne.
    + injection Hhandle as <-. auto.
  - (* gain *)
    injection Hhandle as <-.
    assert (Hkeep : ADC_EnabledInputs (ADC_setGain Gain_in st).2 = ADC_EnabledInputs st /\
                    ADC_buffer (ADC_setGain Gain_in st).2 = ADC_buffer st /\
                    iBuffer (ADC_setGain Gain_in st).2 = iBuffer st /\
                    iBufferTransmit (ADC_setGain Gain_in st).2 = iBufferTransmit st).
    { unfold ADC_setGain. destruct (match Gain_in with
              | 1 => Some ADC_INPUTCTRL_GAIN_1X_Val
              | 2 => Some ADC_INPUTCTRL_GAIN_2X_Val
              | 4 => Some ADC_INPUTCTRL_GAIN_4X_Val
              | 8 => Some ADC_INPUTCTRL_GAIN_8X_Val
              | 16 => Some ADC_INPUTCTRL_GAIN_16X_Val
              | _ => None
              end); repeat split. }
    destruct Hkeep as (Hm & Hs & Hb & Ht). split.
    + intros _. apply Hpayload; [exact Hm|]. intros i k. rewrite Hs. reflexivity.
    + intros _ Hne. rewrite Hb, Ht. exact Hne.
  - exfalso. exact (Hevent enabled eq_refl).
Qed.

End PublishedFrame.

Lemma published_frame_undisturbed_witness :
  exists st',
    handle (ResultReady 0x0ABC)
      {| ADC_EnabledInputs := 1;
         ADC_buffer := [[replicate 16 1; replicate 16 2]];
         iBuffer := 0; iBufferPos := 3; iBufferTransmit := 1; iReadInput := 0;
         ADC_Gain := 1;
         ADC := {| INPUTCTRL_MUXPOS := 2; INPUTCTRL_GAIN := 0;
                   SWTRIG_START := [2]; conversion_running := true |} |}
      = Some st' /\
    buffer_load (ADC_buffer st') 0 0 3 = Some (0x0ABC - 4096) /\
    (pkt_payload <$> ADC_UdpTransmit st' 1 0 8888 68)
      = Some ([68; 1; 1] ++ sample_bytes (replicate 16 2)) /\
    iBufferTransmit st' <> iBuffer st'.
Proof.
  eexists. split; [vm_compute; reflexivity|]. split; [reflexivity|].
  match goal with
  | |- context [ADC_UdpTransmit ?s' 1 0 8888 68] =>
      pose proof (published_frame_undisturbed (ResultReady 0x0ABC)
                    {| ADC_EnabledInputs := 1;
                       ADC_buffer := [[replicate 16 1; replicate 16 2]];
                       iBuffer := 0; iBufferPos := 3; iBufferTransmit := 1;
                       iReadInput := 0; ADC_Gain := 1;
                       ADC := {| INPUTCTRL_MUXPOS := 2; INPUTCTRL_GAIN := 0;
                                 SWTRIG_START := [2]; conversion_running := true |} |}
                    s' 1 0 8888 68 eq_refl ltac:(discriminate)) as [Hsame Hkeep]
  end.
  split.
  - rewrite Hsame by (simpl; lia). reflexivity.
  - apply Hkeep; simpl; unfold N_ADC_BUFFERS; lia.
Defined.
